(** * et-demands: the crop growing-degree-day engine and the climate normalizer

    A shallow embedding of

    - [cropET/bin/compute_crop_gdd.py]: [compute_crop_gdd], the daily update of
      the 30 day reference ET average, the season reset and the growing degree
      day (GDD) accounting of the three crop policies;
    - [cropET/bin/crop_cycle.py]: [DayData] and [crop_day_loop], the per day
      loop of one (cell, crop) run;
    - [cropET/bin/et_cell.py]: the long term normals and the snow depth
      estimate of [ETCell.process_climate].

    Numbers.  Python floats are modelled by exact rationals ([Q], compared
    with [==]); rounding, infinities and NaN are outside the model.  Day
    numbers, class numbers and curve numbers are integers ([Z]).

    Code that is not among the sources.  [util.aFNEs], the methods
    [setup_crop] and [setup_dormant] of [InitializeCropCycle] and the ET
    physics of [compute_crop_et] are parameters of the daily loop; the
    properties of whole runs assume that they leave the fields of the growing
    degree day accumulator ([etref_30], [cgdd], [gdd], [penalty],
    [cgdd_penalty], [lDoy]) as they find them.  The calls of pandas and numpy
    are modelled by what they compute on columns without missing values. *)

From Stdlib Require Import QArith Qminmax Qround ZArith List Sorted Ascii String
  Bool Lia Lqa.
Import ListNotations.

Local Open Scope Q_scope.

(** ** Comparisons on rationals, as booleans *)

Definition Qltb (x y : Q) : bool := if Qlt_le_dec x y then true else false.
Definition Qleb (x y : Q) : bool := if Qlt_le_dec y x then false else true.

(** ** Python containers *)

(** [x in [a, b, ...]] on integers. *)
Definition in_list (x : Z) (l : list Z) : bool := existsb (Z.eqb x) l.

(** [sub in s] on strings: [sub] occurs in [s] as a substring. *)
Fixpoint contains (sub s : string) : bool :=
  String.prefix sub s
  || match s with
     | EmptyString => false
     | String _ s' => contains sub s'
     end.

(** [a[i] = v] on an array.  Every index written by the code below lies
    within the 30 slots of [etref_array]; an index past the end (an
    [IndexError] in Python) leaves the list as it is. *)
Fixpoint set_nth (i : nat) (v : Q) (a : list Q) : list Q :=
  match a, i with
  | [], _ => []
  | _ :: a', O => v :: a'
  | x :: a', S i' => x :: set_nth i' v a'
  end.

(** [a[lo:hi]] and [a[-n:]] *)
Definition slice {A : Type} (lo hi : nat) (a : list A) : list A :=
  firstn (hi - lo) (skipn lo a).

Definition lastn {A : Type} (n : nat) (a : list A) : list A :=
  skipn (List.length a - n) a.

(** The sum and the mean of a list of numbers. *)
Definition sum (l : list Q) : Q := fold_right Qplus 0 l.

Definition mean (l : list Q) : Q := sum l / inject_Z (Z.of_nat (List.length l)).

(** ** Data model *)

(** The fields of a crop parameter set that [compute_crop_gdd] reads. *)
Record Crop : Type := mkCrop {
  class_number : Z;
  curve_number : Z;
  curve_name : string;
  tbase : Q;
  crop_gdd_trigger_doy : Z
}.

(** [foo], the instance of [InitializeCropCycle] that lives for a whole
    (cell, crop) run: the fields this part of the program reads or writes. *)
Record InitializeCropCycle : Type := mkFoo {
  etref_30 : Q;
  cgdd : Q;
  gdd : Q;
  penalty : Q;
  cgdd_penalty : Q;
  lDoy : Z;
  doy_start_cycle : Z;
  real_start : bool;
  in_season : bool;
  crop_setup_flag : bool;
  dormant_setup_flag : bool
}.

(** [foo_day], the instance of [DayData]: the 30 slot array made by
    [__init__] and the fields [crop_day_loop] fills in each day.  [sdays] is
    set to [i + 1] for an index [i] of [enumerate], hence positive. *)
Record DayData : Type := mkDay {
  etref_array : list Q;
  sdays : positive;
  doy : Z;
  tmax_orig : Q;
  tdew : Q;
  wind : Q;
  u2 : Q;
  etref : Q;
  tmean : Q;
  tmin : Q;
  tmax : Q;
  snow_depth : Q;
  t30 : Q;
  precip : Q;
  rh_min : Q
}.

(** [np.zeros(30)] *)
Definition DayData_init : list Q := repeat 0 30.

(** *** Assignments to single fields *)

Definition set_etref_30 (v : Q) (foo : InitializeCropCycle) : InitializeCropCycle :=
  mkFoo v (cgdd foo) (gdd foo) (penalty foo) (cgdd_penalty foo) (lDoy foo)
        (doy_start_cycle foo) (real_start foo) (in_season foo)
        (crop_setup_flag foo) (dormant_setup_flag foo).

Definition set_cgdd (v : Q) (foo : InitializeCropCycle) : InitializeCropCycle :=
  mkFoo (etref_30 foo) v (gdd foo) (penalty foo) (cgdd_penalty foo) (lDoy foo)
        (doy_start_cycle foo) (real_start foo) (in_season foo)
        (crop_setup_flag foo) (dormant_setup_flag foo).

Definition set_gdd (v : Q) (foo : InitializeCropCycle) : InitializeCropCycle :=
  mkFoo (etref_30 foo) (cgdd foo) v (penalty foo) (cgdd_penalty foo) (lDoy foo)
        (doy_start_cycle foo) (real_start foo) (in_season foo)
        (crop_setup_flag foo) (dormant_setup_flag foo).

Definition set_penalty (v : Q) (foo : InitializeCropCycle) : InitializeCropCycle :=
  mkFoo (etref_30 foo) (cgdd foo) (gdd foo) v (cgdd_penalty foo) (lDoy foo)
        (doy_start_cycle foo) (real_start foo) (in_season foo)
        (crop_setup_flag foo) (dormant_setup_flag foo).

Definition set_cgdd_penalty (v : Q) (foo : InitializeCropCycle) : InitializeCropCycle :=
  mkFoo (etref_30 foo) (cgdd foo) (gdd foo) (penalty foo) v (lDoy foo)
        (doy_start_cycle foo) (real_start foo) (in_season foo)
        (crop_setup_flag foo) (dormant_setup_flag foo).

Definition set_lDoy (v : Z) (foo : InitializeCropCycle) : InitializeCropCycle :=
  mkFoo (etref_30 foo) (cgdd foo) (gdd foo) (penalty foo) (cgdd_penalty foo) v
        (doy_start_cycle foo) (real_start foo) (in_season foo)
        (crop_setup_flag foo) (dormant_setup_flag foo).

Definition set_doy_start_cycle (v : Z) (foo : InitializeCropCycle) : InitializeCropCycle :=
  mkFoo (etref_30 foo) (cgdd foo) (gdd foo) (penalty foo) (cgdd_penalty foo)
        (lDoy foo) v (real_start foo) (in_season foo)
        (crop_setup_flag foo) (dormant_setup_flag foo).

Definition set_real_start (v : bool) (foo : InitializeCropCycle) : InitializeCropCycle :=
  mkFoo (etref_30 foo) (cgdd foo) (gdd foo) (penalty foo) (cgdd_penalty foo)
        (lDoy foo) (doy_start_cycle foo) v (in_season foo)
        (crop_setup_flag foo) (dormant_setup_flag foo).

Definition set_in_season (v : bool) (foo : InitializeCropCycle) : InitializeCropCycle :=
  mkFoo (etref_30 foo) (cgdd foo) (gdd foo) (penalty foo) (cgdd_penalty foo)
        (lDoy foo) (doy_start_cycle foo) (real_start foo) v
        (crop_setup_flag foo) (dormant_setup_flag foo).

Definition set_etref_array (a : list Q) (d : DayData) : DayData :=
  mkDay a (sdays d) (doy d) (tmax_orig d) (tdew d) (wind d) (u2 d) (etref d)
        (tmean d) (tmin d) (tmax d) (snow_depth d) (t30 d) (precip d) (rh_min d).

(** ** [compute_crop_gdd] *)

(** Lines 13-24: the 30 day mean of the reference ET.  The [for] loop over
    [range(29)] copies slot [idx + 1] into slot [idx]. *)
Definition shift_etref_array (a : list Q) : list Q :=
  fold_left (fun a idx => set_nth idx (nth (idx + 1) a 0) a) (seq 0 29) a.

Definition etref_30_update (foo : InitializeCropCycle) (foo_day : DayData)
  : InitializeCropCycle * DayData :=
  if (30 <? Z.pos (sdays foo_day))%Z then
    let etref_lost := nth 0 (etref_array foo_day) 0 in
    let a := shift_etref_array (etref_array foo_day) in
    let a := set_nth 29 (etref foo_day) a in
    (set_etref_30 (etref_30 foo + (etref foo_day - etref_lost) / 30) foo,
     set_etref_array a foo_day)
  else
    let a := set_nth (Pos.to_nat (sdays foo_day) - 1) (etref foo_day)
                     (etref_array foo_day) in
    (set_etref_30
       ((etref_30 foo * inject_Z (Z.pos (sdays foo_day) - 1) + etref foo_day)
        / inject_Z (Z.pos (sdays foo_day))) foo,
     set_etref_array a foo_day).

(** Lines 38-41 and 47-50: the four assignments of a season reset. *)
Definition reset_season (foo : InitializeCropCycle) : InitializeCropCycle :=
  set_in_season false (set_real_start false (set_doy_start_cycle 0 (set_cgdd 0 foo))).

(** Line 35: the crops that are reset as winter crops. *)
Definition winter_crop (crop : Crop) : bool :=
  in_list (class_number crop) [13; 14]%Z || contains "WINTER" (curve_name crop).

(** Lines 77-78: the crops whose growing degree days follow the winter
    grain method. *)
Definition winter_grain (crop : Crop) : bool :=
  in_list (class_number crop) [13; 14]%Z
  || String.eqb (curve_name crop) "WINTER WHEAT".

(** Lines 35-51: the season reset. *)
Definition cgdd_reset (crop : Crop) (foo : InitializeCropCycle) (foo_day : DayData)
  : InitializeCropCycle :=
  if winter_crop crop then
    let foo :=
      if (lDoy foo <? crop_gdd_trigger_doy crop)%Z
         && (doy foo_day >=? crop_gdd_trigger_doy crop)%Z
      then reset_season foo else foo in
    set_lDoy (doy foo_day) foo
  else
    let foo :=
      if (lDoy foo >? crop_gdd_trigger_doy crop + 199)%Z
         && (doy foo_day <? crop_gdd_trigger_doy crop + 199)%Z
      then reset_season foo else foo in
    set_lDoy (doy foo_day) foo.

(** Lines 109-122: the limited temperatures of the corn method. *)
Definition tmaxl (crop : Crop) (foo_day : DayData) : Q :=
  let t := tmax foo_day in
  let t := if Qltb 30 (tmax foo_day) then 30 else t in
  if Qltb (tmax foo_day) (- tbase crop) then - tbase crop else t.

Definition tminl (crop : Crop) (foo_day : DayData) : Q :=
  let t := tmin foo_day in
  let t := if Qltb 30 (tmin foo_day) then 30 else t in
  if Qltb (tmin foo_day) (- tbase crop) then - tbase crop else t.

Definition tmeanl (crop : Crop) (foo_day : DayData) : Q :=
  (1 # 2) * (tmaxl crop foo_day + tminl crop foo_day).

(** Lines 80-106: winter wheat or winter grain. *)
Definition cgdd_update_winter (crop : Crop) (foo : InitializeCropCycle)
  (foo_day : DayData) : InitializeCropCycle :=
  let foo := set_gdd 0 foo in
  let foo :=
    if Qltb (tmin foo_day) (-4) then set_gdd 0 foo
    else if Qltb (tbase crop) (tmean foo_day)
         then set_gdd (tmean foo_day - tbase crop) foo
         else foo in
  let foo := set_gdd (gdd foo - penalty foo) foo in
  let foo := set_penalty 0 foo in
  let foo := set_gdd (Qmax (gdd foo) 0) foo in
  let foo := set_cgdd (cgdd foo + gdd foo - cgdd_penalty foo) foo in
  let foo := set_cgdd_penalty 0 foo in
  let foo := set_cgdd (Qmax 0 (cgdd foo)) foo in
  let foo :=
    if Qltb (tmin foo_day) (-10) then set_penalty 5 foo else set_penalty 0 foo in
  if Qltb (tmin foo_day) (-25) then
    if Qleb (snow_depth foo_day) 0
    then set_cgdd_penalty (cgdd foo * (1 # 10)) foo
    else foo
  else foo.

(** Lines 107-124: corn, flagged by a negative [tbase]. *)
Definition cgdd_update_corn (crop : Crop) (foo : InitializeCropCycle)
  (foo_day : DayData) : InitializeCropCycle :=
  set_cgdd (cgdd foo + tmeanl crop foo_day + tbase crop) foo.

(** Lines 64-128: the growing degree days since the trigger date. *)
Definition cgdd_update (crop : Crop) (foo : InitializeCropCycle) (foo_day : DayData)
  : InitializeCropCycle :=
  if (curve_number crop >? 0)%Z then
    if winter_grain crop then cgdd_update_winter crop foo foo_day
    else if Qltb (tbase crop) 0 then cgdd_update_corn crop foo foo_day
    else if Qltb (tbase crop) (tmean foo_day) then
      let foo := set_gdd (tmean foo_day - tbase crop) foo in
      set_cgdd (cgdd foo + gdd foo) foo
    else foo
  else foo.

(** The whole function: [foo] and [foo_day] are updated in place; the
    argument [data] is not used. *)
Definition compute_crop_gdd (crop : Crop) (foo : InitializeCropCycle)
  (foo_day : DayData) : InitializeCropCycle * DayData :=
  let '(foo, foo_day) := etref_30_update foo foo_day in
  let foo := cgdd_reset crop foo foo_day in
  (cgdd_update crop foo foo_day, foo_day).

(** ** [crop_day_loop] *)

(** A date of the series: its ordinal, which orders dates, and its day of the
    year, [int(step_dt.strftime('%j'))]. *)
Record date : Type := mkDate {
  toordinal : Z;
  strftime_j : Z
}.

(** Index [i] of the arrays of [et_cell.refet] and [et_cell.climate], which all
    have the length of the date series: the inputs of time step [i]. *)
Record TimeStep : Type := mkStep {
  Dates : date;
  TMax : Q;
  TDew : Q;
  Wind : Q;
  ASCEPMStdETo : Q;
  ASCEPMStdETr : Q;
  tmean_array : Q;
  tmin_array : Q;
  tmax_array : Q;
  climate_snow_depth : Q;
  t30_array : Q;
  climate_precip : Q
}.

(** The truth value of a numpy array, taken by [and], [or], [not] and [if]:
    that of its only element, [False] for an empty array, and a [ValueError]
    ("The truth value of an array with more than one element is ambiguous")
    otherwise.  [None] stands for the exception. *)
Definition ndarray_bool (a : list bool) : option bool :=
  match a with
  | [] => Some false
  | [b] => Some b
  | _ :: _ :: _ => None
  end.

(** [x and y]: [x] if [x] is false, else [y]. *)
Definition ndarray_and (x y : list bool) : option (list bool) :=
  match ndarray_bool x with
  | None => None
  | Some false => Some x
  | Some true => Some y
  end.

(** Lines 111-113.  The values of [et_cell.refet] are numpy arrays (docstring
    of [ETCell.set_refet_data]), so each comparison is a boolean array. *)
Definition date_mask (dates : list date) (start_dt end_dt : date)
  : option (list bool) :=
  ndarray_and
    (map (fun d => (toordinal d >=? toordinal start_dt)%Z) dates)
    (map (fun d => (toordinal d <=? toordinal end_dt)%Z) dates).

(** What the window filter is meant to be: the conjunction, element by
    element, of the two comparisons. *)
Definition elementwise_mask (dates : list date) (start_dt end_dt : date)
  : list bool :=
  map (fun d => (toordinal d >=? toordinal start_dt)%Z
                && (toordinal d <=? toordinal end_dt)%Z) dates.

(** Lines 105-108: the reference ET of a time step, [ETr] or [ETo]. *)
Definition refet_array (refet_type : Z) (s : TimeStep) : Q :=
  if (refet_type >? 0)%Z then ASCEPMStdETr s else ASCEPMStdETo s.

Section DayLoop.

(** Code of the repository that is not among the sources: the saturation
    vapour pressure [util.aFNEs], the methods [setup_crop] and
    [setup_dormant] of [InitializeCropCycle], and what [compute_crop_et]
    does after the growing degree days (crop height, crop coefficients,
    soil water balance). *)
Variable aFNEs : Q -> Q.
Variable setup_crop : Crop -> InitializeCropCycle -> InitializeCropCycle.
Variable setup_dormant : Crop -> InitializeCropCycle -> InitializeCropCycle.
Variable et_physics : Crop -> InitializeCropCycle -> DayData -> InitializeCropCycle.

(** Lines 183-190. *)
Definition compute_rh_min (tdew tmax_orig : Q) : Q :=
  if Qltb tdew (-90) || Qltb tmax_orig (-90) then 30
  else
    let es_tdew := aFNEs tdew in
    let es_tmax := aFNEs tmax_orig in
    Qmin (es_tdew / es_tmax * 100) 100.

(** Lines 157-190: the fields of [foo_day] at index [i]; the
    array [etref_array] is the one of the day before. *)
Definition fill_foo_day (refet_type : Z) (i : nat) (s : TimeStep)
  (a : list Q) : DayData :=
  mkDay a (Pos.of_succ_nat i) (strftime_j (Dates s)) (TMax s) (TDew s)
        (Wind s) (Wind s) (refet_array refet_type s) (tmean_array s) (tmin_array s)
        (tmax_array s) (climate_snow_depth s) (t30_array s) (climate_precip s)
        (compute_rh_min (TDew s) (TMax s)).

(** Modelled from the spec: [compute_crop_et.compute_crop_et], which is not
    among the sources; the daily loop invokes the growing degree day
    accumulator and then the ET physics on the updated state. *)
Definition compute_crop_et (crop : Crop) (foo : InitializeCropCycle)
  (foo_day : DayData) : InitializeCropCycle * DayData :=
  let '(foo, foo_day) := compute_crop_gdd crop foo foo_day in
  (et_physics crop foo foo_day, foo_day).

(** Lines 143-195: one pass of the loop body for a selected day.  The
    state that lasts from day to day is [foo] and the array of [foo_day].
    The lines written to the output file are left out. *)
Definition crop_day (refet_type : Z) (crop : Crop) (i : nat) (s : TimeStep)
  (foo : InitializeCropCycle) (a : list Q) : InitializeCropCycle * list Q :=
  let foo :=
    if negb (in_season foo) && crop_setup_flag foo
    then setup_crop crop foo else foo in
  let foo :=
    if negb (in_season foo) && dormant_setup_flag foo
    then setup_dormant crop foo else foo in
  let foo_day := fill_foo_day refet_type i s a in
  let '(foo, foo_day) := compute_crop_et crop foo foo_day in
  (foo, etref_array foo_day).

(** Lines 115-195: the loop over [enumerate(et_cell.refet['Dates'])],
    from index [i] on; a day whose mask entry is false is skipped. *)
Fixpoint day_loop (refet_type : Z) (crop : Crop) (mask : list bool) (i : nat)
  (steps : list TimeStep) (foo : InitializeCropCycle) (a : list Q)
  : InitializeCropCycle * list Q :=
  match steps with
  | [] => (foo, a)
  | s :: steps' =>
      if negb (nth i mask false) then
        day_loop refet_type crop mask (S i) steps' foo a
      else
        let '(foo, a) := crop_day refet_type crop i s foo a in
        day_loop refet_type crop mask (S i) steps' foo a
  end.

(** Lines 84-195.  [None] is the [ValueError] of the date mask. *)
Definition crop_day_loop (refet_type : Z) (crop : Crop)
  (foo : InitializeCropCycle) (start_dt end_dt : date)
  (steps : list TimeStep) : option (InitializeCropCycle * list Q) :=
  match date_mask (map Dates steps) start_dt end_dt with
  | None => None
  | Some mask => Some (day_loop refet_type crop mask 0 steps foo DayData_init)
  end.

End DayLoop.

(** ** [ETCell.process_climate] *)

Module ETCell.

(** A row of [climate_pd], after the aridity adjustment of the
    temperatures: the year of its index and its columns. *)
Record row : Type := mkRow {
  year : Z;
  doy : Z;
  tmax : Q;
  tmin : Q;
  snow : Q;
  snow_depth : Q
}.

(** Line 544: [climate_pd[["tmax", "tmin"]].mean(axis=1)] *)
Definition tmean (r : row) : Q := (tmax r + tmin r) / 2.

(** Lines 545-546: [pd.rolling_mean(x, window, min_periods=1)]; entry [i]
    is the mean of the last [window] entries up to [i], or of all of them
    while there are fewer. *)
Definition rolling_mean (window : nat) (x : list Q) : list Q :=
  map (fun i => mean (slice (S i - window) (S i) x)) (seq 0 (List.length x)).

Definition t30 (rows : list row) : list Q := rolling_mean 30 (map tmean rows).

(** Lines 552-553: the growing degree days above 0 of a day. *)
Definition gdd0 (r : row) : Q := if Qleb (tmean r) 0 then 0 else tmean r.

(** Lines 563-564: [groupby(year).cgdd.cumsum()]; entry [i] adds up the
    rows up to [i] that are of the year of row [i]. *)
Fixpoint cumsum_by_year (seen : list (Z * Q)) (rows : list row) : list Q :=
  match rows with
  | [] => []
  | r :: rows' =>
      let s :=
        sum (map snd (filter (fun p => (fst p =? year r)%Z) seen)) + gdd0 r in
      s :: cumsum_by_year (seen ++ [(year r, gdd0 r)]) rows'
  end.

Definition cgdd (rows : list row) : list Q := cumsum_by_year [] rows.

(** [groupby('doy')]: the groups, in increasing order of the key, each
    with the sum and the number of its values. *)
Fixpoint group_add (k : Z) (v : Q) (g : list (Z * (Q * nat)))
  : list (Z * (Q * nat)) :=
  match g with
  | [] => [(k, (v, 1%nat))]
  | (k', (s, n)) :: g' =>
      if (k <? k')%Z then (k, (v, 1%nat)) :: g
      else if (k =? k')%Z then (k', (s + v, S n)) :: g'
      else (k', (s, n)) :: group_add k v g'
  end.

Definition groupby (kv : list (Z * Q)) : list (Z * (Q * nat)) :=
  fold_left (fun g p => group_add (fst p) (snd p) g) kv [].

(** [groupby('doy').mean()] as an array: one mean per key. *)
Definition groupby_mean (kv : list (Z * Q)) : list Q :=
  map (fun g => fst (snd g) / inject_Z (Z.of_nat (snd (snd g)))) (groupby kv).

(** [np.insert(a, 0, a[0])]; [None] is the [IndexError] on an empty
    array. *)
Definition insert_first (a : list Q) : option (list Q) :=
  match a with
  | [] => None
  | x :: _ => Some (x :: a)
  end.

(** Lines 549 and 574: the long term 30 day mean temperature. *)
Definition main_t30_lt (rows : list row) : option (list Q) :=
  insert_first (groupby_mean (combine (map doy rows) (t30 rows))).

(** Lines 570 and 575: the long term cumulative growing degree days. *)
Definition main_cgdd_0_lt (rows : list row) : option (list Q) :=
  insert_first (groupby_mean (combine (map doy rows) (cgdd rows))).

(** The outcome of a block that can raise. *)
Inductive result (A : Type) : Type :=
| Ok (a : A)
| UnboundLocalError.
Arguments Ok {A} a.
Arguments UnboundLocalError {A}.

(** Lines 584-594: the loop of the snow depth estimate.  The local variable
    [snow_accum] is [None] while nothing has been assigned to it; reading it
    then raises.  The result is the column [snow_depth] as rewritten. *)
Fixpoint snow_loop (snow_accum : option Q) (rows : list row)
  : result (list Q) :=
  match rows with
  | [] => Ok []
  | r :: rows' =>
      match snow_accum with
      | None => UnboundLocalError
      | Some acc =>
          let acc := acc + snow r * (1 # 2) in
          let snow_melt := Qmax (4 * tmax r) 0 in
          let acc := Qmax (acc - snow_melt) 0 in
          let depth := Qmin (snow_depth r) acc in
          match snow_loop (Some acc) rows' with
          | Ok l => Ok (depth :: l)
          | UnboundLocalError => UnboundLocalError
          end
      end
  end.

(** Lines 583-594: nothing is assigned to [snow_accum] before the loop. *)
Definition snow_depth_estimate (rows : list row) : result (list Q) :=
  if existsb (fun r => negb (Qeq_bool (snow r) 0)) rows
  then snow_loop None rows
  else Ok (map snow_depth rows).

End ETCell.

(** ** [ETCell.process_climate]: the aridity adjustment *)

(** Lines 532-541: the adjustment by month, for the months 0 to 12. *)
Definition aridity_adj : list Q :=
  [0; 0; 0; 0; 1; 3 # 2; 2; 7 # 2; 9 # 2; 3; 0; 0; 0].

(** [np.clip(x, lo, hi)] *)
Definition clip (x lo hi : Q) : Q := Qmin (Qmax x lo) hi.

(** [np.interp(x, range(len(fp)), fp)]: at a point between two indices the
    value on the line between the two entries; before the first index the
    first entry, from the last index on the last entry. *)
Definition interp (x : Q) (fp : list Q) : Q :=
  if Qltb x 0 then nth 0 fp 0
  else if Qleb (inject_Z (Z.of_nat (List.length fp)) - 1) x
       then nth (List.length fp - 1) fp 0
       else
         let j := Z.to_nat (Qfloor x) in
         nth j fp 0 + (x - inject_Z (Qfloor x)) * (nth (S j) fp 0 - nth j fp 0).

(** Line 536: the month, with the part of it that the day stands for,
    between 1 and 11. *)
Definition moa_frac (month day : Z) : Q :=
  clip (inject_Z month + (inject_Z day - 15) / (152 # 5)) 1 11.

(** Lines 537-538: the adjustment of a date at a station of the given
    aridity rating. *)
Definition arid_adj (aridity_rating : Q) (month day : Z) : Q :=
  interp (moa_frac month day) aridity_adj * (aridity_rating / 100).

(** Lines 531-540: the temperatures [(tmax, tmin)] of a date after the
    adjustment, which is made at arid stations only. *)
Definition adjust_temperatures (aridity_rating : Q) (month day : Z)
  (tmax tmin : Q) : Q * Q :=
  if Qltb 0 aridity_rating
  then (tmax - arid_adj aridity_rating month day,
        tmin - arid_adj aridity_rating month day)
  else (tmax, tmin).

(** ** [ETCellData]: the list of active crops and the cells *)

Module CellData.

(** The exceptions that the functions below can end in, and the outcome of a
    method: the object as the method leaves it, on return or when the
    exception is raised. *)
Inductive exception : Type := ValueError | KeyError | SystemExit.

Inductive outcome (A : Type) : Type :=
| Returns (a : A)
| Raises (e : exception) (a : A).
Arguments Returns {A} a.
Arguments Raises {A} e a.

(** [ETCellData], as far as [filter_cell_crops] goes: the dictionary of the
    cells, with the list of active crop numbers of each cell, and the list
    of the crop numbers that are active in some cell. *)
Record ETCellData : Type := mkData {
  et_cells_dict : list (string * list Z);
  crop_num_list : list Z
}.





End CellData.

(** ** [tools/plot_crop_daily_timeseries.py] *)

Module Plot.

(** [str.lower()] on the letters A to Z. *)
Definition lower_ascii (c : ascii) : ascii :=
  let n := nat_of_ascii c in
  if (65 <=? n)%nat && (n <=? 90)%nat then ascii_of_nat (n + 32) else c.

Fixpoint lower (s : string) : string :=
  match s with
  | EmptyString => EmptyString
  | String c s' => String (lower_ascii c) (lower s')
  end.

(** Lines 475-476: the dictionary [valid]. *)
Definition valid (choice : string) : option bool :=
  if String.eqb choice "yes" then Some true
  else if String.eqb choice "y" then Some true
  else if String.eqb choice "ye" then Some true
  else if String.eqb choice "no" then Some false
  else if String.eqb choice "n" then Some false
  else None.

(** Lines 477-484: the prompt of a default; [None] is the [ValueError] of a
    default that is neither [None], "yes" nor "no". *)
Definition prompt (default : option string) : option string :=
  match default with
  | None => Some " [y/n] "%string
  | Some d =>
      if String.eqb d "yes" then Some " [Y/n] "%string
      else if String.eqb d "no" then Some " [y/N] "%string
      else None
  end.

(** Lines 489-492: what a line of input, in lower case, answers, if it is
    accepted: the default on an empty line when there is a default, else its
    entry in [valid]. *)
Definition reply (default : option string) (choice : string) : option bool :=
  match default with
  | Some d => if String.eqb choice "" then valid d else valid choice
  | None => valid choice
  end.

Definition reminder : string :=
  "Please respond with 'yes' or 'no' (or 'y' or 'n')." ++ String "010"%char "".

(** The way a call ends: with an answer, with the [ValueError] of line 484,
    or with the [EOFError] of [raw_input] at the end of the input. *)
Inductive ending : Type :=
| Answer (b : bool)
| RaisesValueError
| RaisesEOFError.

(** Lines 486-495: the loop, on the lines that [raw_input] is going to
    read; the result has what was written to [stdout] and the lines that
    are left. *)
Fixpoint ask (text : string) (default : option string) (inputs : list string)
  (out : list string) : ending * list string * list string :=
  match inputs with
  | [] => (RaisesEOFError, out ++ [text], [])
  | line :: inputs' =>
      match reply default (lower line) with
      | Some b => (Answer b, out ++ [text], inputs')
      | None => ask text default inputs' (out ++ [text; reminder])
      end
  end.

(** Lines 463-495. *)
Definition query_yes_no (question : string) (default : option string)
  (inputs : list string) : ending * list string * list string :=
  match prompt default with
  | None => (RaisesValueError, [], inputs)
  | Some p => ask (question ++ p) default inputs []
  end.





(** Lines 226-242: the years of a file that are plotted, and the three
    checks on them; [None] is the [SystemExit] of a check that fails.  The
    years are used for tests of membership only, which [np.unique] does not
    change. *)
Definition year_sub_array (year_start year_end : Z) (years : list Z) : list Z :=
  filter (fun y => (year_start <=? y)%Z && (y <=? year_end)%Z) years.

Definition check_years (year_start year_end : Z) (years : list Z)
  : option (list bool) :=
  let sub := year_sub_array year_start year_end years in
  if negb (in_list year_start sub) then None
  else if negb (in_list year_end sub) then None
  else if (year_end <=? year_start)%Z then None
  else Some (map (fun y => in_list y sub) years).

End Plot.

(** ** [ETCell.set_weather_data]: the units of the weather file *)

Module Weather.

(** [s in [a, b, ...]] on strings. *)
Definition in_strings (s : string) (l : list string) : bool :=
  existsb (String.eqb s) l.

(** Lines 436-454: what the unit given for a field makes of a value of its
    column, [field_units] being [None] when no unit is given.  The second
    component tells that the unit is not known, which is logged as an error
    and has no other effect. *)
Definition convert_units (field_units : option string) (v : Q) : Q * bool :=
  match field_units with
  | None => (v, false)
  | Some field_units =>
      let u := Plot.lower field_units in
      if in_strings u ["c"; "mm"; "m/s"; "mj/m2"; "mj/m^2"; "kg/kg"]%string
      then (v, false)
      else if String.eqb u "k" then (v - (27315 # 100), false)
      else if String.eqb u "f" then ((v - 32) / (18 # 10), false)
      else if String.eqb u "in*100" then (v * (254 # 1000), false)
      else if String.eqb u "in" then (v * (254 # 10), false)
      else if in_strings u ["w/m2"; "w/m^2"]%string
      then (v * (864 # 10000), false)
      else (v, true)
  end.

End Weather.

(** ** Dictionaries *)

(** A dictionary is the list of its items, each key once.  [lookup] is
    [d[k]], with [None] for the [KeyError]. *)
Fixpoint lookup {K V : Type} (eqb : K -> K -> bool) (k : K) (d : list (K * V))
  : option V :=
  match d with
  | [] => None
  | item :: d' => if eqb k (fst item) then Some (snd item) else lookup eqb k d'
  end.

(** [sorted(d.items())] for a dictionary with integer keys. *)
Fixpoint insert_item {V : Type} (item : Z * V) (l : list (Z * V))
  : list (Z * V) :=
  match l with
  | [] => [item]
  | item' :: l' =>
      if (fst item <=? fst item')%Z then item :: l
      else item' :: insert_item item l'
  end.

Definition sorted_items {V : Type} (d : list (Z * V)) : list (Z * V) :=
  fold_right insert_item [] d.

(** ** [ETCellData]: the crop parameters of the cells *)

Module Params.

(** An object: its attributes with their values, the one set last first. *)
Definition object (V : Type) : Type := list (string * V).

Definition getattr {V : Type} (o : object V) (name : string) : option V :=
  lookup String.eqb name o.

Definition setattr {V : Type} (o : object V) (name : string) (v : V)
  : object V :=
  (name, v) :: o.

(** An ET cell, as far as the crop parameters go: the dictionary
    [crop_params], from the crop numbers to the crop parameter objects, which
    the cell has once [set_static_crop_params] has run, and the attributes of
    the cell itself.  A crop parameter object is known by its identity, a
    number; what it holds is in the store of [ETCellData] below. *)
Record ETCell (V : Type) : Type := mkCell {
  crop_params : option (list (Z * nat));
  attributes : object V
}.
Arguments mkCell {V} crop_params attributes.
Arguments crop_params {V} e.
Arguments attributes {V} e.

(** [ETCellData], with the store of the crop parameter objects: what the
    object of each identity holds. *)
Record ETCellData (V : Type) : Type := mkData {
  objects : nat -> object V;
  et_cells_dict : list (string * ETCell V);
  crop_num_list : list Z
}.
Arguments mkData {V} objects et_cells_dict crop_num_list.
Arguments objects {V} e.
Arguments et_cells_dict {V} e.
Arguments crop_num_list {V} e.

(** Lines 146-152.  [crop_params] is a dictionary of objects ([crop_cycle]
    goes through its [items()] and reads the attributes of the values), and
    [copy()] of a dictionary is a new dictionary of the same objects. *)
Definition set_static_crop_params {V : Type} (crop_params : list (Z * nat))
  (self : ETCellData V) : ETCellData V :=
  mkData (objects self)
         (map (fun item =>
                 (fst item, mkCell (Some crop_params) (attributes (snd item))))
              (et_cells_dict self))
         (crop_num_list self).

(** Lines 181-216: the fields of a shapefile that are crop parameters, and
    the two that are cuttings. *)
Definition param_field_dict : list (string * string) :=
  [("Name", "name"); ("ClassNum", "class_number"); ("IsAnnual", "is_annual");
   ("IrrigFlag", "irrigation_flag");
   ("IrrigDays", "days_after_planting_irrigation"); ("Crop_FW", "crop_fw");
   ("WinterCov", "winter_surface_cover_class"); ("CropKcMax", "kc_max");
   ("MAD_Init", "mad_initial"); ("MAD_Mid", "mad_midseason");
   ("RootDepIni", "rooting_depth_initial"); ("RootDepMax", "rooting_depth_max");
   ("EndRootGrw", "end_of_root_growth_fraction_time");
   ("HeightInit", "height_initial"); ("HeightMax", "height_max");
   ("CurveNum", "curve_number"); ("CurveName", "curve_name");
   ("CurveType", "curve_type");
   ("PL_GU_Flag", "flag_for_means_to_estimate_pl_or_gu");
   ("T30_CGDD", "t30_for_pl_or_gu_or_cgdd"); ("PL_GU_Date", "date_of_pl_or_gu");
   ("CGDD_Tbase", "tbase"); ("CGDD_EFC", "cgdd_for_efc");
   ("CGDD_Term", "cgdd_for_termination"); ("Time_EFC", "time_for_efc");
   ("Time_Harv", "time_for_harvest");
   ("KillFrostC", "killing_frost_temperature"); ("InvokeStrs", "invoke_stress");
   ("CN_Coarse", "cn_coarse_soil"); ("CN_Medium", "cn_medium_soil");
   ("CN_Fine", "cn_fine_soil")]%string.

Definition cutting_field_dict : list (string * string) :=
  [("Beef_Cut", "beef_cuttings"); ("Dairy_Cur", "dairy_cuttings")]%string.

(** A record of a shapefile: its [CELL_ID] and its other fields, each name
    once.  [CELL_ID] itself is neither a crop parameter nor a cutting. *)
Record record (V : Type) : Type := mkRecord {
  CELL_ID : string;
  fields : list (string * V)
}.
Arguments mkRecord {V} CELL_ID fields.
Arguments CELL_ID {V} r.
Arguments fields {V} r.

(** [d[k] = v] for a key that the dictionary has. *)
Fixpoint set_item {V : Type} (k : string) (v : V) (d : list (string * V))
  : list (string * V) :=
  match d with
  | [] => []
  | item :: d' =>
      if String.eqb k (fst item) then (fst item, v) :: d'
      else item :: set_item k v d'
  end.

(** [o.name = v] for the object of identity [addr]. *)
Definition store {V : Type} (objects : nat -> object V) (addr : nat)
  (name : string) (v : V) : nat -> object V :=
  fun a => if Nat.eqb a addr then setattr (objects a) name v else objects a.

(** Lines 226-254: one field of a record of the shapefile of crop
    [crop_num].  The number counts the warnings, each of which waits for a
    line of input; the input is taken to have one. *)
Definition set_field {V : Type} (cell_id : string) (crop_num : Z)
  (st : ETCellData V * nat) (field : string * V) : ETCellData V * nat :=
  let '(self, warnings) := st in
  let '(field_name, row_value) := field in
  match lookup String.eqb field_name param_field_dict with
  | Some param_name =>
      match lookup String.eqb cell_id (et_cells_dict self) with
      | Some cell =>
          match crop_params cell with
          | Some d =>
              match lookup Z.eqb crop_num d with
              | Some addr =>
                  (mkData (store (objects self) addr param_name row_value)
                          (et_cells_dict self) (crop_num_list self),
                   warnings)
              | None => (self, S warnings)
              end
          | None => (self, S warnings)
          end
      | None => (self, S warnings)
      end
  | None =>
      match lookup String.eqb field_name cutting_field_dict with
      | Some cutting_name =>
          match lookup String.eqb cell_id (et_cells_dict self) with
          | Some cell =>
              (mkData (objects self)
                      (set_item cell_id
                         (mkCell (crop_params cell)
                                 (setattr (attributes cell) cutting_name row_value))
                         (et_cells_dict self))
                      (crop_num_list self),
               warnings)
          | None => (self, S warnings)
          end
      | None => st
      end
  end.

(** Lines 224-254: a record, and all the records of a shapefile. *)
Definition set_record {V : Type} (crop_num : Z) (st : ETCellData V * nat)
  (r : record V) : ETCellData V * nat :=
  fold_left (set_field (CELL_ID r) crop_num) (fields r) st.

Definition set_records {V : Type} (st : ETCellData V * nat)
  (crop_dbf : Z * list (record V)) : ETCellData V * nat :=
  fold_left (set_record (fst crop_dbf)) (snd crop_dbf) st.

(** Lines 161-254.  [crop_dbf_dict] has the records of the shapefile of each
    crop number; the shapefiles of the crops that are not active are left
    out, the others are read in the order of the crop numbers. *)
Definition set_spatial_crop_params {V : Type}
  (crop_dbf_dict : list (Z * list (record V))) (self : ETCellData V)
  : ETCellData V * nat :=
  let crop_dbf_dict :=
    filter (fun item => in_list (fst item) (crop_num_list self)) crop_dbf_dict in
  fold_left set_records (sorted_items crop_dbf_dict) (self, 0%nat).

(** [cell.crop_params[crop_num].name], if there is such an attribute. *)
Definition crop_attr {V : Type} (self : ETCellData V) (cell : ETCell V)
  (crop_num : Z) (name : string) : option V :=
  match crop_params cell with
  | Some d =>
      match lookup Z.eqb crop_num d with
      | Some addr => getattr (objects self addr) name
      | None => None
      end
  | None => None
  end.

End Params.

(** ** [crop_cycle] *)

(** A line of an output file: the header, or the line of a day. *)
Inductive line : Type :=
| Header
| Day (step_dt : date).

(** An output file: its name, made of [cell_id] and [class_number], the
    lines written to it, and whether it has been closed. *)
Record output_f : Type := mkFile {
  output_name : string * Z;
  lines : list line;
  closed : bool
}.

(** Lines 115-119 and 199-205: a line is written for each day that the mask
    selects. *)
Fixpoint day_lines (mask : list bool) (i : nat) (steps : list TimeStep)
  : list line :=
  match steps with
  | [] => []
  | s :: steps' =>
      if negb (nth i mask false) then day_lines mask (S i) steps'
      else Day (Dates s) :: day_lines mask (S i) steps'
  end.

Definition written (start_dt end_dt : date) (steps : list TimeStep)
  : list line :=
  match date_mask (map Dates steps) start_dt end_dt with
  | Some mask => day_lines mask 0 steps
  | None => []
  end.

Section CropCycle.

(** Code of the repository that is not among the sources, as for the daily
    loop, and [InitializeCropCycle()] followed by [crop_load]. *)
Variable aFNEs : Q -> Q.
Variable setup_crop : Crop -> InitializeCropCycle -> InitializeCropCycle.
Variable setup_dormant : Crop -> InitializeCropCycle -> InitializeCropCycle.
Variable et_physics : Crop -> InitializeCropCycle -> DayData -> InitializeCropCycle.
Variable crop_load : Crop -> InitializeCropCycle.

(** Lines 40-82, for the crops that are left to do; [files] are the output
    files so far.  [crop_flags[crop_num]] is a [KeyError] for a crop without
    a flag; the [ValueError] of the daily loop leaves the file of the crop
    open, with its header.  Every output file is taken to open. *)
Fixpoint crop_loop (refet_type : Z) (crop_flags : list (Z * bool))
  (cell_id : string) (start_dt end_dt : date) (steps : list TimeStep)
  (items : list (Z * Crop)) (files : list output_f)
  : CellData.outcome (list output_f) :=
  match items with
  | [] => CellData.Returns files
  | item :: items' =>
      let crop_num := fst item in
      let crop := snd item in
      match lookup Z.eqb crop_num crop_flags with
      | None => CellData.Raises CellData.KeyError files
      | Some false =>
          crop_loop refet_type crop_flags cell_id start_dt end_dt steps
                    items' files
      | Some true =>
          let foo := crop_load crop in
          let output_name := (cell_id, class_number crop) in
          match crop_day_loop aFNEs setup_crop setup_dormant et_physics
                              refet_type crop foo start_dt end_dt steps with
          | None =>
              CellData.Raises CellData.ValueError
                (files ++ [mkFile output_name [Header] false])
          | Some _ =>
              crop_loop refet_type crop_flags cell_id start_dt end_dt steps
                        items'
                        (files ++ [mkFile output_name
                                     (Header :: written start_dt end_dt steps)
                                     true])
          end
      end
  end.

(** Lines 22-82. *)
Definition crop_cycle (refet_type : Z) (crop_params : list (Z * Crop))
  (crop_flags : list (Z * bool)) (cell_id : string) (start_dt end_dt : date)
  (steps : list TimeStep) : CellData.outcome (list output_f) :=
  crop_loop refet_type crop_flags cell_id start_dt end_dt steps
            (sorted_items crop_params) [].

End CropCycle.

(** ** Sample inputs *)

(** Crops of the three policies: a generic crop and a corn crop that are
    reset at the turn of the year, and winter wheat with its trigger on
    day 274. *)
Definition alfalfa : Crop := mkCrop 1 1 "ALFALFA 1ST CYCLE" 5 1.
Definition field_corn : Crop := mkCrop 7 7 "FIELD CORN" (-8) 1.
Definition winter_wheat : Crop := mkCrop 13 13 "WINTER WHEAT" 0 274.

(** A state at the start of a run. *)
Definition foo_start : InitializeCropCycle :=
  mkFoo 0 0 0 0 0 0 0 false false true false.

(** Stand-ins for the code that is not among the sources. *)
Definition sample_aFNEs (t : Q) : Q := 1 + (t + 100) * (t + 100) / 1000.
Definition sample_setup_crop (crop : Crop) (foo : InitializeCropCycle)
  : InitializeCropCycle := set_doy_start_cycle (crop_gdd_trigger_doy crop) foo.
Definition sample_setup_dormant (crop : Crop) (foo : InitializeCropCycle)
  : InitializeCropCycle := set_real_start false foo.
Definition sample_et_physics (crop : Crop) (foo : InitializeCropCycle)
  (foo_day : DayData) : InitializeCropCycle :=
  set_in_season (Qltb 10 (t30 foo_day)) foo.

(** A day of weather: index [i] of a series that starts on day [doy0] of a
    year, with a reference ET of [et]. *)
Definition sample_step (doy0 : Z) (et : Q) (i : nat) : TimeStep :=
  mkStep (mkDate (730000 + Z.of_nat i) (doy0 + Z.of_nat i)) 20 5 2 et et
         12 4 20 0 12 0.

(** 40 days with a reference ET of 5.0. *)
Definition steps_40 : list TimeStep := map (sample_step 1 5) (seq 0 40).

(** The fields of [foo_day] for a day of the year and its temperatures. *)
Definition sample_day (sdays : positive) (doy : Z) (tmax tmin snow_depth : Q)
  : DayData :=
  mkDay DayData_init sdays doy tmax 0 2 2 5 ((tmax + tmin) / 2) tmin tmax
        snow_depth 10 0 30.

(** The corn method applies: a crop with a curve, not a winter grain, whose
    [tbase] is negative. *)
Definition corn_policy (crop : Crop) : bool :=
  (curve_number crop >? 0)%Z && negb (winter_grain crop) && Qltb (tbase crop) 0.

(** A state late in a season: a [cgdd] of 50, last seen on day 365. *)
Definition foo_late : InitializeCropCycle :=
  mkFoo 5 50 2 0 0 365 100 true true false false.

(** A state in the middle of a season: a [cgdd] of 50, last seen on day 99. *)
Definition foo_mid : InitializeCropCycle :=
  mkFoo 5 50 2 0 0 99 100 true true false false.

(** A corn crop whose base temperature, 31, lies above the 30 degree cap. *)
Definition hot_corn : Crop := mkCrop 7 7 "FIELD CORN" (-31) 1.

(** Lines 80-86: the growing degree days of a day of a winter grain, before
    the penalty. *)
Definition winter_gdd (crop : Crop) (foo_day : DayData) : Q :=
  if Qltb (tmin foo_day) (-4) then 0
  else if Qltb (tbase crop) (tmean foo_day) then tmean foo_day - tbase crop
  else 0.

(** A winter wheat state with a [cgdd] of 100 and nothing pending, last seen
    on day 19. *)
Definition foo_winter : InitializeCropCycle :=
  mkFoo 3 100 0 0 0 19 274 true true false false.

(** Day [cur] of the year follows day [prev] in the calendar: the next day
    of the same year, or day 1 after the last day, 365 or 366, of a year. *)
Definition calendar_next (prev cur : Z) : Prop :=
  (1 <= prev)%Z
  /\ ((cur = prev + 1 /\ cur <= 366)%Z
      \/ (cur = 1%Z /\ (prev = 365%Z \/ prev = 366%Z))).

(** A standard crop with a late trigger: day 200, so that [trigger + 199]
    lies past the end of any year. *)
Definition late_crop : Crop := mkCrop 20 20 "FALL SEEDED COVER" 5 200.

(** Three days across the turn of a year, days 364, 365 and 1, and two days
    across day 274, days 273 and 274. *)
Definition steps_year_end : list TimeStep :=
  [sample_step 364 5 0; sample_step 364 5 1; sample_step (-1) 5 2].
Definition steps_day_274 : list TimeStep :=
  [sample_step 273 5 0; sample_step 273 5 1].

(** Winter wheat states with a [cgdd] of 100, last seen on day 363 and on
    day 272. *)
Definition foo_dec : InitializeCropCycle :=
  mkFoo 3 100 0 0 0 363 274 true true false false.
Definition foo_sep : InitializeCropCycle :=
  mkFoo 3 100 0 0 0 272 274 true true false false.

(** The daily loop with the stand-ins, on the reference ET [ETr], all days
    selected. *)
Definition sample_loop (crop : Crop) (steps : list TimeStep)
  (foo : InitializeCropCycle) : InitializeCropCycle * list Q :=
  day_loop sample_aFNEs sample_setup_crop sample_setup_dormant sample_et_physics
           1 crop (repeat true (List.length steps)) 0 steps foo DayData_init.

(** Dates of a window, and a series of three days inside it. *)
Definition window_start : date := mkDate 730000 1.
Definition window_end : date := mkDate 730364 365.
Definition steps_3 : list TimeStep := map (sample_step 1 5) (seq 0 3).


(** Three days of a record with snow on the second day. *)
Definition rows_snow : list ETCell.row :=
  [ETCell.mkRow 2000 1 2 (-6) 0 0;
   ETCell.mkRow 2000 2 (-1) (-9) 10 4;
   ETCell.mkRow 2000 3 1 (-7) 0 6].

(** A record of two years of three days each, and the whole leap year 2000
    at a constant temperature. *)
Definition rows_2x3 : list ETCell.row :=
  [ETCell.mkRow 2001 1 10 0 0 0; ETCell.mkRow 2001 2 12 2 0 0;
   ETCell.mkRow 2001 3 (-4) (-8) 0 0;
   ETCell.mkRow 2002 1 6 0 0 0; ETCell.mkRow 2002 2 8 0 0 0;
   ETCell.mkRow 2002 3 14 2 0 0].
Definition row0 : ETCell.row := ETCell.mkRow 0 0 0 0 0 0.

(** A crop with "WINTER" in its name that is no winter grain: reset as a
    winter crop, growing by the generic method. *)
Definition winter_canola : Crop := mkCrop 40 40 "WINTER CANOLA" 5 274.

(** A winter wheat state with penalties pending. *)
Definition foo_frost : InitializeCropCycle :=
  mkFoo 3 100 0 5 10 19 274 true true false false.

(** A mask that starts the window on the tenth day of a series. *)
Definition mask_from_10 : list bool := repeat false 9 ++ repeat true 31.


(** Two cells before the crop parameters are set, the crop parameter objects
    of crops 3 and 7, and a record of the shapefile of crop 7 for the first
    cell. *)
Definition sample_params : Params.ETCellData Q :=
  Params.mkData (fun _ => [])
    [("101"%string, Params.mkCell None []); ("102"%string, Params.mkCell None [])]
    [3; 7]%Z.
Definition sample_crop_params : list (Z * nat) := [(3%Z, 0%nat); (7%Z, 1%nat)].
Definition sample_record : Params.record Q :=
  Params.mkRecord "101" [("CGDD_Tbase"%string, 5); ("Beef_Cut"%string, 4)].

(** The crops of a cell and their flags: corn and winter wheat are grown. *)
Definition sample_crops : list (Z * Crop) :=
  [(13%Z, winter_wheat); (1%Z, alfalfa); (7%Z, field_corn)].
Definition sample_flags : list (Z * bool) :=
  [(1%Z, false); (7%Z, true); (13%Z, true)].

(** ** Notions used in the statements *)

(** The fields of [foo] that belong to the growing degree day accumulator
    agree in two states. *)
Definition same_gdd_state (foo' foo : InitializeCropCycle) : Prop :=
  etref_30 foo' == etref_30 foo /\ cgdd foo' == cgdd foo /\ gdd foo' == gdd foo
  /\ penalty foo' == penalty foo /\ cgdd_penalty foo' == cgdd_penalty foo
  /\ lDoy foo' = lDoy foo.

(** The state of the rolling mean after the reference ET values [hist], one
    per day since the start of the run: while at most 30 days have passed the
    array holds them from slot 0 on and [etref_30] is their mean; from day 30
    on the array holds the last 30 of them and [etref_30] is its mean. *)
Definition rolling_state (hist : list Q) (foo : InitializeCropCycle)
  (a : list Q) : Prop :=
  ((List.length hist <= 30)%nat
   /\ a = hist ++ repeat 0 (30 - List.length hist)
   /\ etref_30 foo * inject_Z (Z.of_nat (List.length hist)) == sum hist)
  \/ ((30 <= List.length hist)%nat
      /\ a = lastn 30 hist
      /\ etref_30 foo * 30 == sum a).

(** The values of a column that belong to key [k], in the order of the rows. *)
Definition group_values (k : Z) (kv : list (Z * Q)) : list Q :=
  map snd (filter (fun p => (fst p =? k)%Z) kv).

(** The group of key [k] among the groups [g], if there is one. *)
Definition group_lookup (k : Z) (g : list (Z * (Q * nat))) : option (Q * nat) :=
  match find (fun e => (fst e =? k)%Z) g with
  | Some e => Some (snd e)
  | None => None
  end.

(** A list of keys in strictly increasing order. *)
Fixpoint increasing (l : list Z) : Prop :=
  match l with
  | [] => True
  | k :: l' => (forall k', In k' l' -> (k < k')%Z) /\ increasing l'
  end.

(** The groups [g] are those of the rows [kv]: keys in increasing order, one
    group for each key that occurs, with the sum and the number of its
    values. *)
Definition groups_of (kv : list (Z * Q)) (g : list (Z * (Q * nat))) : Prop :=
  increasing (map fst g)
  /\ forall k,
      match group_lookup k g with
      | None => group_values k kv = []
      | Some (s, n) =>
          n = List.length (group_values k kv) /\ (0 < n)%nat
          /\ s == sum (group_values k kv)
      end.


(** The dictionary [crop_params] of each cell, by the name of the cell. *)
Definition crop_refs {V : Type} (self : Params.ETCellData V)
  : list (string * option (list (Z * nat))) :=
  map (fun item => (fst item, Params.crop_params (snd item)))
      (Params.et_cells_dict self).

(** * Properties *)

(** ** Comparisons *)

Lemma Qltb_true (x y : Q) : Qltb x y = true <-> x < y.
Proof.
  unfold Qltb. destruct (Qlt_le_dec x y) as [H | H]; split; intro K;
    try discriminate; try reflexivity; try assumption; lra.
Qed.

Lemma Qltb_false (x y : Q) : Qltb x y = false <-> y <= x.
Proof.
  unfold Qltb. destruct (Qlt_le_dec x y) as [H | H]; split; intro K;
    try discriminate; try reflexivity; try assumption; lra.
Qed.

Lemma Qleb_true (x y : Q) : Qleb x y = true <-> x <= y.
Proof.
  unfold Qleb. destruct (Qlt_le_dec y x) as [H | H]; split; intro K;
    try discriminate; try reflexivity; try assumption; lra.
Qed.

Lemma Qleb_false (x y : Q) : Qleb x y = false <-> y < x.
Proof.
  unfold Qleb. destruct (Qlt_le_dec y x) as [H | H]; split; intro K;
    try discriminate; try reflexivity; try assumption; lra.
Qed.

(** Case analysis on every rational comparison of the goal, leaving the order
    facts among the hypotheses for [lra]. *)
Ltac qcases :=
  repeat match goal with
    | |- context [Qltb ?x ?y] =>
        let E := fresh "E" in
        destruct (Qltb x y) eqn:E;
        [apply Qltb_true in E | apply Qltb_false in E]
    | |- context [Qleb ?x ?y] =>
        let E := fresh "E" in
        destruct (Qleb x y) eqn:E;
        [apply Qleb_true in E | apply Qleb_false in E]
    end.

(** ** Fields that a stage of [compute_crop_gdd] leaves alone *)

Ltac split_ifs :=
  repeat match goal with
    | |- context [if ?b then _ else _] => destruct b
    end.

Lemma cgdd_reset_etref_30 crop foo foo_day :
  etref_30 (cgdd_reset crop foo foo_day) = etref_30 foo.
Proof. unfold cgdd_reset. split_ifs; reflexivity. Qed.

Lemma cgdd_update_etref_30 crop foo foo_day :
  etref_30 (cgdd_update crop foo foo_day) = etref_30 foo.
Proof.
  unfold cgdd_update, cgdd_update_winter, cgdd_update_corn.
  split_ifs; reflexivity.
Qed.

Lemma cgdd_update_lDoy crop foo foo_day :
  lDoy (cgdd_update crop foo foo_day) = lDoy foo.
Proof.
  unfold cgdd_update, cgdd_update_winter, cgdd_update_corn.
  split_ifs; reflexivity.
Qed.

Lemma cgdd_update_flags crop foo foo_day :
  doy_start_cycle (cgdd_update crop foo foo_day) = doy_start_cycle foo
  /\ real_start (cgdd_update crop foo foo_day) = real_start foo
  /\ in_season (cgdd_update crop foo foo_day) = in_season foo.
Proof.
  unfold cgdd_update, cgdd_update_winter, cgdd_update_corn.
  split_ifs; repeat split; reflexivity.
Qed.

Lemma cgdd_reset_lDoy crop foo foo_day :
  lDoy (cgdd_reset crop foo foo_day) = doy foo_day.
Proof. unfold cgdd_reset. split_ifs; reflexivity. Qed.

Lemma etref_30_update_fields foo foo_day :
  let foo' := fst (etref_30_update foo foo_day) in
  cgdd foo' = cgdd foo /\ gdd foo' = gdd foo /\ penalty foo' = penalty foo
  /\ cgdd_penalty foo' = cgdd_penalty foo /\ lDoy foo' = lDoy foo
  /\ doy_start_cycle foo' = doy_start_cycle foo
  /\ real_start foo' = real_start foo /\ in_season foo' = in_season foo.
Proof.
  unfold etref_30_update. split_ifs; cbn; repeat split; reflexivity.
Qed.

Lemma etref_30_update_day foo foo_day :
  let d := snd (etref_30_update foo foo_day) in
  doy d = doy foo_day /\ tmin d = tmin foo_day /\ tmax d = tmax foo_day
  /\ tmean d = tmean foo_day /\ snow_depth d = snow_depth foo_day
  /\ sdays d = sdays foo_day /\ etref d = etref foo_day.
Proof.
  unfold etref_30_update. split_ifs; cbn; repeat split; reflexivity.
Qed.

(** [compute_crop_gdd] as the three stages in a row. *)
Lemma compute_crop_gdd_stages crop foo foo_day :
  compute_crop_gdd crop foo foo_day
  = (cgdd_update crop
       (cgdd_reset crop (fst (etref_30_update foo foo_day))
                        (snd (etref_30_update foo foo_day)))
       (snd (etref_30_update foo foo_day)),
     snd (etref_30_update foo foo_day)).
Proof.
  unfold compute_crop_gdd. destruct (etref_30_update foo foo_day); reflexivity.
Qed.

(** ** The array of the last 30 reference ET values *)

Lemma set_nth_length i v a : List.length (set_nth i v a) = List.length a.
Proof.
  revert i; induction a as [| x a IH]; intros [| i]; cbn; auto.
Qed.

Lemma set_nth_same i v a :
  (i < List.length a)%nat -> nth i (set_nth i v a) 0 = v.
Proof.
  revert i; induction a as [| x a IH]; intros [| i] H; cbn in *; try lia; auto.
  apply IH; lia.
Qed.

Lemma set_nth_other i j v a : i <> j -> nth j (set_nth i v a) 0 = nth j a 0.
Proof.
  revert i j; induction a as [| x a IH]; intros [| i] [| j] H; cbn;
    try reflexivity; try congruence.
  apply IH; congruence.
Qed.

Lemma set_nth_app h x t v :
  set_nth (List.length h) v (h ++ x :: t) = h ++ v :: t.
Proof. induction h as [| y h IH]; cbn; [reflexivity | now rewrite IH]. Qed.

(** The loop over [range(29)] moves every slot but the first one place to
    the left; the last slot keeps its value until it is overwritten. *)
Lemma shift_etref_array_30 a :
  List.length a = 30%nat -> shift_etref_array a = tl a ++ [nth 29 a 0].
Proof.
  intro H.
  do 30 (destruct a as [| ? a]; [discriminate H |]).
  destruct a; [reflexivity | discriminate H].
Qed.

Lemma shift_then_store a v :
  List.length a = 30%nat ->
  set_nth 29 v (shift_etref_array a) = tl a ++ [v].
Proof.
  intro H. rewrite (shift_etref_array_30 a H).
  destruct a as [| x a]; [discriminate H |]. cbn [tl].
  assert (L : List.length a = 29%nat) by (cbn in H; lia).
  rewrite <- L. rewrite set_nth_app. reflexivity.
Qed.

(** ** Sums and the last entries of a list *)

Lemma sum_app l l' : sum (l ++ l') == sum l + sum l'.
Proof.
  unfold sum. induction l as [| x l IH]; cbn [app fold_right].
  - lra.
  - rewrite IH. lra.
Qed.

Lemma skipn_S_tl {A : Type} n (l : list A) : skipn (S n) l = tl (skipn n l).
Proof.
  revert l; induction n as [| n IH]; intros [| x l]; try reflexivity.
  cbn [skipn] in *. rewrite <- IH. destruct l; reflexivity.
Qed.

Lemma lastn_length {A : Type} n (l : list A) :
  (n <= List.length l)%nat -> List.length (lastn n l) = n.
Proof. intro H. unfold lastn. rewrite length_skipn. lia. Qed.

Lemma lastn_snoc {A : Type} n (l : list A) x :
  (S n <= List.length l)%nat -> tl (lastn (S n) l) ++ [x] = lastn (S n) (l ++ [x]).
Proof.
  intro H. unfold lastn. rewrite length_app. cbn [List.length].
  replace (List.length l + 1 - S n)%nat with (S (List.length l - S n)) by lia.
  rewrite skipn_S_tl, skipn_app.
  replace (List.length l - S n - List.length l)%nat with 0%nat by lia.
  cbn [skipn].
  assert (L : List.length (skipn (List.length l - S n) l) = S n)
    by (rewrite length_skipn; lia).
  destruct (skipn (List.length l - S n) l); [discriminate L | reflexivity].
Qed.

Lemma lastn_all {A : Type} (l : list A) : lastn (List.length l) l = l.
Proof. unfold lastn. now rewrite Nat.sub_diag. Qed.

(** ** The rolling mean, one day on *)

Lemma inject_Z_sdays i :
  inject_Z (Z.pos (Pos.of_succ_nat i)) == inject_Z (Z.of_nat i) + 1.
Proof.
  rewrite Zpos_P_of_succ_nat. unfold Z.succ. rewrite inject_Z_plus. reflexivity.
Qed.

Lemma inject_Z_sdays_pred i :
  inject_Z (Z.pos (Pos.of_succ_nat i) - 1) == inject_Z (Z.of_nat i).
Proof.
  rewrite Zpos_P_of_succ_nat. replace (Z.succ (Z.of_nat i) - 1)%Z with (Z.of_nat i) by lia.
  reflexivity.
Qed.

Lemma inject_Z_of_nat_nonneg i : 0 <= inject_Z (Z.of_nat i).
Proof.
  change 0 with (inject_Z 0). rewrite <- Zle_Qle. lia.
Qed.

Lemma rolling_state_Qeq hist foo foo' a :
  etref_30 foo' == etref_30 foo ->
  rolling_state hist foo a -> rolling_state hist foo' a.
Proof.
  intros E [(L & Ha & Hm) | (L & Ha & Hm)]; [left | right];
    repeat split; auto; rewrite E; exact Hm.
Qed.

Lemma rolling_state_step hist foo foo_day :
  sdays foo_day = Pos.of_succ_nat (List.length hist) ->
  rolling_state hist foo (etref_array foo_day) ->
  rolling_state (hist ++ [etref foo_day])
    (fst (etref_30_update foo foo_day))
    (etref_array (snd (etref_30_update foo foo_day))).
Proof.
  intros Hs H. unfold rolling_state in *.
  set (k := List.length hist) in *.
  assert (H' :
    ((k < 30)%nat
     /\ etref_array foo_day = hist ++ repeat 0 (30 - k)
     /\ etref_30 foo * inject_Z (Z.of_nat k) == sum hist)
    \/ ((30 <= k)%nat
        /\ etref_array foo_day = lastn 30 hist
        /\ etref_30 foo * 30 == sum (etref_array foo_day))).
  { destruct H as [(L & Ha & Hm) | H]; [| right; exact H].
    destruct (Nat.eq_dec k 30) as [K | K]; [right | left; repeat split; auto; lia].
    assert (Ha' : etref_array foo_day = hist).
    { rewrite Ha, K. cbn. apply app_nil_r. }
    repeat split.
    - lia.
    - rewrite Ha'. unfold k in K. rewrite <- K. symmetry. apply lastn_all.
    - rewrite Ha'. rewrite <- Hm, K. reflexivity. }
  clear H. unfold etref_30_update. rewrite Hs.
  destruct H' as [(L & Ha & Hm) | (L & Ha & Hm)].
  - (* at most 30 days with today *)
    replace (30 <? Z.pos (Pos.of_succ_nat k))%Z with false
      by (symmetry; apply Z.ltb_ge; lia).
    cbn [fst snd etref_array set_etref_array set_etref_30 etref_30].
    left. rewrite length_app. cbn [List.length]. fold k. repeat split.
    + lia.
    + rewrite SuccNat2Pos.id_succ. replace (S k - 1)%nat with k by lia.
      rewrite Ha. replace (30 - k)%nat with (S (30 - (k + 1))) by lia.
      cbn [repeat]. unfold k. rewrite set_nth_app, <- app_assoc. reflexivity.
    + rewrite sum_app. cbn [sum fold_right]. rewrite <- Hm.
      rewrite inject_Z_sdays_pred, inject_Z_sdays.
      replace (Z.of_nat (k + 1)) with (Z.of_nat k + 1)%Z by lia.
      rewrite inject_Z_plus.
      pose proof (inject_Z_of_nat_nonneg k) as P.
      change (inject_Z 1) with 1. field. lra.
  - (* more than 30 days *)
    replace (30 <? Z.pos (Pos.of_succ_nat k))%Z with true
      by (symmetry; apply Z.ltb_lt; lia).
    cbn [fst snd etref_array set_etref_array set_etref_30 etref_30].
    assert (L30 : List.length (etref_array foo_day) = 30%nat)
      by (rewrite Ha; apply lastn_length; exact L).
    rewrite (shift_then_store _ _ L30).
    right. rewrite length_app. cbn [List.length]. repeat split.
    + fold k. lia.
    + rewrite Ha. apply lastn_snoc. exact L.
    + rewrite sum_app. cbn [sum fold_right].
      destruct (etref_array foo_day) as [| x a]; [discriminate L30 |].
      cbn [nth tl] in *. cbn [sum fold_right] in Hm. fold (sum a) in *.
      assert (D : (etref foo_day - x) / 30 * 30 == etref foo_day - x) by field.
      lra.
Qed.

(** ** States that agree on the accumulator *)

Lemma same_gdd_state_refl foo : same_gdd_state foo foo.
Proof. unfold same_gdd_state. repeat split; reflexivity. Qed.

Lemma same_gdd_state_trans foo1 foo2 foo3 :
  same_gdd_state foo1 foo2 -> same_gdd_state foo2 foo3 -> same_gdd_state foo1 foo3.
Proof.
  unfold same_gdd_state.
  intros (A1 & A2 & A3 & A4 & A5 & A6) (B1 & B2 & B3 & B4 & B5 & B6).
  repeat split; try (etransitivity; eassumption).
Qed.

(** ** The three stages on the fields of the accumulator *)

Ltac foo_simpl :=
  cbn [etref_30 cgdd gdd penalty cgdd_penalty lDoy doy_start_cycle real_start
       in_season crop_setup_flag dormant_setup_flag
       set_etref_30 set_cgdd set_gdd set_penalty set_cgdd_penalty set_lDoy
       set_doy_start_cycle set_real_start set_in_season reset_season
       etref_array sdays doy tmax_orig tdew wind u2 etref tmean tmin tmax
       snow_depth t30 precip rh_min set_etref_array fst snd] in *.

(** Names the maxima and minima of the goal and splits on which side wins. *)
Ltac qminmax :=
  repeat match goal with
    | |- context [Qmax ?a ?b] =>
        let m := fresh "m" in
        let H := fresh "H" in
        pose proof (Q.max_spec a b) as H;
        set (m := Qmax a b) in *; clearbody m;
        destruct H as [[? ?] | [? ?]]
    | |- context [Qmin ?a ?b] =>
        let m := fresh "m" in
        let H := fresh "H" in
        pose proof (Q.min_spec a b) as H;
        set (m := Qmin a b) in *; clearbody m;
        destruct H as [[? ?] | [? ?]]
    end.

Lemma winter_grain_winter_crop crop :
  winter_grain crop = true -> winter_crop crop = true.
Proof.
  unfold winter_grain, winter_crop. intro H.
  apply orb_true_iff in H. apply orb_true_iff.
  destruct H as [H | H]; [left; exact H | right].
  apply String.eqb_eq in H. rewrite H. reflexivity.
Qed.

(** The reset stage looks at [lDoy] and writes [cgdd], the three season
    markers and [lDoy]. *)
Lemma cgdd_reset_cases crop foo foo_day :
  cgdd_reset crop foo foo_day = set_lDoy (doy foo_day) (reset_season foo)
  \/ cgdd_reset crop foo foo_day = set_lDoy (doy foo_day) foo.
Proof. unfold cgdd_reset. split_ifs; auto. Qed.

Lemma cgdd_reset_after_etref_30 crop foo foo_day :
  cgdd_reset crop (fst (etref_30_update foo foo_day))
                  (snd (etref_30_update foo foo_day))
  = set_etref_30 (etref_30 (fst (etref_30_update foo foo_day)))
                 (cgdd_reset crop foo foo_day).
Proof.
  unfold etref_30_update, cgdd_reset.
  destruct (30 <? Z.pos (sdays foo_day))%Z; foo_simpl; split_ifs; reflexivity.
Qed.

Lemma cgdd_update_set_etref_30 crop v foo foo_day :
  cgdd_update crop (set_etref_30 v foo) foo_day
  = set_etref_30 v (cgdd_update crop foo foo_day).
Proof.
  unfold cgdd_update, cgdd_update_winter, cgdd_update_corn.
  foo_simpl. split_ifs; reflexivity.
Qed.

Lemma cgdd_update_day crop foo d d' :
  tmin d' = tmin d -> tmax d' = tmax d -> tmean d' = tmean d ->
  snow_depth d' = snow_depth d ->
  cgdd_update crop foo d' = cgdd_update crop foo d.
Proof.
  intros E1 E2 E3 E4.
  unfold cgdd_update, cgdd_update_winter, cgdd_update_corn, tmeanl, tmaxl, tminl.
  rewrite E1, E2, E3, E4. reflexivity.
Qed.

(** The state after [compute_crop_gdd], but for [etref_30], is the reset
    followed by the update of the growing degree days. *)
Lemma compute_crop_gdd_fields crop foo foo_day :
  fst (compute_crop_gdd crop foo foo_day)
  = set_etref_30 (etref_30 (fst (etref_30_update foo foo_day)))
      (cgdd_update crop (cgdd_reset crop foo foo_day) foo_day).
Proof.
  rewrite compute_crop_gdd_stages. cbn [fst].
  rewrite cgdd_reset_after_etref_30, cgdd_update_set_etref_30.
  f_equal. apply cgdd_update_day; apply etref_30_update_day.
Qed.

(** ** The season reset *)

Lemma compute_crop_gdd_lDoy crop foo foo_day :
  lDoy (fst (compute_crop_gdd crop foo foo_day)) = doy foo_day.
Proof.
  rewrite compute_crop_gdd_fields.
  cbn [lDoy set_etref_30]. rewrite cgdd_update_lDoy. apply cgdd_reset_lDoy.
Qed.

(** C2, as amended.  For a crop that is not reset as a winter crop, the season
    reset fires exactly when [lDoy > trigger + 199] and [doy < trigger + 199],
    both strictly: the growing degree days of the day are then added to a
    [cgdd] of 0 and [doy_start_cycle], [real_start] and [in_season] are 0,
    false and false; otherwise, so also on a day whose day of the year equals
    [trigger + 199], [cgdd] enters the update as it was and the three markers
    keep their values.  For every crop, winter or not, [lDoy] is the day of
    the year of today after the call, reset or not. *)
Theorem standard_reset_strict :
  (forall crop foo foo_day,
      lDoy (fst (compute_crop_gdd crop foo foo_day)) = doy foo_day)
  /\ (forall crop foo foo_day,
      winter_crop crop = false ->
      let T := (crop_gdd_trigger_doy crop + 199)%Z in
      let foo' := fst (compute_crop_gdd crop foo foo_day) in
      ((lDoy foo > T)%Z /\ (doy foo_day < T)%Z ->
       cgdd (cgdd_reset crop foo foo_day) = 0
       /\ cgdd foo' = cgdd (cgdd_update crop (set_cgdd 0 foo) foo_day)
       /\ doy_start_cycle foo' = 0%Z
       /\ real_start foo' = false
       /\ in_season foo' = false)
      /\ (~ ((lDoy foo > T)%Z /\ (doy foo_day < T)%Z) ->
          cgdd (cgdd_reset crop foo foo_day) = cgdd foo
          /\ cgdd foo' = cgdd (cgdd_update crop foo foo_day)
          /\ doy_start_cycle foo' = doy_start_cycle foo
          /\ real_start foo' = real_start foo
          /\ in_season foo' = in_season foo)).
Proof.
  split.
  - exact compute_crop_gdd_lDoy.
  - intros crop foo foo_day W T foo'. subst foo'.
    rewrite compute_crop_gdd_fields.
    destruct (cgdd_update_flags crop (cgdd_reset crop foo foo_day) foo_day)
      as (F1 & F2 & F3).
    cbn [cgdd doy_start_cycle real_start in_season set_etref_30].
    rewrite F1, F2, F3. clear F1 F2 F3.
    assert (C : forall f g,
               cgdd f = cgdd g -> gdd f = gdd g -> penalty f = penalty g ->
               cgdd_penalty f = cgdd_penalty g ->
               cgdd (cgdd_update crop f foo_day) = cgdd (cgdd_update crop g foo_day)).
    { intros f g E1 E2 E3 E4.
      unfold cgdd_update, cgdd_update_winter, cgdd_update_corn.
      split_ifs; foo_simpl; rewrite ?E1, ?E2, ?E3, ?E4; reflexivity. }
    unfold cgdd_reset. rewrite W. fold T. split.
    + intros [H1 H2].
      replace (lDoy foo >? T)%Z with true by (symmetry; apply Z.gtb_lt; lia).
      replace (doy foo_day <? T)%Z with true by (symmetry; apply Z.ltb_lt; lia).
      cbn [andb]. repeat split. apply C; reflexivity.
    + intro H.
      assert (G : (lDoy foo >? T)%Z && (doy foo_day <? T)%Z = false).
      { apply andb_false_iff.
        destruct (lDoy foo >? T)%Z eqn:E1; [| left; reflexivity].
        destruct (doy foo_day <? T)%Z eqn:E2; [| right; reflexivity].
        exfalso. apply H. apply Z.gtb_lt in E1. apply Z.ltb_lt in E2. lia. }
      rewrite G. repeat split. apply C; reflexivity.
Qed.

(** The reset of a standard crop at work: alfalfa, triggered on day 1, last
    seen on day 365 and now on day 1. *)
Lemma standard_reset_strict_witness :
  winter_crop alfalfa = false
  /\ (lDoy foo_late > 200)%Z /\ (doy (sample_day 366 1 20 4 0) < 200)%Z
  /\ in_season (fst (compute_crop_gdd alfalfa foo_late (sample_day 366 1 20 4 0)))
     = false
  /\ ~ ((lDoy foo_late > 200)%Z /\ (doy (sample_day 200 200 20 4 0) < 200)%Z)
  /\ in_season (fst (compute_crop_gdd alfalfa foo_late (sample_day 200 200 20 4 0)))
     = in_season foo_late.
Proof.
  assert (W : winter_crop alfalfa = false) by reflexivity.
  assert (A : (lDoy foo_late > 200)%Z /\ (doy (sample_day 366 1 20 4 0) < 200)%Z)
    by (cbn; lia).
  assert (B : ~ ((lDoy foo_late > 200)%Z
                 /\ (doy (sample_day 200 200 20 4 0) < 200)%Z))
    by (cbn; lia).
  split; [exact W |]. split; [apply A |]. split; [apply A |].
  split; [| split; [exact B |]].
  - exact (proj2 (proj2 (proj2 (proj2
             (proj1 (proj2 standard_reset_strict alfalfa foo_late
                       (sample_day 366 1 20 4 0) W) A))))).
  - exact (proj2 (proj2 (proj2 (proj2
             (proj2 (proj2 standard_reset_strict alfalfa foo_late
                       (sample_day 200 200 20 4 0) W) B))))).
Defined.

(** C2 as it is stated fails on a day whose day of the year equals
    [trigger + 199]: alfalfa, triggered on day 1 and last seen on day 365,
    meets [lDoy > trigger + 199 >= doy] on day 200, and is not reset. *)
Lemma reset_on_day_equal_to_wrapped_trigger_fails :
  let T := (crop_gdd_trigger_doy alfalfa + 199)%Z in
  let foo_day := sample_day 200 200 20 4 0 in
  winter_crop alfalfa = false
  /\ (lDoy foo_late > T)%Z /\ (T >= doy foo_day)%Z
  /\ ~ cgdd (cgdd_reset alfalfa foo_late foo_day) == 0
  /\ doy_start_cycle (fst (compute_crop_gdd alfalfa foo_late foo_day)) = 100%Z
  /\ real_start (fst (compute_crop_gdd alfalfa foo_late foo_day)) = true
  /\ in_season (fst (compute_crop_gdd alfalfa foo_late foo_day)) = true.
Proof.
  cbv zeta. repeat split; try (cbn; lia); try reflexivity.
  intro H. vm_compute in H. discriminate H.
Qed.

(** ** The corn method *)

(** C3, as amended.  For a crop under the corn method with [tbase = -8], on
    [tmax = 35] and [tmin = -5]: [tmaxl] is cut to 30, [tminl] is raised to
    the base [- tbase = 8] because [-5 < 8], [tmeanl] is 19 and [cgdd] grows
    by [19 + (-8) = 11]. *)
Theorem corn_clamp_example crop foo foo_day :
  (curve_number crop > 0)%Z ->
  winter_grain crop = false ->
  tbase crop == -8 ->
  tmax foo_day == 35 ->
  tmin foo_day == -5 ->
  tmaxl crop foo_day == 30
  /\ tminl crop foo_day == 8
  /\ tmeanl crop foo_day == 19
  /\ cgdd (cgdd_update crop foo foo_day) == cgdd foo + 11
  /\ cgdd (fst (compute_crop_gdd crop foo foo_day))
     == cgdd (cgdd_reset crop foo foo_day) + 11.
Proof.
  intros Hc Hw Hb Hx Hn.
  assert (X : tmaxl crop foo_day == 30)
    by (unfold tmaxl; qcases; lra).
  assert (N : tminl crop foo_day == 8)
    by (unfold tminl; qcases; lra).
  assert (M : tmeanl crop foo_day == 19)
    by (unfold tmeanl; rewrite X, N; reflexivity).
  assert (U : forall f, cgdd (cgdd_update crop f foo_day) == cgdd f + 11).
  { intro f. unfold cgdd_update.
    replace (curve_number crop >? 0)%Z with true by (symmetry; apply Z.gtb_lt; lia).
    rewrite Hw.
    replace (Qltb (tbase crop) 0) with true by (symmetry; apply Qltb_true; lra).
    unfold cgdd_update_corn. foo_simpl. rewrite M, Hb. lra. }
  repeat split; auto.
  rewrite compute_crop_gdd_fields. cbn [cgdd set_etref_30]. apply U.
Qed.

Lemma corn_clamp_example_witness :
  cgdd (cgdd_update field_corn foo_mid (sample_day 100 100 35 (-5) 0))
  == cgdd foo_mid + 11.
Proof.
  apply (corn_clamp_example field_corn foo_mid (sample_day 100 100 35 (-5) 0)).
  - reflexivity.
  - reflexivity.
  - reflexivity.
  - reflexivity.
  - reflexivity.
Defined.

(** C3 as it is stated fails: on its input [tminl] is 8, not -5, [tmeanl] is
    19, not 12.5, and [cgdd] grows by 11, not by 4.5. *)
Lemma corn_clamp_leaves_tmin_fails :
  let foo_day := sample_day 100 100 35 (-5) 0 in
  tbase field_corn == -8 /\ tmax foo_day == 35 /\ tmin foo_day == -5
  /\ corn_policy field_corn = true
  /\ ~ tminl field_corn foo_day == -5
  /\ ~ tmeanl field_corn foo_day == 25 # 2
  /\ cgdd (fst (compute_crop_gdd field_corn foo_mid foo_day)) - cgdd foo_mid
     == 11
  /\ ~ cgdd (fst (compute_crop_gdd field_corn foo_mid foo_day)) - cgdd foo_mid
       == 9 # 2.
Proof.
  cbv zeta. repeat split; try reflexivity;
    intro H; vm_compute in H; discriminate H.
Qed.

(** ** Growing degree days do not go below zero *)

Lemma tmeanl_above_base crop foo_day :
  - tbase crop <= 30 -> - tbase crop <= tmeanl crop foo_day.
Proof.
  intro H. unfold tmeanl, tmaxl, tminl. qcases; lra.
Qed.

Lemma cgdd_update_nonneg crop foo foo_day :
  (corn_policy crop = true -> - tbase crop <= 30) ->
  0 <= cgdd foo -> 0 <= gdd foo ->
  0 <= cgdd (cgdd_update crop foo foo_day)
  /\ 0 <= gdd (cgdd_update crop foo foo_day).
Proof.
  intros Hc Hcg Hg. unfold cgdd_update, corn_policy in *.
  destruct (curve_number crop >? 0)%Z; [| split; assumption].
  destruct (winter_grain crop).
  - unfold cgdd_update_winter. split_ifs; foo_simpl; qminmax; split; lra.
  - cbn [negb andb] in Hc.
    destruct (Qltb (tbase crop) 0).
    + unfold cgdd_update_corn. foo_simpl.
      pose proof (tmeanl_above_base crop foo_day (Hc eq_refl)).
      split; lra.
    + qcases; foo_simpl; split; lra.
Qed.

Lemma cgdd_reset_nonneg crop foo foo_day :
  0 <= cgdd foo -> 0 <= gdd foo ->
  0 <= cgdd (cgdd_reset crop foo foo_day)
  /\ 0 <= gdd (cgdd_reset crop foo foo_day).
Proof.
  intros Hcg Hg.
  destruct (cgdd_reset_cases crop foo foo_day) as [E | E]; rewrite E;
    foo_simpl; split; lra.
Qed.

Lemma compute_crop_gdd_nonneg crop foo foo_day :
  (corn_policy crop = true -> - tbase crop <= 30) ->
  0 <= cgdd foo -> 0 <= gdd foo ->
  0 <= cgdd (fst (compute_crop_gdd crop foo foo_day))
  /\ 0 <= gdd (fst (compute_crop_gdd crop foo foo_day)).
Proof.
  intros Hc Hcg Hg. rewrite compute_crop_gdd_fields.
  cbn [cgdd gdd set_etref_30].
  destruct (cgdd_reset_nonneg crop foo foo_day Hcg Hg) as [R1 R2].
  apply cgdd_update_nonneg; assumption.
Qed.

(** ** The penalties of winter grain *)

Lemma cgdd_update_winter_fields crop foo foo_day :
  let foo' := cgdd_update_winter crop foo foo_day in
  gdd foo' = Qmax (winter_gdd crop foo_day - penalty foo) 0
  /\ cgdd foo' = Qmax 0 (cgdd foo + gdd foo' - cgdd_penalty foo)
  /\ penalty foo' = (if Qltb (tmin foo_day) (-10) then 5 else 0)
  /\ cgdd_penalty foo'
     = (if Qltb (tmin foo_day) (-25) && Qleb (snow_depth foo_day) 0
        then cgdd foo' * (1 # 10) else 0).
Proof.
  unfold cgdd_update_winter, winter_gdd.
  destruct (Qltb (tmin foo_day) (-4)), (Qltb (tbase crop) (tmean foo_day)),
    (Qltb (tmin foo_day) (-10)), (Qltb (tmin foo_day) (-25)),
    (Qleb (snow_depth foo_day) 0);
    foo_simpl; cbn [andb]; repeat split; reflexivity.
Qed.

Lemma cgdd_reset_pending crop foo foo_day :
  gdd (cgdd_reset crop foo foo_day) = gdd foo
  /\ penalty (cgdd_reset crop foo foo_day) = penalty foo
  /\ cgdd_penalty (cgdd_reset crop foo foo_day) = cgdd_penalty foo.
Proof.
  destruct (cgdd_reset_cases crop foo foo_day) as [E | E]; rewrite E;
    repeat split; reflexivity.
Qed.

Lemma compute_crop_gdd_winter crop foo foo_day :
  (curve_number crop > 0)%Z -> winter_grain crop = true ->
  let foo' := fst (compute_crop_gdd crop foo foo_day) in
  gdd foo' = Qmax (winter_gdd crop foo_day - penalty foo) 0
  /\ cgdd foo'
     = Qmax 0 (cgdd (cgdd_reset crop foo foo_day) + gdd foo' - cgdd_penalty foo)
  /\ penalty foo' = (if Qltb (tmin foo_day) (-10) then 5 else 0)
  /\ cgdd_penalty foo'
     = (if Qltb (tmin foo_day) (-25) && Qleb (snow_depth foo_day) 0
        then cgdd foo' * (1 # 10) else 0).
Proof.
  intros Hc Hw foo'. subst foo'. rewrite compute_crop_gdd_fields.
  cbn [cgdd gdd penalty cgdd_penalty set_etref_30].
  unfold cgdd_update.
  replace (curve_number crop >? 0)%Z with true by (symmetry; apply Z.gtb_lt; lia).
  rewrite Hw.
  destruct (cgdd_update_winter_fields crop (cgdd_reset crop foo foo_day) foo_day)
    as (G & C & P & CP).
  destruct (cgdd_reset_pending crop foo foo_day) as (R1 & R2 & R3).
  rewrite R2 in G. rewrite R3 in C. repeat split; assumption.
Qed.

(** C5.  For a winter grain the penalties for cold are set on day D, applied
    on day D+1 and gone after that.  Day D leaves [penalty = 5] if
    [tmin < -10] and 0 otherwise, and leaves [cgdd_penalty] at a tenth of the
    [cgdd] of the day if [tmin < -25] with [snow_depth <= 0] and at 0
    otherwise.  On day D+1 the [penalty] is taken off the [gdd] of the day
    before [gdd] is floored at 0, and the [cgdd_penalty] is taken off [cgdd]
    before [cgdd] is floored at 0; what is pending after day D+1 depends on
    the weather of day D+1 alone.  With [cgdd = 100], [tmin = -26] and
    [snow_depth = 0] on day D, [cgdd] loses 10 on day D+1: it becomes
    [(c - 10) + gdd] floored at 0, for [c] the [cgdd] that enters the update,
    which is 100 unless the season is reset on that day, giving
    [90 + gdd]. *)
Theorem winter_grain_penalties crop foo dayD :
  (curve_number crop > 0)%Z ->
  winter_grain crop = true ->
  let foo1 := fst (compute_crop_gdd crop foo dayD) in
  (tmin dayD < -10 -> penalty foo1 == 5)
  /\ (-10 <= tmin dayD -> penalty foo1 == 0)
  /\ (tmin dayD < -25 -> snow_depth dayD <= 0 ->
      cgdd_penalty foo1 == (1 # 10) * cgdd foo1)
  /\ (~ (tmin dayD < -25 /\ snow_depth dayD <= 0) -> cgdd_penalty foo1 == 0)
  /\ forall foo1' dayD1,
      same_gdd_state foo1' foo1 ->
      let c := cgdd (cgdd_reset crop foo1' dayD1) in
      let foo2 := fst (compute_crop_gdd crop foo1' dayD1) in
      gdd foo2 == Qmax (winter_gdd crop dayD1 - penalty foo1) 0
      /\ cgdd foo2 == Qmax 0 (c + gdd foo2 - cgdd_penalty foo1)
      /\ (-10 <= tmin dayD1 -> penalty foo2 == 0)
      /\ (~ (tmin dayD1 < -25 /\ snow_depth dayD1 <= 0) -> cgdd_penalty foo2 == 0)
      /\ (cgdd foo1 == 100 -> tmin dayD == -26 -> snow_depth dayD == 0 ->
          cgdd_penalty foo1 == 10
          /\ cgdd foo2 == Qmax 0 ((c - 10) + gdd foo2)
          /\ (~ ((lDoy foo1' < crop_gdd_trigger_doy crop)%Z
                 /\ (doy dayD1 >= crop_gdd_trigger_doy crop)%Z) ->
              cgdd foo2 == 90 + gdd foo2)).
Proof.
  intros Hc Hw foo1.
  destruct (compute_crop_gdd_winter crop foo dayD Hc Hw) as (G1 & C1 & P1 & CP1).
  fold foo1 in G1, C1, P1, CP1.
  assert (S1 : tmin dayD < -10 -> penalty foo1 == 5).
  { intro H. rewrite P1.
    replace (Qltb (tmin dayD) (-10)) with true by (symmetry; apply Qltb_true; lra).
    reflexivity. }
  assert (S2 : -10 <= tmin dayD -> penalty foo1 == 0).
  { intro H. rewrite P1.
    replace (Qltb (tmin dayD) (-10)) with false by (symmetry; apply Qltb_false; lra).
    reflexivity. }
  assert (S3 : tmin dayD < -25 -> snow_depth dayD <= 0 ->
               cgdd_penalty foo1 == (1 # 10) * cgdd foo1).
  { intros H H'. rewrite CP1.
    replace (Qltb (tmin dayD) (-25)) with true by (symmetry; apply Qltb_true; lra).
    replace (Qleb (snow_depth dayD) 0) with true by (symmetry; apply Qleb_true; lra).
    cbn [andb]. lra. }
  assert (S4 : ~ (tmin dayD < -25 /\ snow_depth dayD <= 0) ->
               cgdd_penalty foo1 == 0).
  { intro H. rewrite CP1.
    destruct (Qltb (tmin dayD) (-25)) eqn:E1; [| reflexivity].
    destruct (Qleb (snow_depth dayD) 0) eqn:E2; [| reflexivity].
    exfalso. apply H. apply Qltb_true in E1. apply Qleb_true in E2. auto. }
  repeat (split; [assumption |]).
  intros foo1' dayD1 (_ & EC & _ & EP & ECP & _) c foo2.
  destruct (compute_crop_gdd_winter crop foo1' dayD1 Hc Hw) as (G2 & C2 & P2 & CP2).
  fold foo2 c in G2, C2, P2, CP2.
  assert (T1 : gdd foo2 == Qmax (winter_gdd crop dayD1 - penalty foo1) 0).
  { rewrite G2, EP. reflexivity. }
  assert (T2 : cgdd foo2 == Qmax 0 (c + gdd foo2 - cgdd_penalty foo1)).
  { rewrite C2, ECP. reflexivity. }
  split; [exact T1 |]. split; [exact T2 |]. split; [| split].
  - intro H. rewrite P2.
    replace (Qltb (tmin dayD1) (-10)) with false by (symmetry; apply Qltb_false; lra).
    reflexivity.
  - intro H. rewrite CP2.
    destruct (Qltb (tmin dayD1) (-25)) eqn:E1; [| reflexivity].
    destruct (Qleb (snow_depth dayD1) 0) eqn:E2; [| reflexivity].
    exfalso. apply H. apply Qltb_true in E1. apply Qleb_true in E2. auto.
  - intros H100 Ht Hs.
    assert (P10 : cgdd_penalty foo1 == 10).
    { rewrite S3 by lra. rewrite H100. reflexivity. }
    split; [exact P10 |].
    assert (T3 : cgdd foo2 == Qmax 0 ((c - 10) + gdd foo2)).
    { rewrite T2, P10. apply Q.max_compat; [reflexivity | lra]. }
    split; [exact T3 |].
    intro Hr.
    assert (Ec : c == 100).
    { subst c. unfold cgdd_reset.
      rewrite (winter_grain_winter_crop crop Hw).
      assert (G : (lDoy foo1' <? crop_gdd_trigger_doy crop)%Z
                  && (doy dayD1 >=? crop_gdd_trigger_doy crop)%Z = false).
      { apply andb_false_iff.
        destruct (lDoy foo1' <? crop_gdd_trigger_doy crop)%Z eqn:E1;
          [| left; reflexivity].
        destruct (doy dayD1 >=? crop_gdd_trigger_doy crop)%Z eqn:E2;
          [| right; reflexivity].
        exfalso. apply Hr. apply Z.ltb_lt in E1. apply Z.geb_le in E2. lia. }
      rewrite G. foo_simpl.
      rewrite EC. exact H100. }
    assert (N : 0 <= gdd foo2).
    { rewrite G2. apply Q.le_max_r. }
    rewrite T3, Ec. rewrite Q.max_r; lra.
Qed.

(** Winter wheat with a [cgdd] of 100 in a night of -26 degrees without
    snow: 10 are pending, and the day after, a day without growth, [cgdd]
    is 90. *)
Lemma winter_grain_penalties_witness :
  let dayD := sample_day 20 20 (-20) (-26) 0 in
  let dayD1 := sample_day 21 21 (-5) (-12) 0 in
  let foo1 := fst (compute_crop_gdd winter_wheat foo_winter dayD) in
  let foo2 := fst (compute_crop_gdd winter_wheat foo1 dayD1) in
  cgdd foo1 == 100 /\ tmin dayD == -26 /\ snow_depth dayD == 0
  /\ cgdd_penalty foo1 == 10
  /\ cgdd foo2 == 90 + gdd foo2
  /\ cgdd foo2 == 90.
Proof.
  intros dayD dayD1 foo1 foo2.
  assert (Hc : (curve_number winter_wheat > 0)%Z) by reflexivity.
  assert (Hw : winter_grain winter_wheat = true) by reflexivity.
  assert (H100 : cgdd foo1 == 100) by (vm_compute; reflexivity).
  assert (Ht : tmin dayD == -26) by reflexivity.
  assert (Hs : snow_depth dayD == 0) by reflexivity.
  assert (Hr : ~ ((lDoy foo1 < crop_gdd_trigger_doy winter_wheat)%Z
                  /\ (doy dayD1 >= crop_gdd_trigger_doy winter_wheat)%Z))
    by (cbn; lia).
  pose proof (winter_grain_penalties winter_wheat foo_winter dayD Hc Hw) as W.
  cbv zeta in W. destruct W as (_ & _ & _ & _ & W).
  specialize (W foo1 dayD1 (same_gdd_state_refl foo1)).
  destruct W as (_ & _ & _ & _ & W).
  destruct (W H100 Ht Hs) as (W1 & _ & W3).
  repeat (split; [assumption |]).
  split; [exact (W3 Hr) | vm_compute; reflexivity].
Defined.

(** ** The daily loop *)

Section Run.

Variable aFNEs : Q -> Q.
Variable setup_crop : Crop -> InitializeCropCycle -> InitializeCropCycle.
Variable setup_dormant : Crop -> InitializeCropCycle -> InitializeCropCycle.
Variable et_physics : Crop -> InitializeCropCycle -> DayData -> InitializeCropCycle.

(** The season setup and the ET physics set the season flags and the
    fields of the water balance; the fields of the growing degree day
    accumulator are not theirs. *)
Hypothesis setup_crop_frame :
  forall crop foo, same_gdd_state (setup_crop crop foo) foo.
Hypothesis setup_dormant_frame :
  forall crop foo, same_gdd_state (setup_dormant crop foo) foo.
Hypothesis et_physics_frame :
  forall crop foo foo_day, same_gdd_state (et_physics crop foo foo_day) foo.

Let day := crop_day aFNEs setup_crop setup_dormant et_physics.
Let loop := day_loop aFNEs setup_crop setup_dormant et_physics.

(** A selected day is a call of [compute_crop_gdd], at [sdays = i + 1], on
    a state that agrees with the one of the evening before, followed by
    code that keeps the fields of the accumulator. *)
Lemma crop_day_gdd refet_type crop i s foo a :
  exists foo1,
    same_gdd_state foo1 foo
    /\ same_gdd_state
         (fst (day refet_type crop i s foo a))
         (fst (compute_crop_gdd crop foo1 (fill_foo_day aFNEs refet_type i s a)))
    /\ snd (day refet_type crop i s foo a)
       = etref_array
           (snd (compute_crop_gdd crop foo1 (fill_foo_day aFNEs refet_type i s a))).
Proof.
  unfold day, crop_day, compute_crop_et.
  set (foo0 := if negb (in_season foo) && crop_setup_flag foo
               then setup_crop crop foo else foo).
  set (foo1 := if negb (in_season foo0) && dormant_setup_flag foo0
               then setup_dormant crop foo0 else foo0).
  exists foo1. split; [| split].
  - apply same_gdd_state_trans with foo0.
    + unfold foo1. destruct (negb (in_season foo0) && dormant_setup_flag foo0);
        [apply setup_dormant_frame | apply same_gdd_state_refl].
    + unfold foo0. destruct (negb (in_season foo) && crop_setup_flag foo);
        [apply setup_crop_frame | apply same_gdd_state_refl].
  - destruct (compute_crop_gdd crop foo1 _) as [foo2 d2]. cbn [fst].
    apply et_physics_frame.
  - destruct (compute_crop_gdd crop foo1 _) as [foo2 d2]. reflexivity.
Qed.

Lemma crop_day_rolling refet_type crop s hist foo a :
  rolling_state hist foo a ->
  rolling_state (hist ++ [refet_array refet_type s])
    (fst (day refet_type crop (List.length hist) s foo a))
    (snd (day refet_type crop (List.length hist) s foo a)).
Proof.
  intro H.
  destruct (crop_day_gdd refet_type crop (List.length hist) s foo a)
    as (foo1 & F1 & F2 & Ea).
  rewrite Ea. rewrite compute_crop_gdd_stages in *. cbn [fst snd] in *.
  apply rolling_state_Qeq
    with (foo := fst (etref_30_update foo1
                        (fill_foo_day aFNEs refet_type (List.length hist) s a))).
  - destruct F2 as (E & _). rewrite E.
    rewrite cgdd_update_etref_30, cgdd_reset_etref_30. reflexivity.
  - apply (rolling_state_step hist foo1
             (fill_foo_day aFNEs refet_type (List.length hist) s a)).
    + reflexivity.
    + cbn [fill_foo_day etref_array].
      apply rolling_state_Qeq with (foo := foo); [apply F1 | exact H].
Qed.

Lemma day_loop_rolling refet_type crop mask steps :
  forall hist foo a,
    (forall j, (List.length hist <= j < List.length hist + List.length steps)%nat ->
               nth j mask false = true) ->
    rolling_state hist foo a ->
    rolling_state (hist ++ map (refet_array refet_type) steps)
      (fst (loop refet_type crop mask (List.length hist) steps foo a))
      (snd (loop refet_type crop mask (List.length hist) steps foo a)).
Proof.
  induction steps as [| s steps IH]; intros hist foo a Hm H.
  - cbn. rewrite app_nil_r. exact H.
  - cbn [map]. unfold loop. cbn [day_loop]. fold loop.
    rewrite Hm by (cbn [List.length]; lia). cbn [negb].
    fold (day refet_type crop (List.length hist) s foo a).
    pose proof (crop_day_rolling refet_type crop s hist foo a H) as H1.
    destruct (day refet_type crop (List.length hist) s foo a) as [foo' a'].
    cbn [fst snd] in H1.
    replace (hist ++ refet_array refet_type s :: map (refet_array refet_type) steps)
      with ((hist ++ [refet_array refet_type s]) ++ map (refet_array refet_type) steps)
      by (rewrite <- app_assoc; reflexivity).
    replace (S (List.length hist))
      with (List.length (hist ++ [refet_array refet_type s]))
      by (rewrite length_app; cbn; lia).
    apply IH; [| exact H1].
    intros j Hj. apply Hm. rewrite length_app in Hj. cbn [List.length] in *. lia.
Qed.

Lemma rolling_state_init foo : rolling_state [] foo DayData_init.
Proof.
  left. cbn [List.length]. repeat split.
  - lia.
  - unfold sum. cbn [fold_right Z.of_nat]. change (inject_Z 0) with 0. lra.
Qed.

(** C1, as amended.  The rolling mean of the reference ET follows the
    recurrence of the 30 slot array.  With [n = sdays], the position of the
    day in the date series, counted from 1, days that the mask skips
    included: while [n <= 30] the new [etref_30] is
    [(etref_30 * (n - 1) + etref) / n] and [etref] goes to slot [n - 1],
    the other slots staying as they are; once [n > 30] the array moves one
    slot to the left, [etref] goes to the last slot and [etref_30] grows by
    [(etref - lost) / 30], [lost] being the slot that was dropped; the loop
    calls the update with [sdays = i + 1].  Hence, over a run whose days
    are all selected, from day 30 on [etref_30] is the mean of the 30 most
    recent reference ET values, which are the contents of the array. *)
Theorem etref_30_rolling_mean :
  (forall crop foo foo_day,
      (Z.pos (sdays foo_day) <= 30)%Z ->
      List.length (etref_array foo_day) = 30%nat ->
      let n := inject_Z (Z.pos (sdays foo_day)) in
      let slot := (Pos.to_nat (sdays foo_day) - 1)%nat in
      let r := compute_crop_gdd crop foo foo_day in
      etref_30 (fst r) == (etref_30 foo * (n - 1) + etref foo_day) / n
      /\ nth slot (etref_array (snd r)) 0 = etref foo_day
      /\ forall j, j <> slot ->
                   nth j (etref_array (snd r)) 0 = nth j (etref_array foo_day) 0)
  /\ (forall crop foo foo_day,
      (30 < Z.pos (sdays foo_day))%Z ->
      List.length (etref_array foo_day) = 30%nat ->
      let lost := nth 0 (etref_array foo_day) 0 in
      let r := compute_crop_gdd crop foo foo_day in
      etref_30 (fst r) == etref_30 foo + (etref foo_day - lost) / 30
      /\ etref_array (snd r) = tl (etref_array foo_day) ++ [etref foo_day])
  /\ (forall refet_type i s a,
      Z.pos (sdays (fill_foo_day aFNEs refet_type i s a)) = (Z.of_nat i + 1)%Z)
  /\ (forall refet_type crop mask steps foo,
      (forall j, (j < List.length steps)%nat -> nth j mask false = true) ->
      (30 <= List.length steps)%nat ->
      let r := loop refet_type crop mask 0 steps foo DayData_init in
      etref_30 (fst r) == mean (lastn 30 (map (refet_array refet_type) steps))
      /\ snd r = lastn 30 (map (refet_array refet_type) steps)).
Proof.
  split; [| split; [| split]].
  - intros crop foo foo_day Hn Hl n slot r. subst r.
    rewrite compute_crop_gdd_stages. cbn [fst snd].
    rewrite cgdd_update_etref_30, cgdd_reset_etref_30.
    unfold etref_30_update.
    replace (30 <? Z.pos (sdays foo_day))%Z with false
      by (symmetry; apply Z.ltb_ge; lia).
    cbn [fst snd etref_30 set_etref_30 etref_array set_etref_array].
    split; [| split].
    + subst n. unfold Zminus. rewrite inject_Z_plus. reflexivity.
    + apply set_nth_same. subst slot. lia.
    + intros j Hj. apply set_nth_other. intro K. apply Hj. symmetry. exact K.
  - intros crop foo foo_day Hn Hl lost r. subst r.
    rewrite compute_crop_gdd_stages. cbn [fst snd].
    rewrite cgdd_update_etref_30, cgdd_reset_etref_30.
    unfold etref_30_update.
    replace (30 <? Z.pos (sdays foo_day))%Z with true
      by (symmetry; apply Z.ltb_lt; lia).
    cbn [fst snd etref_30 set_etref_30 etref_array set_etref_array].
    split; [reflexivity | apply shift_then_store; exact Hl].
  - intros refet_type i s a. cbn [fill_foo_day sdays].
    rewrite Zpos_P_of_succ_nat. lia.
  - intros refet_type crop mask steps foo Hm Hl r.
    pose proof (day_loop_rolling refet_type crop mask steps [] foo DayData_init)
      as H. cbn [List.length app plus] in H.
    specialize (H (fun j Hj => Hm j (proj2 Hj)) (rolling_state_init foo)).
    fold r in H.
    set (hist := map (refet_array refet_type) steps) in *.
    assert (Lh : List.length hist = List.length steps)
      by (unfold hist; apply length_map).
    destruct H as [(L & Ha & Hs) | (L & Ha & Hs)].
    + assert (K : List.length hist = 30%nat) by lia.
      assert (Ea : snd r = hist).
      { rewrite Ha, K. cbn. apply app_nil_r. }
      assert (El : lastn 30 hist = hist) by (rewrite <- K; apply lastn_all).
      rewrite El. split; [| exact Ea].
      unfold mean. rewrite K. rewrite K in Hs.
      change (inject_Z (Z.of_nat 30)) with 30 in *.
      rewrite <- Hs. field.
    + split; [| exact Ha].
      unfold mean. rewrite (lastn_length 30 hist L).
      change (inject_Z (Z.of_nat 30)) with 30. rewrite <- Ha.
      rewrite <- Hs. field.
Qed.

(** *** Growing degree days stay non-negative over a run *)

Lemma crop_day_nonneg refet_type crop i s foo a :
  (corn_policy crop = true -> - tbase crop <= 30) ->
  0 <= cgdd foo -> 0 <= gdd foo ->
  0 <= cgdd (fst (day refet_type crop i s foo a))
  /\ 0 <= gdd (fst (day refet_type crop i s foo a)).
Proof.
  intros Hc Hcg Hg.
  destruct (crop_day_gdd refet_type crop i s foo a)
    as (foo1 & (_ & E1 & E2 & _) & (_ & F1 & F2 & _) & _).
  rewrite F1, F2.
  apply compute_crop_gdd_nonneg; [exact Hc | rewrite E1 | rewrite E2]; assumption.
Qed.

Lemma day_loop_nonneg refet_type crop mask steps :
  (corn_policy crop = true -> - tbase crop <= 30) ->
  forall i foo a,
    0 <= cgdd foo -> 0 <= gdd foo ->
    0 <= cgdd (fst (loop refet_type crop mask i steps foo a))
    /\ 0 <= gdd (fst (loop refet_type crop mask i steps foo a)).
Proof.
  intro Hc. induction steps as [| s steps IH]; intros i foo a Hcg Hg.
  - cbn. split; assumption.
  - unfold loop. cbn [day_loop]. fold loop.
    destruct (negb (nth i mask false)).
    + apply IH; assumption.
    + fold (day refet_type crop i s foo a).
      destruct (crop_day_nonneg refet_type crop i s foo a Hc Hcg Hg) as [H1 H2].
      destruct (day refet_type crop i s foo a) as [foo' a'].
      apply IH; assumption.
Qed.

(** C4, as amended.  For a crop that is not under the corn method, or whose
    corn base temperature [- tbase] is at most 30, a state with [cgdd >= 0]
    and [gdd >= 0] has [cgdd >= 0] and [gdd >= 0] after the update of any
    day, and so after every day of a run that starts from such a state. *)
Theorem gdd_never_negative crop :
  (corn_policy crop = true -> - tbase crop <= 30) ->
  (forall foo foo_day,
      0 <= cgdd foo -> 0 <= gdd foo ->
      0 <= cgdd (fst (compute_crop_gdd crop foo foo_day))
      /\ 0 <= gdd (fst (compute_crop_gdd crop foo foo_day)))
  /\ (forall refet_type mask steps i foo a,
      0 <= cgdd foo -> 0 <= gdd foo ->
      0 <= cgdd (fst (loop refet_type crop mask i steps foo a))
      /\ 0 <= gdd (fst (loop refet_type crop mask i steps foo a))).
Proof.
  intro Hc. split.
  - intros foo foo_day. apply compute_crop_gdd_nonneg. exact Hc.
  - intros refet_type mask steps. apply day_loop_nonneg. exact Hc.
Qed.

(** *** The day of the year last seen *)

Lemma day_loop_app refet_type crop mask steps steps' :
  forall i foo a,
    loop refet_type crop mask i (steps ++ steps') foo a
    = loop refet_type crop mask (i + List.length steps) steps'
        (fst (loop refet_type crop mask i steps foo a))
        (snd (loop refet_type crop mask i steps foo a)).
Proof.
  induction steps as [| s steps IH]; intros i foo a.
  - cbn [app List.length]. rewrite Nat.add_0_r. reflexivity.
  - cbn [app List.length]. unfold loop. cbn [day_loop]. fold loop.
    replace (i + S (List.length steps))%nat with (S i + List.length steps)%nat
      by lia.
    destruct (negb (nth i mask false)).
    + apply IH.
    + destruct (crop_day aFNEs setup_crop setup_dormant et_physics
                  refet_type crop i s foo a) as [foo' a'].
      apply IH.
Qed.

Lemma crop_day_lDoy refet_type crop i s foo a :
  lDoy (fst (day refet_type crop i s foo a)) = strftime_j (Dates s).
Proof.
  destruct (crop_day_gdd refet_type crop i s foo a)
    as (foo1 & _ & (_ & _ & _ & _ & _ & F) & _).
  rewrite F. apply compute_crop_gdd_lDoy.
Qed.

Lemma day_loop_last_lDoy refet_type crop mask steps s foo a :
  nth (List.length steps) mask false = true ->
  lDoy (fst (loop refet_type crop mask 0 (steps ++ [s]) foo a))
  = strftime_j (Dates s).
Proof.
  intro Hm. rewrite day_loop_app. cbn [plus].
  unfold loop at 1. cbn [day_loop]. rewrite Hm. cbn [negb].
  fold (day refet_type crop (List.length steps) s
          (fst (loop refet_type crop mask 0 steps foo a))
          (snd (loop refet_type crop mask 0 steps foo a))).
  pose proof (crop_day_lDoy refet_type crop (List.length steps) s
                (fst (loop refet_type crop mask 0 steps foo a))
                (snd (loop refet_type crop mask 0 steps foo a))) as H.
  destruct (day refet_type crop (List.length steps) s _ _) as [foo' a'].
  exact H.
Qed.

(** *** One reset a year *)

(** C6, as amended.  Over a run of days that follow each other in the
    calendar, on every day after the first one the season reset depends on
    the day of the year alone.  A crop that is not reset as a winter crop and
    whose [trigger + 199] lies strictly between 1 and 365 is reset on the
    first day of a calendar year and on no other day: once at each turn of the
    year.  A winter crop whose trigger day lies after day 1 and is at most
    day 365, a day that every year has, is reset on the day of the year of
    its trigger and on no other day: once a year, and not at the turn of the
    year.  A winter crop whose trigger is day 1 or earlier, or lies after
    day 366, is not reset on any day.  The state that [compute_crop_gdd]
    meets on such a day agrees on [lDoy] with the state [foo_prev] that the
    day before left. *)
Theorem one_reset_per_year refet_type crop mask steps s_prev foo :
  nth (List.length steps) mask false = true ->
  let foo_prev :=
    fst (loop refet_type crop mask 0 (steps ++ [s_prev]) foo DayData_init) in
  forall foo1 foo_day,
    same_gdd_state foo1 foo_prev ->
    calendar_next (strftime_j (Dates s_prev)) (doy foo_day) ->
    (winter_crop crop = false ->
     (1 < crop_gdd_trigger_doy crop + 199 < 365)%Z ->
     (doy foo_day = 1%Z ->
      cgdd_reset crop foo1 foo_day = set_lDoy (doy foo_day) (reset_season foo1))
     /\ (doy foo_day <> 1%Z ->
         cgdd_reset crop foo1 foo_day = set_lDoy (doy foo_day) foo1))
    /\ (winter_crop crop = true ->
        (1 < crop_gdd_trigger_doy crop <= 365)%Z ->
        (doy foo_day = crop_gdd_trigger_doy crop ->
         cgdd_reset crop foo1 foo_day = set_lDoy (doy foo_day) (reset_season foo1))
        /\ (doy foo_day <> crop_gdd_trigger_doy crop ->
            cgdd_reset crop foo1 foo_day = set_lDoy (doy foo_day) foo1))
    /\ (winter_crop crop = true ->
        (crop_gdd_trigger_doy crop <= 1 \/ 366 < crop_gdd_trigger_doy crop)%Z ->
        cgdd_reset crop foo1 foo_day = set_lDoy (doy foo_day) foo1).
Proof.
  intros Hm foo_prev foo1 foo_day (_ & _ & _ & _ & _ & El) Hn.
  assert (L : lDoy foo1 = strftime_j (Dates s_prev)).
  { rewrite El. apply day_loop_last_lDoy. exact Hm. }
  clear El. unfold calendar_next in Hn. rewrite <- L in Hn.
  unfold cgdd_reset.
  split; [| split]; intros W Ht; rewrite W; [split; intro Hd | split; intro Hd |].
  - replace (lDoy foo1 >? crop_gdd_trigger_doy crop + 199)%Z with true
      by (symmetry; apply Z.gtb_lt; lia).
    replace (doy foo_day <? crop_gdd_trigger_doy crop + 199)%Z with true
      by (symmetry; apply Z.ltb_lt; lia).
    reflexivity.
  - destruct (lDoy foo1 >? crop_gdd_trigger_doy crop + 199)%Z eqn:E1;
      [| reflexivity].
    destruct (doy foo_day <? crop_gdd_trigger_doy crop + 199)%Z eqn:E2;
      [| reflexivity].
    apply Z.gtb_lt in E1. apply Z.ltb_lt in E2. lia.
  - replace (lDoy foo1 <? crop_gdd_trigger_doy crop)%Z with true
      by (symmetry; apply Z.ltb_lt; lia).
    replace (doy foo_day >=? crop_gdd_trigger_doy crop)%Z with true
      by (symmetry; apply Z.geb_le; lia).
    reflexivity.
  - destruct (lDoy foo1 <? crop_gdd_trigger_doy crop)%Z eqn:E1;
      [| reflexivity].
    destruct (doy foo_day >=? crop_gdd_trigger_doy crop)%Z eqn:E2;
      [| reflexivity].
    apply Z.ltb_lt in E1. apply Z.geb_le in E2. lia.
  - destruct (lDoy foo1 <? crop_gdd_trigger_doy crop)%Z eqn:E1;
      [| reflexivity].
    destruct (doy foo_day >=? crop_gdd_trigger_doy crop)%Z eqn:E2;
      [| reflexivity].
    apply Z.ltb_lt in E1. apply Z.geb_le in E2. lia.
Qed.

End Run.


(** ** The daily loop on sample inputs *)

Lemma sample_setup_crop_frame crop foo :
  same_gdd_state (sample_setup_crop crop foo) foo.
Proof. unfold same_gdd_state. repeat split; reflexivity. Qed.

Lemma sample_setup_dormant_frame crop foo :
  same_gdd_state (sample_setup_dormant crop foo) foo.
Proof. unfold same_gdd_state. repeat split; reflexivity. Qed.

Lemma sample_et_physics_frame crop foo foo_day :
  same_gdd_state (sample_et_physics crop foo foo_day) foo.
Proof. unfold same_gdd_state. repeat split; reflexivity. Qed.

Lemma nth_repeat_true n j : (j < n)%nat -> nth j (repeat true n) false = true.
Proof.
  revert j; induction n as [| n IH]; intros [| j] H; cbn; try lia; auto.
  apply IH. lia.
Qed.

(** A reference ET of 5.0 on 40 days in a row: [etref_30] is 5.0 at the end,
    the mean of the last 30 values. *)
Lemma etref_30_rolling_mean_witness :
  (30 <= List.length steps_40)%nat
  /\ (forall j, (j < List.length steps_40)%nat ->
                nth j (repeat true (List.length steps_40)) false = true)
  /\ etref_30 (fst (sample_loop alfalfa steps_40 foo_start)) == 5.
Proof.
  assert (L : (30 <= List.length steps_40)%nat) by (cbn; lia).
  assert (M : forall j, (j < List.length steps_40)%nat ->
                        nth j (repeat true (List.length steps_40)) false = true)
    by (intros j Hj; apply nth_repeat_true; exact Hj).
  split; [exact L |]. split; [exact M |].
  destruct (etref_30_rolling_mean sample_aFNEs sample_setup_crop
              sample_setup_dormant sample_et_physics sample_setup_crop_frame
              sample_setup_dormant_frame sample_et_physics_frame)
    as (_ & _ & _ & H).
  destruct (H 1%Z alfalfa (repeat true (List.length steps_40)) steps_40
              foo_start M L) as [E _].
  unfold sample_loop. rewrite E. vm_compute. reflexivity.
Defined.

(** C1 as it is stated fails for a run whose window starts late.  On 30 days
    with a reference ET of 5.0 each, the first 9 of them skipped by the mask,
    the 21 days that are selected have [sdays] from 10 to 30: after day 30
    [etref_30] is 3.5, and not 5.0, the mean of the reference ET values. *)
Lemma etref_30_after_late_window_fails :
  let steps := firstn 30 steps_40 in
  let r := day_loop sample_aFNEs sample_setup_crop sample_setup_dormant
                    sample_et_physics 1 alfalfa mask_from_10 0 steps foo_start
                    DayData_init in
  List.length steps = 30%nat
  /\ map (refet_array 1) steps = repeat 5 30
  /\ firstn 30 mask_from_10 = repeat false 9 ++ repeat true 21
  /\ mean (lastn 30 (map (refet_array 1) steps)) == 5
  /\ etref_30 (fst r) == 7 # 2
  /\ ~ etref_30 (fst r) == mean (lastn 30 (map (refet_array 1) steps)).
Proof.
  cbv zeta. repeat split; try (vm_compute; reflexivity).
  intro H. vm_compute in H. discriminate H.
Qed.

(** Alfalfa, a generic crop, from the start of a run over 40 days. *)
Lemma gdd_never_negative_witness :
  0 <= cgdd foo_start /\ 0 <= gdd foo_start
  /\ 0 <= cgdd (fst (sample_loop alfalfa steps_40 foo_start))
  /\ 0 <= gdd (fst (sample_loop alfalfa steps_40 foo_start)).
Proof.
  assert (C : 0 <= cgdd foo_start) by (cbn; lra).
  assert (G : 0 <= gdd foo_start) by (cbn; lra).
  split; [exact C |]. split; [exact G |].
  refine (proj2 (gdd_never_negative sample_aFNEs sample_setup_crop
                   sample_setup_dormant sample_et_physics
                   sample_setup_crop_frame sample_setup_dormant_frame
                   sample_et_physics_frame alfalfa _)
            1%Z (repeat true (List.length steps_40)) steps_40 0%nat foo_start
            DayData_init C G).
  intro H. discriminate H.
Defined.

(** C4 as it is stated fails for a corn crop whose base temperature lies
    above the cap of 30 degrees: with [- tbase = 31], a day with [tmax] and
    [tmin] of 32 takes [cgdd] from 0 to -1. *)
Lemma corn_above_cap_negative_cgdd_fails :
  let foo_day := sample_day 1 150 32 32 0 in
  corn_policy hot_corn = true
  /\ 0 <= cgdd foo_start /\ 0 <= gdd foo_start
  /\ cgdd (fst (compute_crop_gdd hot_corn foo_start foo_day)) == -1
  /\ ~ 0 <= cgdd (fst (compute_crop_gdd hot_corn foo_start foo_day)).
Proof.
  cbv zeta. repeat split; try reflexivity; try (cbn; lra).
  intro H. vm_compute in H. apply H. reflexivity.
Qed.

(** Alfalfa, triggered on day 1, the day after a day 365: the state is reset
    on a day 1 and left alone on a day 366.  Winter wheat, triggered on
    day 274: the state is reset on day 274, the day after a day 273, and left
    alone on a day 1, the day after a day 365. *)
Lemma one_reset_per_year_witness :
  let foo_prev := fst (sample_loop alfalfa (firstn 2 steps_year_end) foo_mid) in
  let foo_273 := fst (sample_loop winter_wheat (firstn 1 steps_day_274) foo_sep) in
  let foo_365 :=
    fst (sample_loop winter_wheat (firstn 2 steps_year_end) foo_dec) in
  cgdd_reset alfalfa foo_prev (sample_day 3 1 20 4 0)
  = set_lDoy 1 (reset_season foo_prev)
  /\ cgdd_reset alfalfa foo_prev (sample_day 3 366 20 4 0)
     = set_lDoy 366 foo_prev
  /\ cgdd_reset winter_wheat foo_273 (sample_day 2 274 20 4 0)
     = set_lDoy 274 (reset_season foo_273)
  /\ cgdd_reset winter_wheat foo_365 (sample_day 3 1 20 4 0)
     = set_lDoy 1 foo_365.
Proof.
  intros foo_prev foo_273 foo_365.
  assert (M : nth (List.length [sample_step 364 5 0]) (repeat true 2) false = true)
    by reflexivity.
  assert (M' : nth (List.length (@nil TimeStep)) (repeat true 1) false = true)
    by reflexivity.
  assert (W : winter_crop alfalfa = false) by reflexivity.
  assert (T : (1 < crop_gdd_trigger_doy alfalfa + 199 < 365)%Z) by (cbn; lia).
  assert (W' : winter_crop winter_wheat = true) by reflexivity.
  assert (T' : (1 < crop_gdd_trigger_doy winter_wheat <= 365)%Z) by (cbn; lia).
  pose proof (one_reset_per_year sample_aFNEs sample_setup_crop
                sample_setup_dormant sample_et_physics sample_setup_crop_frame
                sample_setup_dormant_frame sample_et_physics_frame
                1%Z alfalfa (repeat true 2) [sample_step 364 5 0]
                (sample_step 364 5 1) foo_mid M) as H.
  pose proof (one_reset_per_year sample_aFNEs sample_setup_crop
                sample_setup_dormant sample_et_physics sample_setup_crop_frame
                sample_setup_dormant_frame sample_et_physics_frame
                1%Z winter_wheat (repeat true 1) []
                (sample_step 273 5 0) foo_sep M') as H1.
  pose proof (one_reset_per_year sample_aFNEs sample_setup_crop
                sample_setup_dormant sample_et_physics sample_setup_crop_frame
                sample_setup_dormant_frame sample_et_physics_frame
                1%Z winter_wheat (repeat true 2) [sample_step 364 5 0]
                (sample_step 364 5 1) foo_dec M) as H2.
  cbv zeta in H, H1, H2. split; [| split; [| split]].
  - refine (proj1 (proj1 (H foo_prev (sample_day 3 1 20 4 0)
                            (same_gdd_state_refl _) _) W T) eq_refl).
    unfold calendar_next. cbn. lia.
  - refine (proj2 (proj1 (H foo_prev (sample_day 3 366 20 4 0)
                            (same_gdd_state_refl _) _) W T) _).
    + unfold calendar_next. cbn. lia.
    + cbn. lia.
  - refine (proj1 (proj1 (proj2 (H1 foo_273 (sample_day 2 274 20 4 0)
                                    (same_gdd_state_refl _) _)) W' T') eq_refl).
    unfold calendar_next. cbn. lia.
  - refine (proj2 (proj1 (proj2 (H2 foo_365 (sample_day 3 1 20 4 0)
                                    (same_gdd_state_refl _) _)) W' T') _).
    + unfold calendar_next. cbn. lia.
    + cbn. lia.
Defined.

(** C6 as it is stated fails.  A standard crop triggered on day 200 is not
    reset at the turn of the year: over the days 364, 365 and 1 its [cgdd]
    grows from 50 to 71.  Winter wheat, triggered on day 274, is not reset at
    the turn of the year either, its [cgdd] growing from 100 to 136; it is
    reset on day 274, in the middle of a year, where [cgdd] restarts from 0
    and ends the day at 12. *)
Lemma reset_at_every_turn_of_the_year_fails :
  winter_crop late_crop = false
  /\ map (fun s => strftime_j (Dates s)) steps_year_end = [364; 365; 1]%Z
  /\ cgdd (fst (sample_loop late_crop steps_year_end foo_mid)) == 71
  /\ winter_crop winter_wheat = true
  /\ cgdd (fst (sample_loop winter_wheat steps_year_end foo_dec)) == 136
  /\ map (fun s => strftime_j (Dates s)) steps_day_274 = [273; 274]%Z
  /\ cgdd (fst (sample_loop winter_wheat steps_day_274 foo_sep)) == 12.
Proof.
  repeat split; vm_compute; reflexivity.
Qed.


(** ** The mask of valid dates *)

Lemma date_mask_short dates start_dt end_dt :
  (List.length dates <= 1)%nat ->
  date_mask dates start_dt end_dt = Some (elementwise_mask dates start_dt end_dt).
Proof.
  intro H. destruct dates as [| d [| d' dates]]; [reflexivity | | cbn in H; lia].
  unfold date_mask, elementwise_mask, ndarray_and. cbn [map ndarray_bool].
  destruct (toordinal d >=? toordinal start_dt)%Z; reflexivity.
Qed.

(** C7.  For a date series of more than one entry the mask of valid dates,
    built with [and] from the two comparisons of the whole array, is an error
    (the [ValueError] of the truth value of an array), and so is not the
    conjunction, entry by entry, of the two comparisons; [crop_day_loop]
    ends there and its loop over the days never starts, whatever the code it
    would have called. *)
Theorem date_mask_raises dates start_dt end_dt :
  (1 < List.length dates)%nat ->
  date_mask dates start_dt end_dt = None
  /\ date_mask dates start_dt end_dt
     <> Some (elementwise_mask dates start_dt end_dt)
  /\ forall aFNEs setup_crop setup_dormant et_physics refet_type crop foo steps,
      map Dates steps = dates ->
      crop_day_loop aFNEs setup_crop setup_dormant et_physics refet_type crop
                    foo start_dt end_dt steps = None.
Proof.
  intro H.
  assert (E : date_mask dates start_dt end_dt = None).
  { destruct dates as [| d [| d' dates]]; [cbn in H; lia | cbn in H; lia |].
    reflexivity. }
  split; [exact E |]. split.
  - rewrite E. discriminate.
  - intros aFNEs setup_crop setup_dormant et_physics refet_type crop foo steps Hd.
    unfold crop_day_loop. rewrite Hd, E. reflexivity.
Qed.

Lemma date_mask_raises_witness :
  (1 < List.length (map Dates steps_3))%nat
  /\ elementwise_mask (map Dates steps_3) window_start window_end = [true; true; true]
  /\ date_mask (map Dates steps_3) window_start window_end = None
  /\ crop_day_loop sample_aFNEs sample_setup_crop sample_setup_dormant
       sample_et_physics 1 alfalfa foo_start window_start window_end steps_3 = None.
Proof.
  assert (L : (1 < List.length (map Dates steps_3))%nat) by (cbn; lia).
  split; [exact L |]. split; [reflexivity |].
  destruct (date_mask_raises (map Dates steps_3) window_start window_end L) as (E & _ & C).
  split; [exact E |].
  apply C. reflexivity.
Defined.

(** ** The minimum relative humidity *)



(** ** The snow depth estimate *)

Lemma snow_loop_bound acc rows :
  exists depths, ETCell.snow_loop (Some acc) rows = ETCell.Ok depths.
Proof.
  revert acc; induction rows as [| r rows IH]; intro acc.
  - exists []. reflexivity.
  - cbn [ETCell.snow_loop].
    destruct (IH (Qmax (acc + ETCell.snow r * (1 # 2)
                        - Qmax (4 * ETCell.tmax r) 0) 0)) as [l E].
    rewrite E. eexists. reflexivity.
Qed.

(** C8 does not hold of the code: whenever some snow has fallen, the estimate
    reads [snow_accum] on the first day of the record before anything has
    been assigned to it, and ends in an [UnboundLocalError]; no value of
    [snow_depth] is computed.  Started from 0, as the claim has it, the same
    loop yields a depth for every day. *)
Theorem snow_accum_unbound rows :
  existsb (fun r => negb (Qeq_bool (ETCell.snow r) 0)) rows = true ->
  ETCell.snow_depth_estimate rows = ETCell.UnboundLocalError
  /\ exists depths, ETCell.snow_loop (Some 0) rows = ETCell.Ok depths.
Proof.
  intro H. split; [| apply snow_loop_bound].
  unfold ETCell.snow_depth_estimate. rewrite H.
  destruct rows as [| r rows]; [discriminate H | reflexivity].
Qed.

Lemma snow_accum_unbound_witness :
  ETCell.snow_depth_estimate rows_snow = ETCell.UnboundLocalError
  /\ match ETCell.snow_loop (Some 0) rows_snow with
     | ETCell.Ok depths => map Qred depths = [0; 4; 1]
     | ETCell.UnboundLocalError => False
     end.
Proof.
  split.
  - apply (snow_accum_unbound rows_snow). reflexivity.
  - vm_compute. reflexivity.
Defined.


(** ** Grouping by day of the year *)

Lemma group_add_keys k v g k' :
  In k' (map fst (ETCell.group_add k v g)) <-> k' = k \/ In k' (map fst g).
Proof.
  induction g as [| [k0 [s n]] g IH]; cbn [ETCell.group_add].
  - cbn. intuition.
  - destruct (k <? k0)%Z eqn:E1; [cbn; intuition |].
    destruct (k =? k0)%Z eqn:E2.
    + apply Z.eqb_eq in E2. subst k0. cbn. intuition.
    + cbn [map fst In]. rewrite IH. cbn. intuition.
Qed.

Lemma group_add_increasing k v g :
  increasing (map fst g) -> increasing (map fst (ETCell.group_add k v g)).
Proof.
  induction g as [| [k0 [s n]] g IH]; cbn [ETCell.group_add]; intro H.
  - cbn. split; [intros k' [] | exact I].
  - cbn [map fst increasing] in H. destruct H as [H1 H2].
    destruct (k <? k0)%Z eqn:E1.
    + apply Z.ltb_lt in E1. cbn [map fst increasing]. split; [| split; assumption].
      intros k' [K | K]; [subst k'; exact E1 |].
      specialize (H1 k' K). lia.
    + apply Z.ltb_ge in E1. destruct (k =? k0)%Z eqn:E2.
      * cbn [map fst increasing]. split; assumption.
      * apply Z.eqb_neq in E2. cbn [map fst increasing]. split; [| apply IH; exact H2].
        intros k' K. apply group_add_keys in K. destruct K as [K | K].
        -- subst k'. lia.
        -- apply H1. exact K.
Qed.

Lemma group_lookup_none k g :
  group_lookup k g = None <-> ~ In k (map fst g).
Proof.
  unfold group_lookup. induction g as [| [k0 sn] g IH]; cbn [find map fst In].
  - intuition.
  - destruct (k0 =? k)%Z eqn:E.
    + apply Z.eqb_eq in E. split; [discriminate | intro H; exfalso; apply H; left; exact E].
    + apply Z.eqb_neq in E. rewrite IH. intuition.
Qed.

Lemma group_lookup_add_other k v g k' :
  k' <> k -> group_lookup k' (ETCell.group_add k v g) = group_lookup k' g.
Proof.
  intro N. unfold group_lookup.
  induction g as [| [k0 [s n]] g IH]; cbn [ETCell.group_add].
  - cbn [find fst]. replace (k =? k')%Z with false by (symmetry; apply Z.eqb_neq; lia).
    reflexivity.
  - destruct (k <? k0)%Z.
    + cbn [find fst].
      replace (k =? k')%Z with false by (symmetry; apply Z.eqb_neq; lia).
      reflexivity.
    + destruct (k =? k0)%Z eqn:E2.
      * apply Z.eqb_eq in E2. subst k0. cbn [find fst].
        replace (k =? k')%Z with false by (symmetry; apply Z.eqb_neq; lia).
        reflexivity.
      * cbn [find fst]. destruct (k0 =? k')%Z; [reflexivity | exact IH].
Qed.

Lemma group_lookup_add_same k v g :
  increasing (map fst g) ->
  group_lookup k (ETCell.group_add k v g)
  = Some (match group_lookup k g with
          | None => (v, 1%nat)
          | Some (s, n) => (s + v, S n)
          end).
Proof.
  unfold group_lookup.
  induction g as [| [k0 [s n]] g IH]; cbn [ETCell.group_add]; intro H.
  - cbn [find fst snd]. rewrite Z.eqb_refl. reflexivity.
  - cbn [map fst increasing] in H. destruct H as [H1 H2].
    destruct (k <? k0)%Z eqn:E1.
    + apply Z.ltb_lt in E1. cbn [find fst snd]. rewrite Z.eqb_refl.
      replace (k0 =? k)%Z with false by (symmetry; apply Z.eqb_neq; lia).
      assert (N : ~ In k (map fst g)).
      { intro K. specialize (H1 k K). lia. }
      apply group_lookup_none in N. unfold group_lookup in N.
      destruct (find (fun e => (fst e =? k)%Z) g); [discriminate N | reflexivity].
    + destruct (k =? k0)%Z eqn:E2.
      * apply Z.eqb_eq in E2. subst k0. cbn [find fst snd].
        rewrite Z.eqb_refl. reflexivity.
      * cbn [find fst snd]. rewrite Z.eqb_sym, E2. apply IH. exact H2.
Qed.

Lemma group_values_snoc k kv k' v :
  group_values k (kv ++ [(k', v)])
  = group_values k kv ++ (if (k' =? k)%Z then [v] else []).
Proof.
  unfold group_values. rewrite filter_app, map_app. cbn [filter fst].
  destruct (k' =? k)%Z; reflexivity.
Qed.

Lemma groups_of_snoc kv g k v :
  groups_of kv g -> groups_of (kv ++ [(k, v)]) (ETCell.group_add k v g).
Proof.
  intros [Hi Hg]. split; [apply group_add_increasing; exact Hi |].
  intro k'. rewrite group_values_snoc.
  destruct (Z.eq_dec k' k) as [E | E].
  - subst k'. rewrite Z.eqb_refl, (group_lookup_add_same k v g Hi).
    specialize (Hg k). destruct (group_lookup k g) as [[s n] |].
    + destruct Hg as (L & P & S). rewrite length_app, sum_app. cbn [List.length].
      repeat split; [lia | lia |]. rewrite S. cbn [sum fold_right]. lra.
    + rewrite Hg. cbn [app List.length sum fold_right]. repeat split; [lia | lra].
  - rewrite (group_lookup_add_other k v g k' E).
    replace (k =? k')%Z with false by (symmetry; apply Z.eqb_neq; lia).
    rewrite app_nil_r. apply Hg.
Qed.

Lemma groupby_groups_of kv : groups_of kv (ETCell.groupby kv).
Proof.
  unfold ETCell.groupby.
  assert (G : forall kv p g,
             groups_of p g ->
             groups_of (p ++ kv)
               (fold_left (fun g p => ETCell.group_add (fst p) (snd p) g) kv g)).
  { clear kv. induction kv as [| [k v] kv IH]; intros p g H.
    - rewrite app_nil_r. exact H.
    - cbn [fold_left fst snd].
      replace (p ++ (k, v) :: kv) with ((p ++ [(k, v)]) ++ kv)
        by (rewrite <- app_assoc; reflexivity).
      apply IH. apply groups_of_snoc. exact H. }
  apply (G kv [] []). split; [exact I |]. intro k. reflexivity.
Qed.

Lemma group_values_nil k kv :
  group_values k kv = [] <-> ~ In k (map fst kv).
Proof.
  unfold group_values. induction kv as [| [k0 v] kv IH]; cbn [filter map fst In].
  - intuition.
  - destruct (k0 =? k)%Z eqn:E.
    + apply Z.eqb_eq in E. cbn [map]. split; [discriminate | intro H; exfalso; apply H; left; exact E].
    + apply Z.eqb_neq in E. rewrite IH. intuition.
Qed.

Lemma groupby_keys kv k :
  In k (map fst (ETCell.groupby kv)) <-> In k (map fst kv).
Proof.
  destruct (groupby_groups_of kv) as [_ H]. specialize (H k).
  destruct (group_lookup k (ETCell.groupby kv)) as [[s n] |] eqn:E.
  - destruct H as (L & P & _). split; intro K.
    + destruct (in_dec Z.eq_dec k (map fst kv)) as [I | I]; [exact I |].
      apply group_values_nil in I. rewrite I in L. cbn in L. lia.
    + destruct (in_dec Z.eq_dec k (map fst (ETCell.groupby kv))) as [I | I];
        [exact I |].
      apply group_lookup_none in I. congruence.
  - apply group_lookup_none in E. apply group_values_nil in H. intuition.
Qed.



Lemma nth_map_lt {A B : Type} (f : A -> B) l i d d' :
  (i < List.length l)%nat -> nth i (map f l) d' = f (nth i l d).
Proof.
  revert i; induction l as [| x l IH]; intros [| i] H; cbn in *; try lia; auto.
  apply IH. lia.
Qed.


(** ** The columns [t30] and [cgdd] *)

Lemma rolling_mean_length w x :
  List.length (ETCell.rolling_mean w x) = List.length x.
Proof. unfold ETCell.rolling_mean. rewrite length_map, length_seq. reflexivity. Qed.

Lemma rolling_mean_nth w x i :
  (i < List.length x)%nat ->
  nth i (ETCell.rolling_mean w x) 0 = mean (slice (S i - w) (S i) x).
Proof.
  intro H. unfold ETCell.rolling_mean.
  rewrite (nth_map_lt _ _ i 0%nat 0) by (rewrite length_seq; exact H).
  rewrite seq_nth by exact H. reflexivity.
Qed.

Lemma slice_window_length {A : Type} w (x : list A) i :
  (i < List.length x)%nat ->
  List.length (slice (S i - w) (S i) x) = Nat.min w (S i).
Proof.
  intro H. unfold slice. rewrite length_firstn, length_skipn. lia.
Qed.

Lemma cumsum_by_year_length rows :
  forall seen, List.length (ETCell.cumsum_by_year seen rows) = List.length rows.
Proof.
  induction rows as [| r rows IH]; intro seen; cbn; [reflexivity |].
  now rewrite IH.
Qed.

Lemma sum_same_year y rows :
  sum (map snd (filter (fun p => (fst p =? y)%Z)
                       (map (fun r => (ETCell.year r, ETCell.gdd0 r)) rows)))
  = sum (map ETCell.gdd0 (filter (fun r => (ETCell.year r =? y)%Z) rows)).
Proof.
  induction rows as [| r rows IH]; [reflexivity |].
  cbn [map filter fst]. destruct (ETCell.year r =? y)%Z; cbn [map snd sum fold_right].
  - unfold sum in IH. rewrite IH. reflexivity.
  - exact IH.
Qed.

Lemma cumsum_by_year_nth rows :
  forall seen i,
    (i < List.length rows)%nat ->
    nth i (ETCell.cumsum_by_year seen rows) 0
    = sum (map snd
             (filter (fun p => (fst p =? ETCell.year (nth i rows row0))%Z)
                (seen ++ map (fun r => (ETCell.year r, ETCell.gdd0 r))
                           (firstn i rows))))
      + ETCell.gdd0 (nth i rows row0).
Proof.
  induction rows as [| r rows IH]; intros seen i H; [cbn in H; lia |].
  destruct i as [| i]; cbn [ETCell.cumsum_by_year nth firstn map].
  - rewrite app_nil_r. reflexivity.
  - rewrite IH by (cbn in H; lia). rewrite <- app_assoc. reflexivity.
Qed.

Lemma firstn_S_nth {A : Type} (l : list A) i d :
  (i < List.length l)%nat -> firstn (S i) l = firstn i l ++ [nth i l d].
Proof.
  revert i; induction l as [| x l IH]; intros i H; [cbn in H; lia |].
  destruct i as [| i]; [reflexivity |]. cbn [firstn nth app].
  f_equal. apply IH. cbn in H. lia.
Qed.

Lemma cgdd_nth rows i :
  (i < List.length rows)%nat ->
  nth i (ETCell.cgdd rows) 0
  == sum (map ETCell.gdd0
            (filter (fun r => (ETCell.year r =? ETCell.year (nth i rows row0))%Z)
                    (firstn (S i) rows))).
Proof.
  intro H. unfold ETCell.cgdd. rewrite cumsum_by_year_nth by exact H.
  cbn [app]. rewrite sum_same_year.
  rewrite (firstn_S_nth rows i row0 H), filter_app, map_app, sum_app.
  cbn [filter]. rewrite Z.eqb_refl. cbn [map sum fold_right]. lra.
Qed.


(** ** The long term normals *)






(** * Further properties of the code *)

(** ** [compute_crop_gdd]: what it leaves alone *)

Lemma shift_etref_array_length a :
  List.length (shift_etref_array a) = List.length a.
Proof.
  unfold shift_etref_array. generalize (seq 0 29). intro l.
  revert a; induction l as [| idx l IH]; intro a; cbn [fold_left];
    [reflexivity |].
  rewrite IH. apply set_nth_length.
Qed.

Lemma cgdd_update_setup_flags crop foo foo_day :
  crop_setup_flag (cgdd_update crop foo foo_day) = crop_setup_flag foo
  /\ dormant_setup_flag (cgdd_update crop foo foo_day) = dormant_setup_flag foo.
Proof.
  unfold cgdd_update, cgdd_update_winter, cgdd_update_corn.
  split_ifs; split; reflexivity.
Qed.

Lemma cgdd_reset_setup_flags crop foo foo_day :
  crop_setup_flag (cgdd_reset crop foo foo_day) = crop_setup_flag foo
  /\ dormant_setup_flag (cgdd_reset crop foo foo_day) = dormant_setup_flag foo.
Proof.
  destruct (cgdd_reset_cases crop foo foo_day) as [E | E]; rewrite E;
    split; reflexivity.
Qed.

(** X1.  A call of [compute_crop_gdd] never touches the two setup flags of
    [foo]; of [foo_day] it changes the array of reference ET values and
    nothing else, and the array keeps its number of slots. *)
Theorem compute_crop_gdd_frame crop foo foo_day :
  let r := compute_crop_gdd crop foo foo_day in
  crop_setup_flag (fst r) = crop_setup_flag foo
  /\ dormant_setup_flag (fst r) = dormant_setup_flag foo
  /\ snd r = set_etref_array (etref_array (snd r)) foo_day
  /\ List.length (etref_array (snd r)) = List.length (etref_array foo_day).
Proof.
  cbv zeta. rewrite compute_crop_gdd_fields, compute_crop_gdd_stages.
  cbn [fst snd crop_setup_flag dormant_setup_flag set_etref_30].
  destruct (cgdd_update_setup_flags crop (cgdd_reset crop foo foo_day) foo_day)
    as [U1 U2].
  destruct (cgdd_reset_setup_flags crop foo foo_day) as [R1 R2].
  rewrite U1, U2, R1, R2.
  split; [reflexivity |]. split; [reflexivity |].
  unfold etref_30_update.
  destruct (30 <? Z.pos (sdays foo_day))%Z;
    cbn [snd etref_array set_etref_array]; (split; [reflexivity |]);
    rewrite set_nth_length; [apply shift_etref_array_length | reflexivity].
Qed.

(** ** The season reset of winter crops *)

(** X2.  A crop that is reset as a winter crop (class 13 or 14, or "WINTER"
    in its name) is reset exactly when [lDoy < trigger <= doy]: on the day
    that reaches the trigger day, and on no day after it. *)
Theorem winter_reset_on_trigger crop foo foo_day :
  winter_crop crop = true ->
  let T := crop_gdd_trigger_doy crop in
  let foo' := fst (compute_crop_gdd crop foo foo_day) in
  ((lDoy foo < T)%Z /\ (T <= doy foo_day)%Z ->
   cgdd (cgdd_reset crop foo foo_day) = 0
   /\ doy_start_cycle foo' = 0%Z
   /\ real_start foo' = false
   /\ in_season foo' = false)
  /\ (~ ((lDoy foo < T)%Z /\ (T <= doy foo_day)%Z) ->
      cgdd (cgdd_reset crop foo foo_day) = cgdd foo
      /\ doy_start_cycle foo' = doy_start_cycle foo
      /\ real_start foo' = real_start foo
      /\ in_season foo' = in_season foo).
Proof.
  intros W T foo'. subst foo'. rewrite compute_crop_gdd_fields.
  destruct (cgdd_update_flags crop (cgdd_reset crop foo foo_day) foo_day)
    as (F1 & F2 & F3).
  cbn [cgdd doy_start_cycle real_start in_season set_etref_30].
  rewrite F1, F2, F3. clear F1 F2 F3.
  unfold cgdd_reset. rewrite W. fold T. split.
  - intros [H1 H2].
    replace (lDoy foo <? T)%Z with true by (symmetry; apply Z.ltb_lt; lia).
    replace (doy foo_day >=? T)%Z with true by (symmetry; apply Z.geb_le; lia).
    cbn [andb]. repeat split.
  - intro H.
    assert (G : (lDoy foo <? T)%Z && (doy foo_day >=? T)%Z = false).
    { apply andb_false_iff.
      destruct (lDoy foo <? T)%Z eqn:E1; [| left; reflexivity].
      destruct (doy foo_day >=? T)%Z eqn:E2; [| right; reflexivity].
      exfalso. apply H. apply Z.ltb_lt in E1. apply Z.geb_le in E2. lia. }
    rewrite G. repeat split.
Qed.

Lemma winter_reset_on_trigger_witness :
  winter_crop winter_wheat = true
  /\ (lDoy foo_sep < 274)%Z /\ (274 <= doy (sample_day 2 274 20 4 0))%Z
  /\ in_season (fst (compute_crop_gdd winter_wheat foo_sep
                       (sample_day 2 274 20 4 0))) = false
  /\ ~ ((lDoy foo_sep < 274)%Z /\ (274 <= doy (sample_day 2 273 20 4 0))%Z)
  /\ in_season (fst (compute_crop_gdd winter_wheat foo_sep
                       (sample_day 2 273 20 4 0))) = in_season foo_sep.
Proof.
  assert (W : winter_crop winter_wheat = true) by reflexivity.
  assert (A : (lDoy foo_sep < 274)%Z /\ (274 <= doy (sample_day 2 274 20 4 0))%Z)
    by (cbn; lia).
  assert (B : ~ ((lDoy foo_sep < 274)%Z
                 /\ (274 <= doy (sample_day 2 273 20 4 0))%Z))
    by (cbn; lia).
  split; [exact W |]. split; [apply A |]. split; [apply A |].
  split; [| split; [exact B |]].
  - exact (proj2 (proj2 (proj2
             (proj1 (winter_reset_on_trigger winter_wheat foo_sep
                       (sample_day 2 274 20 4 0) W) A)))).
  - exact (proj2 (proj2 (proj2
             (proj2 (winter_reset_on_trigger winter_wheat foo_sep
                       (sample_day 2 273 20 4 0) W) B)))).
Defined.

(** X3.  Once a day has been processed, the reset cannot fire on a day with
    the same day of the year: however [foo] is changed in between, as long as
    [lDoy] stays, a further call for that day of the year leaves [cgdd] and
    the season markers to the update.  This holds for winter and standard
    crops alike. *)
Theorem reset_not_repeated crop foo foo_day foo1 foo_day' :
  lDoy foo1 = lDoy (fst (compute_crop_gdd crop foo foo_day)) ->
  doy foo_day' = doy foo_day ->
  cgdd_reset crop foo1 foo_day' = set_lDoy (doy foo_day') foo1.
Proof.
  intros El Ed. rewrite compute_crop_gdd_lDoy in El.
  unfold cgdd_reset. rewrite El, Ed.
  destruct (winter_crop crop).
  - destruct (doy foo_day <? crop_gdd_trigger_doy crop)%Z eqn:E1;
      [| reflexivity].
    destruct (doy foo_day >=? crop_gdd_trigger_doy crop)%Z eqn:E2;
      [| reflexivity].
    apply Z.ltb_lt in E1. apply Z.geb_le in E2. lia.
  - destruct (doy foo_day >? crop_gdd_trigger_doy crop + 199)%Z eqn:E1;
      [| reflexivity].
    destruct (doy foo_day <? crop_gdd_trigger_doy crop + 199)%Z eqn:E2;
      [| reflexivity].
    apply Z.gtb_lt in E1. apply Z.ltb_lt in E2. lia.
Qed.

Lemma reset_not_repeated_witness :
  cgdd_reset alfalfa
    (fst (compute_crop_gdd alfalfa foo_late (sample_day 366 1 20 4 0)))
    (sample_day 367 1 20 4 0)
  = set_lDoy 1 (fst (compute_crop_gdd alfalfa foo_late (sample_day 366 1 20 4 0))).
Proof.
  apply (reset_not_repeated alfalfa foo_late (sample_day 366 1 20 4 0)).
  - reflexivity.
  - reflexivity.
Defined.

(** ** The rolling mean before day 30, and the size of its array *)

Lemma compute_crop_gdd_array_length crop foo foo_day :
  List.length (etref_array (snd (compute_crop_gdd crop foo foo_day)))
  = List.length (etref_array foo_day).
Proof.
  rewrite compute_crop_gdd_stages. cbn [snd]. unfold etref_30_update.
  destruct (30 <? Z.pos (sdays foo_day))%Z;
    cbn [snd etref_array set_etref_array]; rewrite set_nth_length;
    [apply shift_etref_array_length | reflexivity].
Qed.

(** X4.  The array of reference ET values has 30 slots at the start of a run
    and keeps them through every day of it, whichever days are selected and
    whatever the season setup and the ET physics do. *)
Theorem etref_array_keeps_30_slots aFNEs setup_crop setup_dormant et_physics
  refet_type crop mask steps :
  forall i foo a,
    List.length a = 30%nat ->
    List.length
      (snd (day_loop aFNEs setup_crop setup_dormant et_physics refet_type crop
              mask i steps foo a)) = 30%nat.
Proof.
  induction steps as [| s steps IH]; intros i foo a H; [exact H |].
  cbn [day_loop]. destruct (negb (nth i mask false)); [apply IH; exact H |].
  destruct (crop_day aFNEs setup_crop setup_dormant et_physics refet_type crop
              i s foo a) as [foo' a'] eqn:E.
  apply IH.
  unfold crop_day, compute_crop_et in E.
  match type of E with
  | context [compute_crop_gdd crop ?f ?d] =>
      pose proof (compute_crop_gdd_array_length crop f d) as L;
      destruct (compute_crop_gdd crop f d) as [f2 d2]
  end.
  injection E as _ Ea. subst a'. cbn [snd] in L. rewrite L. exact H.
Qed.

Lemma etref_array_keeps_30_slots_witness :
  List.length (snd (sample_loop alfalfa steps_40 foo_start)) = 30%nat.
Proof.
  apply (etref_array_keeps_30_slots sample_aFNEs sample_setup_crop
           sample_setup_dormant sample_et_physics).
  reflexivity.
Defined.

(** X5.  Over the first 30 days of a run whose days are all selected,
    [etref_30] is the mean of all the reference ET values so far, whatever
    its value at the start of the run, and the array holds these values from
    slot 0 on, the other slots being 0. *)
Theorem etref_30_warm_up aFNEs setup_crop setup_dormant et_physics :
  (forall crop foo, same_gdd_state (setup_crop crop foo) foo) ->
  (forall crop foo, same_gdd_state (setup_dormant crop foo) foo) ->
  (forall crop foo foo_day, same_gdd_state (et_physics crop foo foo_day) foo) ->
  forall refet_type crop mask steps foo,
    (forall j, (j < List.length steps)%nat -> nth j mask false = true) ->
    (1 <= List.length steps <= 30)%nat ->
    let r := day_loop aFNEs setup_crop setup_dormant et_physics refet_type crop
                      mask 0 steps foo DayData_init in
    etref_30 (fst r) == mean (map (refet_array refet_type) steps)
    /\ snd r = map (refet_array refet_type) steps
               ++ repeat 0 (30 - List.length steps).
Proof.
  intros F1 F2 F3 refet_type crop mask steps foo Hm Hl r.
  pose proof (day_loop_rolling aFNEs setup_crop setup_dormant et_physics
                F1 F2 F3 refet_type crop mask steps [] foo DayData_init) as H.
  cbn [List.length app plus] in H.
  specialize (H (fun j Hj => Hm j (proj2 Hj))).
  assert (I : rolling_state [] foo DayData_init).
  { left. cbn [List.length]. repeat split; [lia |].
    unfold sum. cbn [fold_right Z.of_nat]. change (inject_Z 0) with 0. lra. }
  specialize (H I). fold r in H.
  set (hist := map (refet_array refet_type) steps) in *.
  assert (Lh : List.length hist = List.length steps)
    by (unfold hist; apply length_map).
  assert (P : 0 < inject_Z (Z.of_nat (List.length hist))).
  { change 0 with (inject_Z 0). rewrite <- Zlt_Qlt. lia. }
  rewrite <- Lh.
  destruct H as [(L & Ha & Hs) | (L & Ha & Hs)].
  - split; [| exact Ha]. unfold mean. rewrite <- Hs. field. lra.
  - assert (K : List.length hist = 30%nat) by lia.
    assert (El : lastn 30 hist = hist) by (rewrite <- K; apply lastn_all).
    rewrite El in Ha. split.
    + unfold mean. rewrite K. rewrite Ha in Hs.
      change (inject_Z (Z.of_nat 30)) with 30. rewrite <- Hs. field.
    + rewrite Ha, K. cbn [Nat.sub repeat]. symmetry. apply app_nil_r.
Qed.

Lemma etref_30_warm_up_witness :
  (1 <= List.length steps_3 <= 30)%nat
  /\ etref_30 (fst (sample_loop alfalfa steps_3 foo_late)) == 5.
Proof.
  assert (L : (1 <= List.length steps_3 <= 30)%nat) by (cbn; lia).
  split; [exact L |].
  destruct (etref_30_warm_up sample_aFNEs sample_setup_crop
              sample_setup_dormant sample_et_physics sample_setup_crop_frame
              sample_setup_dormant_frame sample_et_physics_frame
              1%Z alfalfa (repeat true (List.length steps_3)) steps_3 foo_late
              (fun j Hj => nth_repeat_true _ j Hj) L) as [E _].
  unfold sample_loop. rewrite E. vm_compute. reflexivity.
Defined.

(** ** Growth under the three methods *)

(** X6.  For a crop under the generic method (a curve, no winter grain, a
    base temperature that is not negative) [cgdd] grows by the excess of
    [tmean] over [tbase], if any: by [max (tmean - tbase) 0].  On a day with
    [tmean > tbase], [gdd] is that excess; on any other day [gdd] is not set
    and keeps the value of the last day with growth. *)
Theorem generic_growth crop foo foo_day :
  (curve_number crop > 0)%Z ->
  winter_grain crop = false ->
  0 <= tbase crop ->
  let foo' := cgdd_update crop foo foo_day in
  cgdd foo' == cgdd foo + Qmax (tmean foo_day - tbase crop) 0
  /\ (tbase crop < tmean foo_day -> gdd foo' = tmean foo_day - tbase crop)
  /\ (tmean foo_day <= tbase crop -> gdd foo' = gdd foo)
  /\ penalty foo' = penalty foo
  /\ cgdd_penalty foo' = cgdd_penalty foo.
Proof.
  intros Hc Hw Hb. cbv zeta. unfold cgdd_update.
  replace (curve_number crop >? 0)%Z with true by (symmetry; apply Z.gtb_lt; lia).
  rewrite Hw.
  replace (Qltb (tbase crop) 0) with false by (symmetry; apply Qltb_false; exact Hb).
  destruct (Qltb (tbase crop) (tmean foo_day)) eqn:E;
    [apply Qltb_true in E | apply Qltb_false in E]; foo_simpl.
  - repeat split; try reflexivity.
    + rewrite Q.max_l by lra. reflexivity.
    + intro H. lra.
  - repeat split; try reflexivity.
    + rewrite Q.max_r by lra. lra.
    + intro H. lra.
Qed.

Lemma generic_growth_witness :
  cgdd (cgdd_update alfalfa foo_mid (sample_day 100 100 4 0 0)) == cgdd foo_mid
  /\ gdd (cgdd_update alfalfa foo_mid (sample_day 100 100 4 0 0)) = gdd foo_mid.
Proof.
  assert (Hc : (curve_number alfalfa > 0)%Z) by reflexivity.
  assert (Hw : winter_grain alfalfa = false) by reflexivity.
  assert (Hb : 0 <= tbase alfalfa) by (cbn; lra).
  destruct (generic_growth alfalfa foo_mid (sample_day 100 100 4 0 0) Hc Hw Hb)
    as (E & _ & G & _).
  split.
  - rewrite E. vm_compute. reflexivity.
  - apply G. vm_compute. discriminate.
Defined.

(** X7.  Under the corn method with a base temperature [- tbase] of at most
    30, a day adds to [cgdd] between 0 and [30 + tbase]; when [tmax] and
    [tmin] both lie between the base and 30 it adds their mean less the
    base.  The corn method does not touch [gdd]. *)
Theorem corn_growth crop foo foo_day :
  corn_policy crop = true ->
  - tbase crop <= 30 ->
  let foo' := cgdd_update crop foo foo_day in
  cgdd foo <= cgdd foo'
  /\ cgdd foo' <= cgdd foo + (30 + tbase crop)
  /\ (- tbase crop <= tmin foo_day -> tmin foo_day <= 30 ->
      - tbase crop <= tmax foo_day -> tmax foo_day <= 30 ->
      cgdd foo' == cgdd foo + ((tmax foo_day + tmin foo_day) / 2 + tbase crop))
  /\ gdd foo' = gdd foo.
Proof.
  unfold corn_policy. intros Hp Hb. cbv zeta. unfold cgdd_update.
  destruct (curve_number crop >? 0)%Z; [| discriminate Hp].
  destruct (winter_grain crop); [discriminate Hp |].
  destruct (Qltb (tbase crop) 0); [| discriminate Hp].
  unfold cgdd_update_corn, tmeanl, tmaxl, tminl. foo_simpl.
  repeat split.
  - qcases; lra.
  - qcases; lra.
  - intros H1 H2 H3 H4.
    assert (D : (tmax foo_day + tmin foo_day) / 2
                == (1 # 2) * (tmax foo_day + tmin foo_day)) by field.
    rewrite D. qcases; lra.
Qed.

Lemma corn_growth_witness :
  cgdd foo_mid <= cgdd (cgdd_update field_corn foo_mid (sample_day 100 100 35 (-5) 0))
  /\ cgdd (cgdd_update field_corn foo_mid (sample_day 100 100 35 (-5) 0))
     <= cgdd foo_mid + 22.
Proof.
  assert (Hp : corn_policy field_corn = true) by reflexivity.
  assert (Hb : - tbase field_corn <= 30) by (cbn; lra).
  destruct (corn_growth field_corn foo_mid (sample_day 100 100 35 (-5) 0) Hp Hb)
    as (L & U & _).
  split; [exact L | exact U].
Defined.

(** X8.  After the update of a winter grain, [gdd] and [cgdd] are not
    negative, the pending [penalty] is 0 or 5, and the pending [cgdd_penalty]
    lies between 0 and a tenth of [cgdd]; [cgdd] has fallen by no more than
    the [cgdd_penalty] that was pending; and a day with [tmin < -4] has a
    [gdd] of 0 whenever the pending [penalty] was not negative. *)
Theorem winter_grain_bounds crop foo foo_day :
  (curve_number crop > 0)%Z ->
  winter_grain crop = true ->
  let foo' := cgdd_update crop foo foo_day in
  0 <= gdd foo' /\ 0 <= cgdd foo'
  /\ (penalty foo' = 0 \/ penalty foo' = 5)
  /\ 0 <= cgdd_penalty foo' /\ cgdd_penalty foo' <= (1 # 10) * cgdd foo'
  /\ cgdd foo - cgdd_penalty foo <= cgdd foo'
  /\ (tmin foo_day < -4 -> 0 <= penalty foo -> gdd foo' == 0).
Proof.
  intros Hc Hw. cbv zeta. unfold cgdd_update.
  replace (curve_number crop >? 0)%Z with true by (symmetry; apply Z.gtb_lt; lia).
  rewrite Hw.
  destruct (cgdd_update_winter_fields crop foo foo_day) as (G & C & P & CP).
  set (foo' := cgdd_update_winter crop foo foo_day) in *.
  assert (G0 : 0 <= gdd foo') by (rewrite G; apply Q.le_max_r).
  assert (C0 : 0 <= cgdd foo') by (rewrite C; apply Q.le_max_l).
  split; [exact G0 |]. split; [exact C0 |]. split; [| split; [| split; [| split]]].
  - rewrite P. destruct (Qltb (tmin foo_day) (-10)); auto.
  - rewrite CP.
    destruct (Qltb (tmin foo_day) (-25) && Qleb (snow_depth foo_day) 0); lra.
  - rewrite CP.
    destruct (Qltb (tmin foo_day) (-25) && Qleb (snow_depth foo_day) 0); lra.
  - rewrite C.
    apply Qle_trans with (cgdd foo + gdd foo' - cgdd_penalty foo);
      [lra | apply Q.le_max_r].
  - intros Ht Hp. rewrite G. unfold winter_gdd.
    replace (Qltb (tmin foo_day) (-4)) with true by (symmetry; apply Qltb_true; exact Ht).
    apply Q.max_r. lra.
Qed.

Lemma winter_grain_bounds_witness :
  gdd (cgdd_update winter_wheat foo_frost (sample_day 20 20 (-2) (-8) 0)) == 0
  /\ cgdd foo_frost - cgdd_penalty foo_frost
     <= cgdd (cgdd_update winter_wheat foo_frost (sample_day 20 20 (-2) (-8) 0)).
Proof.
  assert (Hc : (curve_number winter_wheat > 0)%Z) by reflexivity.
  assert (Hw : winter_grain winter_wheat = true) by reflexivity.
  destruct (winter_grain_bounds winter_wheat foo_frost
              (sample_day 20 20 (-2) (-8) 0) Hc Hw)
    as (_ & _ & _ & _ & _ & L & F).
  split; [| exact L].
  apply F; [reflexivity | cbn; lra].
Defined.

(** X9.  The two tests for winter crops differ.  Every crop under the winter
    grain method is reset as a winter crop; but a crop that is reset as a
    winter crop for the "WINTER" in its name alone (not of class 13 or 14,
    not named "WINTER WHEAT") grows by the other methods: with a curve and a
    base temperature that is not negative it is reset on its trigger day and
    grows by [max (tmean - tbase) 0] on every day, frost or not, with no
    penalty set. *)
Theorem winter_name_without_winter_method :
  (forall crop, winter_grain crop = true -> winter_crop crop = true)
  /\ (forall crop foo foo_day,
      winter_crop crop = true ->
      winter_grain crop = false ->
      (curve_number crop > 0)%Z ->
      0 <= tbase crop ->
      cgdd_reset crop foo foo_day
      = set_lDoy (doy foo_day)
          (if (lDoy foo <? crop_gdd_trigger_doy crop)%Z
              && (doy foo_day >=? crop_gdd_trigger_doy crop)%Z
           then reset_season foo else foo)
      /\ cgdd (cgdd_update crop foo foo_day)
         == cgdd foo + Qmax (tmean foo_day - tbase crop) 0
      /\ penalty (cgdd_update crop foo foo_day) = penalty foo
      /\ cgdd_penalty (cgdd_update crop foo foo_day) = cgdd_penalty foo).
Proof.
  split; [exact winter_grain_winter_crop |].
  intros crop foo foo_day Wc Wg Hc Hb. split.
  - unfold cgdd_reset. rewrite Wc.
    destruct ((lDoy foo <? crop_gdd_trigger_doy crop)%Z
              && (doy foo_day >=? crop_gdd_trigger_doy crop)%Z); reflexivity.
  - unfold cgdd_update.
    replace (curve_number crop >? 0)%Z with true by (symmetry; apply Z.gtb_lt; lia).
    rewrite Wg.
    replace (Qltb (tbase crop) 0) with false by (symmetry; apply Qltb_false; exact Hb).
    destruct (Qltb (tbase crop) (tmean foo_day)) eqn:E;
      [apply Qltb_true in E | apply Qltb_false in E]; foo_simpl;
      repeat split; try reflexivity.
    + rewrite Q.max_l by lra. reflexivity.
    + rewrite Q.max_r by lra. lra.
Qed.

(** A winter canola in a night of -26 degrees after a warm day: it grows by
    the generic method, and no burn back is set. *)
Lemma winter_name_without_winter_method_witness :
  winter_crop winter_canola = true /\ winter_grain winter_canola = false
  /\ cgdd (cgdd_update winter_canola foo_winter (sample_day 20 20 40 (-26) 0))
     == cgdd foo_winter + 2
  /\ cgdd_penalty (cgdd_update winter_canola foo_winter
                     (sample_day 20 20 40 (-26) 0)) = 0.
Proof.
  assert (Wc : winter_crop winter_canola = true) by reflexivity.
  assert (Wg : winter_grain winter_canola = false) by reflexivity.
  assert (Hc : (curve_number winter_canola > 0)%Z) by reflexivity.
  assert (Hb : 0 <= tbase winter_canola) by (cbn; lra).
  destruct (proj2 winter_name_without_winter_method winter_canola foo_winter
              (sample_day 20 20 40 (-26) 0) Wc Wg Hc Hb) as (_ & E & _ & P).
  split; [exact Wc |]. split; [exact Wg |]. split.
  - rewrite E. vm_compute. reflexivity.
  - exact P.
Defined.

(** ** Days outside the window *)

Lemma day_loop_unselected aFNEs setup_crop setup_dormant et_physics
  refet_type crop mask steps :
  forall i foo a,
    (forall j, (i <= j < i + List.length steps)%nat -> nth j mask false = false) ->
    day_loop aFNEs setup_crop setup_dormant et_physics refet_type crop mask i
             steps foo a = (foo, a).
Proof.
  induction steps as [| s steps IH]; intros i foo a H; [reflexivity |].
  cbn [day_loop]. rewrite H by (cbn [List.length]; lia). cbn [negb].
  apply IH. intros j Hj. apply H. cbn [List.length]. lia.
Qed.

(** X10.  Days that the mask leaves out change nothing: over a stretch of
    unselected days the state [foo], with its [lDoy], and the array of
    reference ET values stay as they were, and the run goes on from the
    first day after the stretch as if it had started there, but for the
    index of that day. *)
Theorem unselected_days_change_nothing aFNEs setup_crop setup_dormant
  et_physics refet_type crop mask skipped steps foo a :
  (forall j, (j < List.length skipped)%nat -> nth j mask false = false) ->
  day_loop aFNEs setup_crop setup_dormant et_physics refet_type crop mask 0
           skipped foo a = (foo, a)
  /\ day_loop aFNEs setup_crop setup_dormant et_physics refet_type crop mask 0
              (skipped ++ steps) foo a
     = day_loop aFNEs setup_crop setup_dormant et_physics refet_type crop mask
                (List.length skipped) steps foo a.
Proof.
  intro H.
  assert (E : day_loop aFNEs setup_crop setup_dormant et_physics refet_type
                crop mask 0 skipped foo a = (foo, a)).
  { apply day_loop_unselected. intros j Hj. apply H. lia. }
  split; [exact E |].
  rewrite (day_loop_app aFNEs setup_crop setup_dormant et_physics), E.
  reflexivity.
Qed.

Lemma unselected_days_change_nothing_witness :
  day_loop sample_aFNEs sample_setup_crop sample_setup_dormant sample_et_physics
           1 alfalfa mask_from_10 0 (firstn 9 steps_40) foo_mid DayData_init
  = (foo_mid, DayData_init).
Proof.
  apply (unselected_days_change_nothing sample_aFNEs sample_setup_crop
           sample_setup_dormant sample_et_physics 1%Z alfalfa mask_from_10
           (firstn 9 steps_40) [] foo_mid DayData_init).
  intros j Hj. cbn [List.length firstn steps_40 map seq] in Hj.
  do 9 (destruct j as [| j]; [reflexivity |]).
  cbn in Hj. lia.
Defined.

(** X11.  The day count of the rolling mean is the position in the whole
    series, not in the window.  When the first [k] days of a series are left
    out and day [k + 1] is the first one selected, with [k < 30], that day
    sets [etref_30] to [(etref_30 * k + etref) / (k + 1)], for the [etref_30]
    of the start of the run, and puts [etref] into slot [k] of the array,
    the slots before it staying 0: the days left out count as days. *)
Theorem late_window_counts_skipped_days aFNEs setup_crop setup_dormant
  et_physics :
  (forall crop foo, same_gdd_state (setup_crop crop foo) foo) ->
  (forall crop foo, same_gdd_state (setup_dormant crop foo) foo) ->
  (forall crop foo foo_day, same_gdd_state (et_physics crop foo foo_day) foo) ->
  forall refet_type crop mask skipped s foo,
    let k := List.length skipped in
    (k < 30)%nat ->
    (forall j, (j < k)%nat -> nth j mask false = false) ->
    nth k mask false = true ->
    let r := day_loop aFNEs setup_crop setup_dormant et_physics refet_type crop
                      mask 0 (skipped ++ [s]) foo DayData_init in
    etref_30 (fst r)
    == (etref_30 foo * inject_Z (Z.of_nat k) + refet_array refet_type s)
       / inject_Z (Z.of_nat k + 1)
    /\ snd r = repeat 0 k ++ refet_array refet_type s :: repeat 0 (29 - k).
Proof.
  intros F1 F2 F3 refet_type crop mask skipped s foo k Hk Hf Ht r.
  subst r.
  rewrite (day_loop_app aFNEs setup_crop setup_dormant et_physics).
  rewrite (day_loop_unselected aFNEs setup_crop setup_dormant
             et_physics refet_type crop mask skipped 0 foo DayData_init)
    by (intros j Hj; apply Hf; fold k; lia).
  cbn [fst snd plus]. fold k. cbn [day_loop]. rewrite Ht. cbn [negb].
  destruct (crop_day_gdd aFNEs setup_crop setup_dormant et_physics F1 F2 F3
              refet_type crop k s foo DayData_init)
    as (foo1 & (E1 & _) & (E2 & _) & Ea).
  destruct (crop_day aFNEs setup_crop setup_dormant et_physics refet_type crop
              k s foo DayData_init) as [foo' a'].
  cbn [fst snd] in *. rewrite E2, Ea. clear E2 Ea.
  rewrite compute_crop_gdd_stages. cbn [fst snd].
  rewrite cgdd_update_etref_30, cgdd_reset_etref_30.
  unfold etref_30_update. cbn [fill_foo_day sdays etref etref_array].
  replace (30 <? Z.pos (Pos.of_succ_nat k))%Z with false
    by (symmetry; apply Z.ltb_ge; lia).
  cbn [fst snd etref_30 set_etref_30 etref_array set_etref_array]. split.
  - rewrite E1. rewrite Zpos_P_of_succ_nat.
    replace (Z.succ (Z.of_nat k) - 1)%Z with (Z.of_nat k) by lia.
    replace (Z.succ (Z.of_nat k)) with (Z.of_nat k + 1)%Z by lia.
    reflexivity.
  - rewrite SuccNat2Pos.id_succ. replace (S k - 1)%nat with k by lia.
    unfold DayData_init.
    replace 30%nat with (k + S (29 - k))%nat by lia.
    rewrite repeat_app. cbn [repeat].
    rewrite <- (repeat_length 0 k) at 1. rewrite set_nth_app.
    replace (k + S (29 - k) - k)%nat with (S (29 - k)) by lia. reflexivity.
Qed.

(** A window that starts on day 10: a reference ET of 5 on its first day
    gives an [etref_30] of a tenth of it. *)
Lemma late_window_counts_skipped_days_witness :
  etref_30 (fst (day_loop sample_aFNEs sample_setup_crop sample_setup_dormant
                   sample_et_physics 1 alfalfa mask_from_10 0
                   (firstn 9 steps_40 ++ [sample_step 1 5 9]) foo_start
                   DayData_init))
  == 1 # 2.
Proof.
  destruct (late_window_counts_skipped_days sample_aFNEs sample_setup_crop
              sample_setup_dormant sample_et_physics sample_setup_crop_frame
              sample_setup_dormant_frame sample_et_physics_frame
              1%Z alfalfa mask_from_10 (firstn 9 steps_40) (sample_step 1 5 9)
              foo_start) as [E _].
  - cbn. lia.
  - intros j Hj. cbn [List.length firstn steps_40 map seq] in Hj.
    do 9 (destruct j as [| j]; [reflexivity |]). cbn in Hj. lia.
  - reflexivity.
  - rewrite E. vm_compute. reflexivity.
Defined.

(** ** The window of a single date *)

(** X12.  For a series of at most one date the mask of valid dates is the
    conjunction of the two comparisons, and [crop_day_loop] runs its loop
    with it: the filter works on such a series, and on no longer one. *)
Theorem date_mask_single_entry aFNEs setup_crop setup_dormant et_physics
  refet_type crop foo start_dt end_dt steps :
  (List.length steps <= 1)%nat ->
  date_mask (map Dates steps) start_dt end_dt
  = Some (elementwise_mask (map Dates steps) start_dt end_dt)
  /\ crop_day_loop aFNEs setup_crop setup_dormant et_physics refet_type crop
                   foo start_dt end_dt steps
     = Some (day_loop aFNEs setup_crop setup_dormant et_physics refet_type crop
               (elementwise_mask (map Dates steps) start_dt end_dt) 0 steps
               foo DayData_init).
Proof.
  intro H.
  assert (E : date_mask (map Dates steps) start_dt end_dt
              = Some (elementwise_mask (map Dates steps) start_dt end_dt)).
  { apply date_mask_short. rewrite length_map. exact H. }
  split; [exact E |]. unfold crop_day_loop. rewrite E. reflexivity.
Qed.

Lemma date_mask_single_entry_witness :
  date_mask (map Dates [sample_step 1 5 0]) window_start window_end
  = Some [true].
Proof.
  refine (proj1 (date_mask_single_entry sample_aFNEs sample_setup_crop
                   sample_setup_dormant sample_et_physics 1%Z alfalfa foo_start
                   window_start window_end [sample_step 1 5 0] _)).
  cbn. lia.
Defined.

(** ** The aridity adjustment *)

Lemma moa_frac_range month day :
  1 <= moa_frac month day /\ moa_frac month day <= 11.
Proof.
  unfold moa_frac, clip. split.
  - apply Q.min_glb; [apply Q.le_max_r | lra].
  - apply Q.le_min_r.
Qed.

(** Reads the entries of the table at a given index and leaves the bounds
    to [lra]. *)
Ltac table_case :=
  repeat match goal with
    | |- context [Z.to_nat ?z] =>
        let n := eval compute in (Z.to_nat z) in
        change (Z.to_nat z) with n
    end;
  unfold aridity_adj; cbn [nth]; unfold inject_Z in *; split; lra.

(** Between the months 1 and 11 the interpolated adjustment lies between 0
    and 4.5, the least and the greatest entry of the table. *)
Lemma interp_aridity_range x :
  1 <= x -> x <= 11 ->
  0 <= interp x aridity_adj /\ interp x aridity_adj <= 9 # 2.
Proof.
  intros H1 H2. unfold interp.
  replace (Qltb x 0) with false by (symmetry; apply Qltb_false; lra).
  replace (Qleb (inject_Z (Z.of_nat (List.length aridity_adj)) - 1) x)
    with false
    by (symmetry; apply Qleb_false;
        change (inject_Z (Z.of_nat (List.length aridity_adj))) with 13; lra).
  pose proof (Qfloor_le x) as F1. pose proof (Qlt_floor x) as F2.
  set (j := Qfloor x) in *.
  assert (J : (1 <= j <= 11)%Z).
  { split.
    - apply Z.lt_succ_r. rewrite Zlt_Qlt. unfold Z.succ.
      apply Qle_lt_trans with x; [exact H1 |]. exact F2.
    - rewrite Zle_Qle. apply Qle_trans with x; assumption. }
  rewrite inject_Z_plus in F2. change (inject_Z 1) with 1 in F2.
  assert (C : (j = 1 \/ j = 2 \/ j = 3 \/ j = 4 \/ j = 5 \/ j = 6 \/ j = 7
               \/ j = 8 \/ j = 9 \/ j = 10 \/ j = 11)%Z) by lia.
  clearbody j.
  repeat (destruct C as [C | C]; [subst j; table_case |]).
  subst j; table_case.
Qed.

Lemma interp_aridity_zero x :
  (1 <= x /\ x <= 3) \/ (10 <= x /\ x <= 11) -> interp x aridity_adj == 0.
Proof.
  intro H. unfold interp.
  replace (Qltb x 0) with false by (symmetry; apply Qltb_false; lra).
  replace (Qleb (inject_Z (Z.of_nat (List.length aridity_adj)) - 1) x)
    with false
    by (symmetry; apply Qleb_false;
        change (inject_Z (Z.of_nat (List.length aridity_adj))) with 13; lra).
  pose proof (Qfloor_le x) as F1. pose proof (Qlt_floor x) as F2.
  set (j := Qfloor x) in *.
  rewrite inject_Z_plus in F2. change (inject_Z 1) with 1 in F2.
  assert (C : (j = 1 \/ j = 2 \/ j = 3 \/ j = 10 \/ j = 11)%Z).
  { destruct H as [[H1 H2] | [H1 H2]].
    - assert (1 <= j <= 3)%Z; [| lia]. split.
      + apply Z.lt_succ_r. rewrite Zlt_Qlt. unfold Z.succ.
        rewrite inject_Z_plus. change (inject_Z 1) with 1. lra.
      + rewrite Zle_Qle. change (inject_Z 3) with 3. lra.
    - assert (10 <= j <= 11)%Z; [| lia]. split.
      + apply Z.lt_succ_r. rewrite Zlt_Qlt. unfold Z.succ.
        rewrite inject_Z_plus. change (inject_Z 1) with 1.
        change (inject_Z 10) with 10. lra.
      + rewrite Zle_Qle. change (inject_Z 11) with 11. lra. }
  clearbody j.
  assert (T : forall k : Z,
             (k = 1 \/ k = 2 \/ k = 10 \/ k = 11)%Z ->
             nth (S (Z.to_nat k)) aridity_adj 0 - nth (Z.to_nat k) aridity_adj 0 == 0
             /\ nth (Z.to_nat k) aridity_adj 0 == 0).
  { intros k [K | [K | [K | K]]]; subst k; split; reflexivity. }
  destruct (Z.eq_dec j 3) as [E | E].
  - subst j. change (Z.to_nat 3) with 3%nat. unfold aridity_adj. cbn [nth].
    unfold inject_Z in *. destruct H as [[H1 H2] | [H1 H2]]; lra.
  - destruct (T j ltac:(lia)) as [T1 T2]. rewrite T1, T2. lra.
Qed.

(** X13.  The aridity adjustment lowers [tmax] and [tmin] of a day by one
    and the same amount.  At a station with an aridity rating above 0 the
    amount lies between 0 and 4.5 hundredths of the rating, so that no
    temperature is raised, and the spread between [tmax] and [tmin] stays;
    it is 0 on the days whose month, [month + (day - 15) / 30.4], is at most
    3 or at least 10.  At a station with a rating of 0 or less nothing is
    adjusted. *)
Theorem aridity_adjustment aridity_rating month day tmax tmin :
  let r := adjust_temperatures aridity_rating month day tmax tmin in
  let m := inject_Z month + (inject_Z day - 15) / (152 # 5) in
  (aridity_rating <= 0 -> r = (tmax, tmin))
  /\ (0 < aridity_rating ->
      fst r <= tmax
      /\ tmax - (9 # 2) * (aridity_rating / 100) <= fst r
      /\ tmax - fst r == tmin - snd r
      /\ (m <= 3 \/ 10 <= m -> fst r == tmax /\ snd r == tmin)).
Proof.
  cbv zeta. unfold adjust_temperatures. split.
  - intro H.
    replace (Qltb 0 aridity_rating) with false
      by (symmetry; apply Qltb_false; exact H).
    reflexivity.
  - intro H.
    replace (Qltb 0 aridity_rating) with true
      by (symmetry; apply Qltb_true; exact H).
    cbn [fst snd]. unfold arid_adj.
    destruct (moa_frac_range month day) as [M1 M2].
    destruct (interp_aridity_range (moa_frac month day) M1 M2) as [I1 I2].
    set (v := interp (moa_frac month day) aridity_adj) in *.
    assert (R : 0 < aridity_rating / 100).
    { apply Qlt_shift_div_l; lra. }
    set (q := aridity_rating / 100) in *.
    assert (P1 : 0 <= v * q) by (apply Qmult_le_0_compat; lra).
    assert (P2 : v * q <= (9 # 2) * q).
    { apply Qmult_le_compat_r; lra. }
    repeat split; try lra.
    + assert (Z0 : v == 0).
      { unfold v. apply interp_aridity_zero.
        unfold moa_frac, clip in *.
        destruct H0 as [H0 | H0].
        - left. split; [exact M1 |].
          apply Qle_trans with (Qmax (inject_Z month + (inject_Z day - 15) / (152 # 5)) 1);
            [apply Q.le_min_l | apply Q.max_lub; lra].
        - right. split; [| exact M2].
          apply Q.min_glb; [| lra].
          apply Qle_trans with (inject_Z month + (inject_Z day - 15) / (152 # 5));
            [exact H0 | apply Q.le_max_l]. }
      rewrite Z0. lra.
    + assert (Z0 : v == 0).
      { unfold v. apply interp_aridity_zero.
        unfold moa_frac, clip in *.
        destruct H0 as [H0 | H0].
        - left. split; [exact M1 |].
          apply Qle_trans with (Qmax (inject_Z month + (inject_Z day - 15) / (152 # 5)) 1);
            [apply Q.le_min_l | apply Q.max_lub; lra].
        - right. split; [| exact M2].
          apply Q.min_glb; [| lra].
          apply Qle_trans with (inject_Z month + (inject_Z day - 15) / (152 # 5));
            [exact H0 | apply Q.le_max_l]. }
      rewrite Z0. lra.
Qed.

(** The 15th of August at a station of rating 50: 2.25 degrees less, the
    most there is. *)
Lemma aridity_adjustment_witness :
  0 < 50
  /\ fst (adjust_temperatures 50 8 15 30 12) == 111 # 4
  /\ fst (adjust_temperatures 50 8 15 30 12) <= 30
  /\ 30 - (9 # 2) * (50 / 100) <= fst (adjust_temperatures 50 8 15 30 12).
Proof.
  assert (H : 0 < 50) by reflexivity.
  destruct (proj2 (aridity_adjustment 50 8 15 30 12) H) as (A & B & _).
  split; [exact H |]. split; [vm_compute; reflexivity |].
  split; [exact A | exact B].
Defined.

(** ** The columns of the climate record *)

Lemma gdd0_nonneg r : 0 <= ETCell.gdd0 r.
Proof. unfold ETCell.gdd0. qcases; lra. Qed.

Lemma sum_gdd0_nonneg l : 0 <= sum (map ETCell.gdd0 l).
Proof.
  induction l as [| r l IH]; cbn [map sum fold_right]; [lra |].
  fold (sum (map ETCell.gdd0 l)). pose proof (gdd0_nonneg r). lra.
Qed.

(** X14.  The column [cgdd] of the climate record is a running total within
    each calendar year: it is never negative, it does not fall from a row to
    a later row of the same year, and on a row that no row of the same year
    precedes it is the growing degree days above 0 of that row alone. *)
Theorem cgdd_column_grows rows i j :
  (i <= j)%nat -> (j < List.length rows)%nat ->
  ETCell.year (nth i rows row0) = ETCell.year (nth j rows row0) ->
  0 <= nth i (ETCell.cgdd rows) 0
  /\ nth i (ETCell.cgdd rows) 0 <= nth j (ETCell.cgdd rows) 0
  /\ ((forall r, In r (firstn i rows) ->
                 ETCell.year r <> ETCell.year (nth i rows row0)) ->
      nth i (ETCell.cgdd rows) 0 == ETCell.gdd0 (nth i rows row0)).
Proof.
  intros Hij Hj Hy.
  rewrite (cgdd_nth rows i) by lia. rewrite (cgdd_nth rows j) by exact Hj.
  rewrite <- Hy.
  set (same := fun r => (ETCell.year r =? ETCell.year (nth i rows row0))%Z).
  split; [apply sum_gdd0_nonneg |]. split.
  - rewrite <- (firstn_skipn (S i) (firstn (S j) rows)).
    rewrite firstn_firstn. replace (Nat.min (S i) (S j)) with (S i) by lia.
    rewrite filter_app, map_app, sum_app.
    pose proof (sum_gdd0_nonneg
                  (filter same (skipn (S i) (firstn (S j) rows)))). lra.
  - intro Hn. rewrite (firstn_S_nth rows i row0) by lia.
    rewrite filter_app, map_app, sum_app.
    assert (E : filter same (firstn i rows) = []).
    { clear - Hn. induction (firstn i rows) as [| r l IH]; [reflexivity |].
      cbn [filter]. unfold same at 1.
      replace (ETCell.year r =? ETCell.year (nth i rows row0))%Z with false
        by (symmetry; apply Z.eqb_neq; apply Hn; left; reflexivity).
      apply IH. intros r' Hr. apply Hn. right. exact Hr. }
    rewrite E. cbn [filter]. unfold same. rewrite Z.eqb_refl.
    cbn [map sum fold_right]. lra.
Qed.

Lemma cgdd_column_grows_witness :
  nth 3 (ETCell.cgdd rows_2x3) 0 <= nth 4 (ETCell.cgdd rows_2x3) 0
  /\ nth 3 (ETCell.cgdd rows_2x3) 0 == 3.
Proof.
  assert (A : (3 <= 4)%nat) by lia.
  assert (B : (4 < List.length rows_2x3)%nat) by (cbn; lia).
  assert (Y : ETCell.year (nth 3 rows_2x3 row0) = ETCell.year (nth 4 rows_2x3 row0))
    by reflexivity.
  destruct (cgdd_column_grows rows_2x3 3 4 A B Y) as (_ & L & F).
  split; [exact L |].
  rewrite F; [reflexivity |].
  intros r Hr. cbn in Hr.
  destruct Hr as [Hr | [Hr | [Hr | []]]]; subst r; cbn; lia.
Defined.

Lemma mean_between lo hi l :
  l <> [] -> (forall x, In x l -> lo <= x /\ x <= hi) ->
  lo <= mean l /\ mean l <= hi.
Proof.
  intros Hne H.
  assert (S : inject_Z (Z.of_nat (List.length l)) * lo <= sum l
              /\ sum l <= inject_Z (Z.of_nat (List.length l)) * hi).
  { clear Hne. induction l as [| x l IH].
    - cbn [List.length sum fold_right Z.of_nat]. change (inject_Z 0) with 0.
      split; lra.
    - destruct IH as [I1 I2]; [intros y Hy; apply H; right; exact Hy |].
      destruct (H x (or_introl eq_refl)) as [X1 X2].
      cbn [List.length sum fold_right]. fold (sum l).
      rewrite Nat2Z.inj_succ. unfold Z.succ. rewrite inject_Z_plus.
      change (inject_Z 1) with 1. split; lra. }
  assert (P : 0 < inject_Z (Z.of_nat (List.length l))).
  { change 0 with (inject_Z 0). rewrite <- Zlt_Qlt.
    destruct l; [congruence | cbn [List.length]; lia]. }
  unfold mean. destruct S as [S1 S2]. split.
  - apply Qle_shift_div_l; [exact P | lra].
  - apply Qle_shift_div_r; [exact P | lra].
Qed.

Lemma in_firstn_in {A : Type} n (l : list A) x : In x (firstn n l) -> In x l.
Proof.
  revert l; induction n as [| n IH]; intros [| y l] H; cbn in *; try contradiction.
  destruct H as [H | H]; [left; exact H | right; apply IH; exact H].
Qed.

(** X15.  The column [t30] stays within the range of the mean temperatures
    of the record: when every [tmean] lies between [lo] and [hi], so does
    every [t30]; and on the first row [t30] is the [tmean] of that row. *)
Theorem t30_within_range rows lo hi :
  (forall r, In r rows -> lo <= ETCell.tmean r /\ ETCell.tmean r <= hi) ->
  (forall i, (i < List.length rows)%nat ->
             lo <= nth i (ETCell.t30 rows) 0 /\ nth i (ETCell.t30 rows) 0 <= hi)
  /\ (forall r rows', rows = r :: rows' ->
        nth 0 (ETCell.t30 rows) 0 == ETCell.tmean r).
Proof.
  intro H. split.
  - intros i Hi. unfold ETCell.t30.
    rewrite rolling_mean_nth by (rewrite length_map; exact Hi).
    apply mean_between.
    + intro E. apply (f_equal (@List.length Q)) in E.
      rewrite slice_window_length in E by (rewrite length_map; exact Hi).
      cbn in E. lia.
    + intros x Hx. unfold slice in Hx.
      apply in_firstn_in in Hx.
      assert (Hx' : In x (map ETCell.tmean rows)).
      { rewrite <- (firstn_skipn (S i - 30) (map ETCell.tmean rows)).
        apply in_or_app. right. exact Hx. }
      apply in_map_iff in Hx'. destruct Hx' as (r & Er & Hr).
      subst x. apply H. exact Hr.
  - intros r rows' E. subst rows. unfold ETCell.t30.
    rewrite rolling_mean_nth by (cbn; lia).
    unfold slice, mean. cbn [Nat.sub map skipn firstn List.length sum fold_right].
    change (inject_Z (Z.of_nat 1)) with 1. field.
Qed.

Lemma t30_within_range_witness :
  -6 <= nth 4 (ETCell.t30 rows_2x3) 0 /\ nth 4 (ETCell.t30 rows_2x3) 0 <= 8.
Proof.
  refine (proj1 (t30_within_range rows_2x3 (-6) 8 _) 4%nat _).
  - intros r Hr. cbn in Hr.
    destruct Hr as [Hr | [Hr | [Hr | [Hr | [Hr | [Hr | []]]]]]]; subst r;
      vm_compute; split; discriminate.
  - cbn. lia.
Defined.

(** X16.  The two tables of long term normals exist exactly for a record
    that is not empty; on an empty record the copy of the value of day 1 to
    index 0 fails, for there is no such value. *)
Theorem normals_need_a_record rows :
  (ETCell.main_t30_lt rows = None <-> rows = [])
  /\ (ETCell.main_cgdd_0_lt rows = None <-> rows = []).
Proof.
  assert (G : forall kv, ETCell.insert_first (ETCell.groupby_mean kv) = None
                         <-> kv = []).
  { intro kv. split.
    - intro H. destruct kv as [| [k v] kv]; [reflexivity |].
      assert (K : In k (map fst (ETCell.groupby ((k, v) :: kv))))
        by (apply groupby_keys; left; reflexivity).
      unfold ETCell.groupby_mean in H.
      destruct (ETCell.groupby ((k, v) :: kv)); [destruct K | discriminate H].
    - intro H. subst kv. reflexivity. }
  assert (C : forall (a : list Z) (b : list Q),
             List.length a = List.length b -> (combine a b = [] <-> a = [])).
  { intros [| x a] [| y b] H; cbn in *; try discriminate; split; congruence. }
  unfold ETCell.main_t30_lt, ETCell.main_cgdd_0_lt.
  rewrite !G. rewrite !C.
  - split; (split; intro H; [destruct rows; [reflexivity | discriminate H]
                            | subst rows; reflexivity]).
  - unfold ETCell.cgdd. rewrite cumsum_by_year_length, length_map. reflexivity.
  - unfold ETCell.t30. rewrite rolling_mean_length, !length_map. reflexivity.
Qed.

(** ** Filtering the cells by crop *)

Lemma in_list_In x l : in_list x l = true <-> In x l.
Proof.
  unfold in_list. rewrite existsb_exists. split.
  - intros (y & Hy & E). apply Z.eqb_eq in E. subst y. exact Hy.
  - intro H. exists x. split; [exact H | apply Z.eqb_refl].
Qed.




(** ** The plotting tool: the yes or no question *)

Lemma ask_rejected text default rejected :
  Forall (fun l => Plot.reply default (Plot.lower l) = None) rejected ->
  forall inputs out,
    Plot.ask text default (rejected ++ inputs) out
    = Plot.ask text default inputs
        (out ++ flat_map (fun _ => [text; Plot.reminder]) rejected).
Proof.
  induction 1 as [| l rejected Hl _ IH]; intros inputs out.
  - cbn [app flat_map]. rewrite app_nil_r. reflexivity.
  - cbn [app Plot.ask flat_map]. rewrite Hl, IH, <- app_assoc. reflexivity.
Qed.

(** X18.  [query_yes_no] answers with the first line of input that it
    accepts, in any mix of upper and lower case: every line before it is
    read and answered by the reminder, the question is written once more
    for each of them, and the lines after it are left unread.  When no line
    is accepted it ends with the [EOFError] of [raw_input]; and a default
    other than [None], "yes" and "no" is a [ValueError] before anything is
    written or read. *)
Theorem query_yes_no_first_accepted question default rejected :
  Forall (fun l => Plot.reply default (Plot.lower l) = None) rejected ->
  (Plot.prompt default = None ->
   forall inputs,
     Plot.query_yes_no question default inputs
     = (Plot.RaisesValueError, [], inputs))
  /\ (forall p, Plot.prompt default = Some p ->
      let text := (question ++ p)%string in
      (forall line rest b,
          Plot.reply default (Plot.lower line) = Some b ->
          Plot.query_yes_no question default (rejected ++ line :: rest)
          = (Plot.Answer b,
             flat_map (fun _ => [text; Plot.reminder]) rejected ++ [text],
             rest))
      /\ Plot.query_yes_no question default rejected
         = (Plot.RaisesEOFError,
            flat_map (fun _ => [text; Plot.reminder]) rejected ++ [text],
            [])).
Proof.
  intro H. unfold Plot.query_yes_no. split.
  - intros E inputs. rewrite E. reflexivity.
  - intros p E. cbv zeta. rewrite E.
    set (text := (question ++ p)%string). split.
    + intros line rest b Hb.
      rewrite (ask_rejected text default rejected H). cbn [Plot.ask app].
      rewrite Hb. reflexivity.
    + rewrite <- (app_nil_r rejected) at 1.
      rewrite (ask_rejected text default rejected H). reflexivity.
Qed.

(** "maybe", an empty line where there is no default, then "YES". *)
Lemma query_yes_no_first_accepted_witness :
  Plot.query_yes_no "Save Figures" None
    ["maybe"; ""; "YES"; "no"]%string
  = (Plot.Answer true,
     ["Save Figures [y/n] "; Plot.reminder; "Save Figures [y/n] ";
      Plot.reminder; "Save Figures [y/n] "]%string,
     ["no"%string]).
Proof.
  refine (proj1 (proj2 (query_yes_no_first_accepted "Save Figures" None
                          ["maybe"; ""]%string _)
                   " [y/n] "%string eq_refl) "YES"%string ["no"%string] true _).
  - repeat constructor.
  - reflexivity.
Defined.

(** ** The plotting tool: the indices of the crops *)





(** ** The plotting tool: the years *)

(** X20.  The checks of the years let a file pass exactly when it has rows
    of the start year and rows of the end year and the end year is after the
    start year; equal years are refused.  Of a file that passes, the rows
    that are plotted are those of the years from the start year to the end
    year. *)
Theorem check_years_spec year_start year_end years :
  (Plot.check_years year_start year_end years <> None
   <-> In year_start years /\ In year_end years /\ (year_start < year_end)%Z)
  /\ forall mask,
      Plot.check_years year_start year_end years = Some mask ->
      List.length mask = List.length years
      /\ forall i, (i < List.length years)%nat ->
           (nth i mask false = true
            <-> (year_start <= nth i years 0 <= year_end)%Z).
Proof.
  assert (M : forall y, in_list y (Plot.year_sub_array year_start year_end years)
                        = true
                        <-> In y years /\ (year_start <= y <= year_end)%Z).
  { intro y. rewrite in_list_In. unfold Plot.year_sub_array.
    rewrite filter_In, andb_true_iff, !Z.leb_le. reflexivity. }
  unfold Plot.check_years. split.
  - destruct (in_list year_start _) eqn:E1; cbn [negb].
    + apply M in E1.
      destruct (in_list year_end _) eqn:E2; cbn [negb].
      * apply M in E2. destruct (year_end <=? year_start)%Z eqn:E3.
        -- apply Z.leb_le in E3. split; [congruence | lia].
        -- apply Z.leb_gt in E3. split; [intro; tauto | discriminate].
      * split; [congruence |]. intros (_ & H & L).
        assert (T : in_list year_end
                      (Plot.year_sub_array year_start year_end years) = true)
          by (apply M; split; [exact H | lia]).
        congruence.
    + split; [congruence |]. intros (H & _ & L).
      assert (T : in_list year_start
                    (Plot.year_sub_array year_start year_end years) = true)
        by (apply M; split; [exact H | lia]).
      congruence.
  - intros mask H.
    destruct (negb (in_list year_start _)); [discriminate H |].
    destruct (negb (in_list year_end _)); [discriminate H |].
    destruct (year_end <=? year_start)%Z; [discriminate H |].
    injection H as H. subst mask. rewrite length_map. split; [reflexivity |].
    intros i Hi. rewrite (nth_map_lt _ _ i 0%Z false) by exact Hi.
    rewrite M. split; [tauto |]. intro H. split; [| exact H].
    apply nth_In. exact Hi.
Qed.

(** A file with rows of 1950, 1951, 1999 and 2000 passes, without its rows
    of 2000; a file that begins in 1951 does not. *)
Lemma check_years_spec_witness :
  Plot.check_years 1950 1999 [1950; 1951; 1999; 2000]%Z
  = Some [true; true; true; false]
  /\ Plot.check_years 1950 1999 [1951; 1999]%Z = None
  /\ List.length [true; true; true; false] = 4%nat.
Proof.
  assert (E : Plot.check_years 1950 1999 [1950; 1951; 1999; 2000]%Z
              = Some [true; true; true; false]) by reflexivity.
  split; [exact E |]. split; [reflexivity |].
  exact (proj1 (proj2 (check_years_spec 1950 1999 [1950; 1951; 1999; 2000]%Z)
                  _ E)).
Defined.

(** ** The units of the weather file *)

Lemma Qdiv_18_10 (x : Q) : x / (18 # 10) == x * (10 # 18).
Proof. unfold Qdiv. reflexivity. Qed.

(** X21.  The unit of a field, read without regard to case, brings the
    values of its column to the metric units of the model: a temperature in
    degrees Fahrenheit or in Kelvin becomes the temperature in degrees
    Celsius, hundredths of an inch are converted as inches are, watts per
    square metre become megajoules per square metre and day.  No conversion
    changes the order of two values.  A unit that is not known leaves the
    values as they are. *)
Theorem units_to_metric (field_units : string) (v w : Q) :
  let conv := fun x => fst (Weather.convert_units (Some field_units) x) in
  (Plot.lower field_units = "f"%string -> conv (v * (18 # 10) + 32) == v)
  /\ (Plot.lower field_units = "k"%string -> conv (v + (27315 # 100)) == v)
  /\ (Plot.lower field_units = "in*100"%string ->
      conv (v * 100) == fst (Weather.convert_units (Some "in"%string) v))
  /\ (Plot.lower field_units = "w/m2"%string
      \/ Plot.lower field_units = "w/m^2"%string ->
      conv v == v * 86400 / 1000000)
  /\ (v <= w -> conv v <= conv w)
  /\ (snd (Weather.convert_units (Some field_units) v) = true -> conv v = v).
Proof.
  assert (E : fst (Weather.convert_units (Some "in"%string) v) = v * (254 # 10))
    by reflexivity.
  rewrite E. clear E.
  cbv zeta. unfold Weather.convert_units. cbv zeta.
  repeat split.
  - intro H. rewrite H.
    cbn [Weather.in_strings existsb String.eqb Ascii.eqb Bool.eqb orb fst].
    rewrite Qdiv_18_10. lra.
  - intro H. rewrite H.
    cbn [Weather.in_strings existsb String.eqb Ascii.eqb Bool.eqb orb fst
         Plot.lower Plot.lower_ascii].
    lra.
  - intro H. rewrite H.
    cbn [Weather.in_strings existsb String.eqb Ascii.eqb Bool.eqb orb fst].
    lra.
  - intros [H | H]; rewrite H;
      cbn [Weather.in_strings existsb String.eqb Ascii.eqb Bool.eqb orb fst];
      unfold Qdiv; change (/ 1000000) with (1 # 1000000); lra.
  - intro H.
    destruct (Weather.in_strings _ _); cbn [fst]; [exact H |].
    destruct (String.eqb _ "k"); cbn [fst]; [lra |].
    destruct (String.eqb _ "f"); cbn [fst]; [rewrite !Qdiv_18_10; lra |].
    destruct (String.eqb _ "in*100"); cbn [fst]; [lra |].
    destruct (String.eqb _ "in"); cbn [fst]; [lra |].
    destruct (Weather.in_strings _ _); cbn [fst]; [lra | exact H].
  - destruct (Weather.in_strings _ _); cbn [fst snd]; [reflexivity |].
    destruct (String.eqb _ "k"); cbn [fst snd]; [discriminate |].
    destruct (String.eqb _ "f"); cbn [fst snd]; [discriminate |].
    destruct (String.eqb _ "in*100"); cbn [fst snd]; [discriminate |].
    destruct (String.eqb _ "in"); cbn [fst snd]; [discriminate |].
    destruct (Weather.in_strings _ _); cbn [fst snd]; [discriminate | reflexivity].
Qed.

(** Water boils at 212 F, which is 100 C. *)
Lemma units_to_metric_witness :
  Plot.lower "F" = "f"%string
  /\ fst (Weather.convert_units (Some "F"%string) (100 * (18 # 10) + 32)) == 100.
Proof.
  split; [reflexivity |].
  exact (proj1 (units_to_metric "F" 100 100) eq_refl).
Defined.

(** ** The crop parameters of the cells *)

Lemma lookup_In {V : Type} k (d : list (string * V)) v :
  lookup String.eqb k d = Some v -> In (k, v) d.
Proof.
  induction d as [| [k' v'] d IH]; cbn [lookup fst snd]; [discriminate |].
  destruct (String.eqb_spec k k') as [-> | N].
  - intros [= ->]. left. reflexivity.
  - intro H. right. exact (IH H).
Qed.

Lemma lookup_known {V : Type} k (d : list (string * V)) :
  In k (map fst d) -> exists v, lookup String.eqb k d = Some v.
Proof.
  induction d as [| [k' v'] d IH]; cbn [map lookup fst snd In]; [tauto |].
  intro H. destruct (String.eqb_spec k k') as [-> | N].
  - eexists. reflexivity.
  - destruct H as [H | H]; [congruence | exact (IH H)].
Qed.

Lemma In_snd_unique {A B : Type} (d : list (A * B)) a a' b :
  NoDup (map snd d) -> In (a, b) d -> In (a', b) d -> a = a'.
Proof.
  induction d as [| [x y] d IH]; cbn [map snd In]; [tauto |].
  intros N H H'. inversion N as [| ? ? Hy N']; subst.
  destruct H as [H | H], H' as [H' | H'].
  - congruence.
  - injection H as -> ->. exfalso. apply Hy.
    exact (in_map snd _ _ H').
  - injection H' as -> ->. exfalso. apply Hy.
    exact (in_map snd _ _ H).
  - exact (IH N' H H').
Qed.

(** No two fields of a shapefile stand for the same crop parameter. *)
Lemma param_field_dict_injective f f' p :
  lookup String.eqb f Params.param_field_dict = Some p ->
  lookup String.eqb f' Params.param_field_dict = Some p ->
  f = f'.
Proof.
  intros H H'. apply lookup_In in H, H'.
  refine (In_snd_unique _ _ _ _ _ H H').
  assert (E : nodup string_dec (map snd Params.param_field_dict)
              = map snd Params.param_field_dict) by (vm_compute; reflexivity).
  rewrite <- E. apply NoDup_nodup.
Qed.

Lemma fold_left_preserves {A B C : Type} (f : A -> B -> A) (g : A -> C) :
  (forall a b, g (f a b) = g a) ->
  forall l a, g (fold_left f l a) = g a.
Proof.
  intros H l. induction l as [| b l IH]; intro a; cbn [fold_left];
    [reflexivity |].
  rewrite IH. apply H.
Qed.

Lemma set_item_refs {V : Type} k (cell cell' : Params.ETCell V) d :
  lookup String.eqb k d = Some cell ->
  Params.crop_params cell' = Params.crop_params cell ->
  map (fun item => (fst item, Params.crop_params (snd item)))
      (Params.set_item k cell' d)
  = map (fun item => (fst item, Params.crop_params (snd item))) d.
Proof.
  intros H E. induction d as [| [k' c] d IH];
    cbn [Params.set_item lookup map fst snd] in *; [reflexivity |].
  destruct (String.eqb k k').
  - injection H as ->. cbn [map fst snd]. rewrite E. reflexivity.
  - cbn [map fst snd]. rewrite (IH H). reflexivity.
Qed.

(** Reading a shapefile leaves the dictionary [crop_params] of every cell
    as it is: the objects change, not the references to them. *)
Lemma set_field_refs {V : Type} cell_id crop_num (st : Params.ETCellData V * nat)
  field :
  crop_refs (fst (Params.set_field cell_id crop_num st field)) = crop_refs (fst st).
Proof.
  destruct st as [self warnings], field as [field_name row_value].
  unfold Params.set_field.
  destruct (lookup String.eqb field_name Params.param_field_dict).
  - destruct (lookup String.eqb cell_id (Params.et_cells_dict self)) as [cell |];
      [| reflexivity].
    destruct (Params.crop_params cell) as [d |]; [| reflexivity].
    destruct (lookup Z.eqb crop_num d); reflexivity.
  - destruct (lookup String.eqb field_name Params.cutting_field_dict);
      [| reflexivity].
    destruct (lookup String.eqb cell_id (Params.et_cells_dict self))
      as [cell |] eqn:L; [| reflexivity].
    unfold crop_refs. cbn [fst Params.et_cells_dict].
    apply (set_item_refs _ cell); [exact L | reflexivity].
Qed.

Lemma set_record_refs {V : Type} crop_num (st : Params.ETCellData V * nat) r :
  crop_refs (fst (Params.set_record crop_num st r)) = crop_refs (fst st).
Proof.
  unfold Params.set_record.
  apply (fold_left_preserves _ (fun st => crop_refs (fst st))).
  intros a b. apply set_field_refs.
Qed.

Lemma set_records_refs {V : Type} (st : Params.ETCellData V * nat) crop_dbf :
  crop_refs (fst (Params.set_records st crop_dbf)) = crop_refs (fst st).
Proof.
  unfold Params.set_records.
  apply (fold_left_preserves _ (fun st => crop_refs (fst st))).
  intros a b. apply set_record_refs.
Qed.

Lemma set_spatial_crop_params_refs {V : Type} crop_dbf_dict
  (self : Params.ETCellData V) :
  crop_refs (fst (Params.set_spatial_crop_params crop_dbf_dict self))
  = crop_refs self.
Proof.
  unfold Params.set_spatial_crop_params.
  rewrite (fold_left_preserves _ (fun st => crop_refs (fst st)));
    [reflexivity |].
  intros a b. apply set_records_refs.
Qed.

Lemma set_static_crop_params_refs {V : Type} crop_params
  (self : Params.ETCellData V) :
  crop_refs (Params.set_static_crop_params crop_params self)
  = map (fun item => (fst item, Some crop_params)) (Params.et_cells_dict self).
Proof.
  unfold crop_refs, Params.set_static_crop_params.
  cbn [Params.et_cells_dict]. rewrite map_map. reflexivity.
Qed.

(** A cell of a state whose references are those that
    [set_static_crop_params] has set holds the dictionary of that call. *)
Lemma refs_crop_params {V : Type} crop_params (cells : list (string * Params.ETCell V))
  (self : Params.ETCellData V) b cell_b :
  crop_refs self = map (fun item => (fst item, Some crop_params)) cells ->
  lookup String.eqb b (Params.et_cells_dict self) = Some cell_b ->
  Params.crop_params cell_b = Some crop_params.
Proof.
  intros R L. apply lookup_In in L.
  apply (in_map (fun item => (fst item, Params.crop_params (snd item)))) in L.
  fold (crop_refs self) in L. rewrite R in L. cbn [fst snd] in L.
  apply in_map_iff in L. destruct L as (item & E & _).
  congruence.
Qed.

Lemma refs_known {V : Type} crop_params (cells : list (string * Params.ETCell V))
  (self : Params.ETCellData V) k :
  crop_refs self = map (fun item => (fst item, Some crop_params)) cells ->
  In k (map fst cells) ->
  exists cell, lookup String.eqb k (Params.et_cells_dict self) = Some cell.
Proof.
  intros R H. apply lookup_known.
  assert (E : map fst (Params.et_cells_dict self) = map fst (crop_refs self)).
  { unfold crop_refs. rewrite map_map. reflexivity. }
  rewrite E, R, map_map. exact H.
Qed.

(** X22.  The static crop parameters are shared: after
    [set_static_crop_params] and [set_spatial_crop_params], whatever the
    shapefiles hold, any two cells have the same value of every parameter of
    every crop. *)
Theorem crop_params_shared {V : Type} (crop_params : list (Z * nat))
  (crop_dbf_dict : list (Z * list (Params.record V)))
  (self : Params.ETCellData V) (a b : string) (cell_a cell_b : Params.ETCell V) :
  let self' :=
    fst (Params.set_spatial_crop_params crop_dbf_dict
           (Params.set_static_crop_params crop_params self)) in
  lookup String.eqb a (Params.et_cells_dict self') = Some cell_a ->
  lookup String.eqb b (Params.et_cells_dict self') = Some cell_b ->
  forall crop_num name,
    Params.crop_attr self' cell_a crop_num name
    = Params.crop_attr self' cell_b crop_num name.
Proof.
  intros self' La Lb crop_num name.
  assert (R : crop_refs self'
              = map (fun item => (fst item, Some crop_params))
                    (Params.et_cells_dict self)).
  { unfold self'. rewrite set_spatial_crop_params_refs.
    apply set_static_crop_params_refs. }
  unfold Params.crop_attr.
  rewrite (refs_crop_params _ _ _ _ _ R La), (refs_crop_params _ _ _ _ _ R Lb).
  reflexivity.
Qed.

Lemma set_field_param {V : Type} crop_params
  (cells : list (string * Params.ETCell V)) (self : Params.ETCellData V)
  warnings cell_id crop_num addr f p (v : V) :
  crop_refs self = map (fun item => (fst item, Some crop_params)) cells ->
  In cell_id (map fst cells) ->
  lookup Z.eqb crop_num crop_params = Some addr ->
  lookup String.eqb f Params.param_field_dict = Some p ->
  Params.set_field cell_id crop_num (self, warnings) (f, v)
  = (Params.mkData (Params.store (Params.objects self) addr p v)
                   (Params.et_cells_dict self) (Params.crop_num_list self),
     warnings).
Proof.
  intros R K A P. unfold Params.set_field. rewrite P.
  destruct (refs_known _ _ _ _ R K) as (cell & L). rewrite L.
  rewrite (refs_crop_params _ _ _ _ _ R L), A. reflexivity.
Qed.

Lemma set_field_other {V : Type} cell_id crop_num
  (st : Params.ETCellData V * nat) f' (v' : V) a p :
  lookup String.eqb f' Params.param_field_dict <> Some p ->
  Params.getattr
    (Params.objects (fst (Params.set_field cell_id crop_num st (f', v'))) a) p
  = Params.getattr (Params.objects (fst st) a) p.
Proof.
  intro N. destruct st as [self warnings]. unfold Params.set_field.
  destruct (lookup String.eqb f' Params.param_field_dict) as [p' |].
  - destruct (lookup String.eqb cell_id (Params.et_cells_dict self)) as [cell |];
      [| reflexivity].
    destruct (Params.crop_params cell) as [d |]; [| reflexivity].
    destruct (lookup Z.eqb crop_num d) as [addr |]; [| reflexivity].
    cbn [fst Params.objects]. unfold Params.store.
    destruct (Nat.eqb a addr); [| reflexivity].
    unfold Params.setattr, Params.getattr. cbn [lookup fst snd].
    destruct (String.eqb_spec p p') as [-> | _]; [congruence | reflexivity].
  - destruct (lookup String.eqb f' Params.cutting_field_dict); [| reflexivity].
    destruct (lookup String.eqb cell_id (Params.et_cells_dict self));
      reflexivity.
Qed.

Lemma set_fields_other {V : Type} cell_id crop_num f p a
  (fs : list (string * V)) :
  lookup String.eqb f Params.param_field_dict = Some p ->
  ~ In f (map fst fs) ->
  forall st,
    Params.getattr
      (Params.objects (fst (fold_left (Params.set_field cell_id crop_num) fs st)) a) p
    = Params.getattr (Params.objects (fst st) a) p.
Proof.
  intros P. induction fs as [| [f' v'] fs IH]; intros N st; cbn [fold_left];
    [reflexivity |].
  cbn [map fst In] in N. rewrite IH by tauto.
  apply set_field_other. intro P'.
  apply N. left. exact (param_field_dict_injective _ _ _ P' P).
Qed.

Lemma set_fields_last {V : Type} crop_params
  (cells : list (string * Params.ETCell V)) cell_id crop_num addr f p (v : V) fs :
  In cell_id (map fst cells) ->
  lookup Z.eqb crop_num crop_params = Some addr ->
  lookup String.eqb f Params.param_field_dict = Some p ->
  NoDup (map fst fs) -> In (f, v) fs ->
  forall st,
    crop_refs (fst st) = map (fun item => (fst item, Some crop_params)) cells ->
    Params.getattr
      (Params.objects (fst (fold_left (Params.set_field cell_id crop_num) fs st))
                      addr) p
    = Some v.
Proof.
  intros K A P. induction fs as [| fld fs IH]; intros N I st R; [destruct I |].
  cbn [fold_left]. cbn [map] in N. inversion N as [| ? ? Hf N']; subst.
  destruct I as [-> | I].
  - cbn [fst] in Hf. rewrite (set_fields_other _ _ _ _ _ _ P Hf).
    destruct st as [self warnings]. cbn [fst] in R.
    rewrite (set_field_param _ _ _ _ _ _ _ _ _ _ R K A P).
    cbn [fst Params.objects]. unfold Params.store. rewrite Nat.eqb_refl.
    unfold Params.setattr, Params.getattr. cbn [lookup fst snd].
    rewrite String.eqb_refl. reflexivity.
  - apply (IH N' I). rewrite set_field_refs. exact R.
Qed.

(** X23.  A record of the shapefile of a crop sets a parameter of that crop
    for all the cells, not only for the cell that it names: after the
    shapefile has been read, every cell has the value of the last record
    (of a known cell) for each parameter that this record holds. *)
Theorem last_record_reaches_every_cell {V : Type} (crop_params : list (Z * nat))
  (self : Params.ETCellData V) (crop_num : Z) (addr : nat)
  (records : list (Params.record V)) (r : Params.record V)
  (field_name param_name : string) (v : V)
  (b : string) (cell_b : Params.ETCell V) :
  let self' :=
    fst (Params.set_records
           (Params.set_static_crop_params crop_params self, 0%nat)
           (crop_num, records ++ [r])) in
  lookup Z.eqb crop_num crop_params = Some addr ->
  In (Params.CELL_ID r) (map fst (Params.et_cells_dict self)) ->
  NoDup (map fst (Params.fields r)) ->
  In (field_name, v) (Params.fields r) ->
  lookup String.eqb field_name Params.param_field_dict = Some param_name ->
  lookup String.eqb b (Params.et_cells_dict self') = Some cell_b ->
  Params.crop_attr self' cell_b crop_num param_name = Some v.
Proof.
  cbv zeta. intros A K N I P.
  unfold Params.set_records. cbn [fst snd].
  rewrite fold_left_app. cbn [fold_left].
  set (st := fold_left (Params.set_record crop_num) records
               (Params.set_static_crop_params crop_params self, 0%nat)).
  intro L.
  assert (R : crop_refs (fst st)
              = map (fun item => (fst item, Some crop_params))
                    (Params.et_cells_dict self)).
  { unfold st.
    rewrite (fold_left_preserves _ (fun st => crop_refs (fst st)))
      by (intros; apply set_record_refs).
    apply set_static_crop_params_refs. }
  assert (R' : crop_refs (fst (Params.set_record crop_num st r))
               = map (fun item => (fst item, Some crop_params))
                     (Params.et_cells_dict self)).
  { rewrite set_record_refs. exact R. }
  unfold Params.crop_attr. rewrite (refs_crop_params _ _ _ _ _ R' L), A.
  unfold Params.set_record.
  exact (set_fields_last _ _ _ _ _ _ _ _ _ K A P N I st R).
Qed.

(** The record of cell 101 for crop 7 sets [tbase] for cell 102 as well. *)
Lemma crop_params_shared_witness :
  let self' :=
    fst (Params.set_spatial_crop_params [(7%Z, [sample_record])]
           (Params.set_static_crop_params sample_crop_params sample_params)) in
  let cell_a :=
    Params.mkCell (Some sample_crop_params) [("beef_cuttings"%string, 4)] in
  let cell_b := Params.mkCell (Some sample_crop_params) [] in
  lookup String.eqb "101"%string (Params.et_cells_dict self') = Some cell_a
  /\ lookup String.eqb "102"%string (Params.et_cells_dict self') = Some cell_b
  /\ Params.crop_attr self' cell_a 7 "tbase"
     = Params.crop_attr self' cell_b 7 "tbase".
Proof.
  cbv zeta.
  assert (La : lookup String.eqb "101"%string
                 (Params.et_cells_dict
                    (fst (Params.set_spatial_crop_params [(7%Z, [sample_record])]
                            (Params.set_static_crop_params sample_crop_params
                                                           sample_params))))
               = Some (Params.mkCell (Some sample_crop_params)
                                     [("beef_cuttings"%string, 4)]))
    by reflexivity.
  assert (Lb : lookup String.eqb "102"%string
                 (Params.et_cells_dict
                    (fst (Params.set_spatial_crop_params [(7%Z, [sample_record])]
                            (Params.set_static_crop_params sample_crop_params
                                                           sample_params))))
               = Some (Params.mkCell (Some sample_crop_params) []))
    by reflexivity.
  split; [exact La |]. split; [exact Lb |].
  exact (crop_params_shared sample_crop_params [(7%Z, [sample_record])]
           sample_params "101" "102" _ _ La Lb 7%Z "tbase"%string).
Defined.

Lemma last_record_reaches_every_cell_witness :
  let self' :=
    fst (Params.set_records
           (Params.set_static_crop_params sample_crop_params sample_params, 0%nat)
           (7%Z, [] ++ [sample_record])) in
  lookup String.eqb "102"%string (Params.et_cells_dict self')
  = Some (Params.mkCell (Some sample_crop_params) [])
  /\ Params.crop_attr self' (Params.mkCell (Some sample_crop_params) []) 7 "tbase"
     = Some 5.
Proof.
  cbv zeta. split; [reflexivity |].
  apply (last_record_reaches_every_cell sample_crop_params sample_params 7%Z 1%nat
           [] sample_record "CGDD_Tbase" "tbase" 5 "102").
  - reflexivity.
  - left. reflexivity.
  - cbn. repeat (constructor; [cbn; intuition discriminate |]). constructor.
  - left. reflexivity.
  - reflexivity.
  - reflexivity.
Defined.

(** ** [crop_cycle] *)

Lemma insert_item_In {V : Type} (x y : Z * V) l :
  In x (insert_item y l) <-> x = y \/ In x l.
Proof.
  induction l as [| z l IH]; cbn [insert_item In].
  - intuition congruence.
  - destruct (fst y <=? fst z)%Z; cbn [In]; rewrite ?IH; intuition congruence.
Qed.

Lemma sorted_items_In {V : Type} (x : Z * V) d :
  In x (sorted_items d) <-> In x d.
Proof.
  induction d as [| y d IH]; cbn [sorted_items fold_right In]; [tauto |].
  fold (sorted_items d). rewrite insert_item_In, IH. intuition congruence.
Qed.

Lemma insert_item_sorted {V : Type} (x : Z * V) l :
  StronglySorted (fun a b => (fst a <= fst b)%Z) l ->
  StronglySorted (fun a b => (fst a <= fst b)%Z) (insert_item x l).
Proof.
  induction 1 as [| z l S IH F]; cbn [insert_item].
  - constructor; constructor.
  - destruct (Z.leb_spec (fst x) (fst z)) as [L | L].
    + constructor; [constructor; assumption |].
      constructor; [exact L |].
      eapply Forall_impl; [| exact F]. cbn beta. intros; lia.
    + constructor; [exact IH |].
      apply Forall_forall. intros y Hy. apply insert_item_In in Hy.
      destruct Hy as [-> | Hy]; [lia |].
      rewrite Forall_forall in F. exact (F y Hy).
Qed.

Lemma sorted_items_sorted {V : Type} (d : list (Z * V)) :
  StronglySorted (fun a b => (fst a <= fst b)%Z) (sorted_items d).
Proof.
  induction d as [| y d IH]; cbn [sorted_items fold_right]; [constructor |].
  apply insert_item_sorted. exact IH.
Qed.

Lemma In_fst_unique {A B : Type} (d : list (A * B)) a b b' :
  NoDup (map fst d) -> In (a, b) d -> In (a, b') d -> b = b'.
Proof.
  induction d as [| [x y] d IH]; cbn [map fst In]; [tauto |].
  intros N H H'. inversion N as [| ? ? Hx N']; subst.
  destruct H as [H | H], H' as [H' | H'].
  - congruence.
  - injection H as -> ->. exfalso. apply Hx.
    exact (in_map fst _ _ H').
  - injection H' as -> ->. exfalso. apply Hx.
    exact (in_map fst _ _ H).
  - exact (IH N' H H').
Qed.

Lemma date_mask_long dates start_dt end_dt :
  (2 <= List.length dates)%nat -> date_mask dates start_dt end_dt = None.
Proof.
  destruct dates as [| d1 [| d2 dates]]; cbn [List.length]; try lia.
  intros _. reflexivity.
Qed.

Lemma crop_loop_idle aFNEs setup_crop setup_dormant et_physics crop_load
  refet_type crop_flags cell_id start_dt end_dt steps items files :
  Forall (fun item => lookup Z.eqb (fst item) crop_flags = Some false) items ->
  crop_loop aFNEs setup_crop setup_dormant et_physics crop_load refet_type
            crop_flags cell_id start_dt end_dt steps items files
  = CellData.Returns files.
Proof.
  induction 1 as [| item items E F IH]; cbn [crop_loop]; [reflexivity |].
  rewrite E. exact IH.
Qed.

Lemma crop_loop_first aFNEs setup_crop setup_dormant et_physics crop_load
  refet_type crop_flags cell_id start_dt end_dt steps crop_num crop :
  (2 <= List.length steps)%nat ->
  lookup Z.eqb crop_num crop_flags = Some true ->
  forall items files,
    StronglySorted (fun a b => (fst a <= fst b)%Z) items ->
    In (crop_num, crop) items ->
    (forall crop', In (crop_num, crop') items -> crop' = crop) ->
    (forall item, In item items -> (fst item < crop_num)%Z ->
                  lookup Z.eqb (fst item) crop_flags = Some false) ->
    crop_loop aFNEs setup_crop setup_dormant et_physics crop_load refet_type
              crop_flags cell_id start_dt end_dt steps items files
    = CellData.Raises CellData.ValueError
        (files ++ [mkFile (cell_id, class_number crop) [Header] false]).
Proof.
  intros Hlen Hflag.
  induction items as [| [n0 crop0] items IH]; intros files S I U B;
    [destruct I |].
  cbn [crop_loop fst snd].
  destruct (Z.eq_dec n0 crop_num) as [-> | Ne].
  - rewrite Hflag.
    assert (E : crop0 = crop) by (apply U; left; reflexivity).
    subst crop0. unfold crop_day_loop.
    rewrite date_mask_long by (rewrite length_map; exact Hlen).
    reflexivity.
  - inversion S as [| ? ? S' F]; subst.
    destruct I as [I | I]; [congruence |].
    assert (L : (n0 < crop_num)%Z).
    { rewrite Forall_forall in F. specialize (F _ I). cbn [fst] in F. lia. }
    pose proof (B (n0, crop0) (or_introl eq_refl) L) as E.
    cbn [fst] in E. rewrite E.
    apply (IH files S' I).
    + intros crop' H. apply U. right. exact H.
    + intros item H. apply B. right. exact H.
Qed.

(** X24.  [crop_cycle] takes the crops in the order of their numbers and
    skips those that the cell does not grow.  If the cell grows none of
    them, it returns and no file is made.  On a record of two dates or more,
    the first crop that the cell grows ends the call in the [ValueError] of
    the date mask: its output file is the only one, holds the header and
    nothing else, and is left open. *)
Theorem crop_cycle_stops_at_first_crop aFNEs setup_crop setup_dormant et_physics
  crop_load refet_type crop_params crop_flags cell_id start_dt end_dt steps :
  let run :=
    crop_cycle aFNEs setup_crop setup_dormant et_physics crop_load refet_type
               crop_params crop_flags cell_id start_dt end_dt steps in
  (Forall (fun item => lookup Z.eqb (fst item) crop_flags = Some false)
          crop_params ->
   run = CellData.Returns [])
  /\ (forall crop_num crop,
        (2 <= List.length steps)%nat ->
        NoDup (map fst crop_params) ->
        In (crop_num, crop) crop_params ->
        lookup Z.eqb crop_num crop_flags = Some true ->
        Forall (fun item => (fst item < crop_num)%Z ->
                            lookup Z.eqb (fst item) crop_flags = Some false)
               crop_params ->
        run = CellData.Raises CellData.ValueError
                [mkFile (cell_id, class_number crop) [Header] false]).
Proof.
  cbv zeta. unfold crop_cycle. split.
  - intro F. apply crop_loop_idle.
    rewrite Forall_forall in *. intros item H. apply F.
    apply sorted_items_In. exact H.
  - intros crop_num crop Hlen N I Hflag F.
    apply (crop_loop_first _ _ _ _ _ _ _ _ _ _ _ crop_num crop Hlen Hflag
             (sorted_items crop_params) []).
    + apply sorted_items_sorted.
    + apply sorted_items_In. exact I.
    + intros crop' H. apply (proj1 (sorted_items_In _ _)) in H.
      exact (In_fst_unique _ _ _ _ N H I).
    + rewrite Forall_forall in F. intros item H. apply F.
      apply sorted_items_In. exact H.
Qed.

(** Alfalfa is not grown: the run of three days stops at field corn, before
    winter wheat. *)
Lemma crop_cycle_stops_at_first_crop_witness :
  (2 <= List.length steps_3)%nat
  /\ lookup Z.eqb 7%Z sample_flags = Some true
  /\ crop_cycle sample_aFNEs sample_setup_crop sample_setup_dormant
                sample_et_physics (fun _ => foo_start) 1 sample_crops
                sample_flags "101" window_start window_end steps_3
     = CellData.Raises CellData.ValueError
         [mkFile ("101"%string, 7%Z) [Header] false].
Proof.
  split; [cbn; lia |]. split; [reflexivity |].
  apply (proj2 (crop_cycle_stops_at_first_crop sample_aFNEs sample_setup_crop
                  sample_setup_dormant sample_et_physics (fun _ => foo_start) 1
                  sample_crops sample_flags "101" window_start window_end
                  steps_3) 7%Z field_corn).
  - cbn; lia.
  - cbn. repeat (constructor; [cbn; intuition discriminate |]). constructor.
  - right. right. left. reflexivity.
  - reflexivity.
  - repeat constructor; cbn [fst]; intro H; try reflexivity; lia.
Defined.
